(** * GAME Orca evaluator: format negotiation, transport retry, decoding and
      run orchestration

    A shallow embedding of
      - [Test_setChr9_Evaluator/config.py],
      - [Test_setChr8_Evaluator/evaluator_content_handler.py],
      - [Test_setChr9_Evaluator/evaluator_RestAPI.py],
      - [Test_setChr8_Evaluator/data_loader.py],
      - [Test_setChr8_Evaluator/evaluator_data/make_json_files.py],
      - the naming and writing of the table in
        [Validation_setChr10_Evaluator/evaluator_metrics_calculator.py].

    A Python [str] is modelled as the [string] of its characters and a
    [bytes] object as the [string] of its bytes.  Everything the program
    prints is kept in a trace of events, together with the HTTP calls, the
    sleeps, the file-system operations and the call of the metrics
    collaborator. *)

From Stdlib Require Import ZArith List String Ascii Bool Lia DecimalString DecimalZ
  DecimalPos FinFun.
Import ListNotations.

Open Scope string_scope.
Open Scope Z_scope.

(** ** Strings as Python uses them in this program *)

(** Case folding of the letters [A] to [Z]. *)
Definition lower_ascii (c : ascii) : ascii :=
  let n := nat_of_ascii c in
  if andb (Nat.leb 65 n) (Nat.leb n 90) then ascii_of_nat (n + 32) else c.

(** [s.lower()] for a text made of ASCII characters: the literals of
    config.py and the names of HTTP headers. *)
Fixpoint lower (s : string) : string :=
  match s with
  | EmptyString => EmptyString
  | String c s' => String (lower_ascii c) (lower s')
  end.

(** [s.lower()] for any text follows the case tables of the interpreter
    (the Kelvin sign, for one, becomes [k]); the embedding takes it from
    the Python runtime. *)
Class PyText : Type := { str_lower : string -> string }.

(** [needle in hay] for two strings: substring test. *)
Fixpoint contains (needle hay : string) : bool :=
  if String.prefix needle hay then true
  else match hay with
       | EmptyString => false
       | String _ hay' => contains needle hay'
       end.

(** [s.replace(" ", "_")] *)
Fixpoint replace_space (s : string) : string :=
  match s with
  | EmptyString => EmptyString
  | String c s' =>
      String (if Ascii.eqb c " "%char then "_"%char else c) (replace_space s')
  end.

(** [s[:n]] *)
Fixpoint take (n : nat) (s : string) : string :=
  match n, s with
  | S n', String c s' => String c (take n' s')
  | _, _ => EmptyString
  end.

(** [s.endswith(suffix)] *)
Definition ends_with (suffix s : string) : bool :=
  String.prefix (String.string_of_list_ascii (rev (String.list_ascii_of_string suffix)))
                (String.string_of_list_ascii (rev (String.list_ascii_of_string s))).

(** [os.path.join(d, f)] for a relative file name [f]. *)
Definition path_join (d f : string) : string :=
  if String.eqb d "" then f
  else if ends_with "/" d then d ++ f
  else d ++ "/" ++ f.

(** [x in l] for a list of strings. *)
Fixpoint mem (x : string) (l : list string) : bool :=
  match l with
  | [] => false
  | y :: l' => if String.eqb x y then true else mem x l'
  end.

(** ** Payloads

    The Python values that a decoded body can hold.  A float is kept as
    its IEEE-754 binary64 bit pattern.  A dict keeps its insertion order
    and has string keys. *)
#[local] Set Warnings "-register-all".
Inductive value : Type :=
| VNone
| VBool (b : bool)
| VInt (n : Z)
| VFloat (bits : Z)
| VStr (s : string)
| VBytes (b : string)
| VList (l : list value)
| VDict (d : list (string * value)).

(** [d.get(k)] on the items of a dict. *)
Fixpoint dict_get (k : string) (d : list (string * value)) : option value :=
  match d with
  | [] => None
  | (k', v) :: d' => if String.eqb k k' then Some v else dict_get k d'
  end.

(** [d[k] = v]: an existing key keeps its position. *)
Fixpoint dict_set (k : string) (v : value) (d : list (string * value))
  : list (string * value) :=
  match d with
  | [] => [(k, v)]
  | (k', v') :: d' =>
      if String.eqb k k' then (k', v) :: d' else (k', v') :: dict_set k v d'
  end.

(** ** config.py *)
Record Config : Type := {
  EVALUATOR_NAME : string;
  input_file : string;
  output_filename_base : string;
  REQUEST_FORMAT : string;
  RESPONSE_FORMAT : string;
  MAX_RETRIES : Z;
  RETRY_INTERVAL : Z
}.

(** The values of [Test_setChr9_Evaluator/config.py]; the two formats are
    lower-cased there. *)
Definition config : Config := {|
  EVALUATOR_NAME := "ORCA_TestChr9";
  input_file := "chr9_sequence_coordinates.json";
  output_filename_base := "ORCA_TestChr9_predictions_chr9_sequence_coordinates";
  REQUEST_FORMAT := lower "application/msgpack";
  RESPONSE_FORMAT := lower "application/msgpack-numpy";
  MAX_RETRIES := 50;
  RETRY_INTERVAL := 30
|}.

(** ** HTTP responses and exceptions *)
Record Response : Type := {
  status_code : Z;
  headers : list (string * string);
  content : string;                  (* response.content: the bytes of the body *)
  text : string                      (* response.text: the body as characters *)
}.

(** [response.headers.get(name, "")]; header names compare without case. *)
Fixpoint headers_get (name : string) (hs : list (string * string)) : string :=
  match hs with
  | [] => ""
  | (k, v) :: hs' =>
      if String.eqb (lower k) (lower name) then v else headers_get name hs'
  end.

(** [response.raise_for_status()] raises for the client and server error
    classes, 4xx and 5xx. *)
Definition is_error_status (r : Response) : bool :=
  andb (400 <=? status_code r) (status_code r <? 600).

Inductive exn : Type :=
| HTTPError (r : Response)            (* requests.exceptions.HTTPError *)
| RequestException (e : string)       (* any other requests exception *)
| ValueError (msg : string)
| FileNotFoundError (msg : string)
| UnboundLocalError (var : string)
| OtherError (kind : string).         (* AttributeError, TypeError, OSError... *)

(** What one call of [requests.request] does. *)
Inductive attempt_result : Type :=
| Responded (r : Response)
| ConnFailed (e : string).

(** ** Trace of observable actions *)

(** The messages the program prints, with the data they interpolate. *)
Inductive message : Type :=
| MsgOutputDirCreated (dir : string)
| MsgAttemptFailed (attempt max : Z) (e : string)
| MsgRetryingIn (seconds : Z)
| MsgRetriesExceeded (attempt : Z)
| MsgNegotiating (url : string)
| MsgPredictorCanReceive (fmts : list string)
| MsgPredictorCanSend (fmts : list string)
| MsgWarnRequestFormat (preferred : string)
| MsgWarnResponseFormat (preferred : string)
| MsgNegotiatedRequest (fmt : string)
| MsgNegotiatedResponse (fmt : string)
| MsgSerializing (fmt : string)
| MsgPosting (nbytes : Z) (url : string)
| MsgContentTypeFound
| MsgWarnFormatMismatch (actual negotiated : string)
| MsgDeserializingMsgpack
| MsgDeserializingJson
| MsgNoContentType
| MsgDecodeFailed (e : string)
| MsgReturned200
| MsgReturnedHTTP (status : Z)
| MsgCouldNotDecodeErrorBody
| MsgNoPayload
| MsgWarnTaskCount (i : Z) (name : option value) (n_preds total : Z)
| MsgSavingMsgpack
| MsgSaved (path : string)
| MsgCouldNotSave (path : string) (e : exn)
| MsgSkippingMetrics
| MsgEvaluationComplete
| MsgFatalData (e : exn)
| MsgFatalNetwork (ip : string) (port : Z) (e : exn)
| MsgUnexpectedFatal (e : exn).

Inductive artifact : Type :=
| JsonFile (payload : value)      (* json.dump(..., ensure_ascii=False, indent=4) *)
| MsgpackFile (payload : value)   (* msgpack.dump(..., use_bin_type=True) *)
| PartialFile                     (* created by open; the dump did not finish *)
| MetricsCsv.                     (* the table written by the metrics collaborator *)

Inductive event : Type :=
| EvStdout (m : message)
| EvStderr (m : message)
| EvMakedirs (dir : string)
| EvLoadData
| EvRequest (method url : string) (hdrs : list (string * string)) (body : option string)
| EvSleep (seconds : Z)
| EvOpen (path : string)
| EvDump (path : string) (a : artifact)
| EvMetrics (payload : value) (dir fmt : string).

(** ** The world a run executes in *)

(** What [open(path, "w")] does in an existing directory.  An [OSError]
    ([IOError] is the same class) is what [except IOError] catches; a path
    that cannot be handed to the system at all (a NUL character in it)
    raises a [ValueError] instead.  Writing to a file that has been opened
    is taken to succeed. *)
Inductive open_result : Type :=
| Opened
| OpenIOError (e : exn)
| OpenRaises (e : exn).

Record World : Type := {
  w_dir_exists : bool;               (* os.path.exists(output_dir) at start *)
  w_makedirs : option exn;           (* what os.makedirs raises, if anything *)
  w_load : exn + value;              (* load_and_validate_data() *)
  w_net : nat -> attempt_result;     (* the n-th call of requests.request *)
  w_open : string -> open_result;    (* open(path, "w") *)
  w_metrics : option exn             (* what the scoring raises, if anything *)
}.

(** The local variables of [run_evaluator] that its [try] statement
    assigns and its later statements read.  [response] is unbound until
    the assignment of line 43 completes; [response_payload] starts as
    Python's [None]. *)
Record locals : Type := {
  response_payload : value;
  is_success_response : bool;
  resp_fmt : option string;
  response : option (option Response)
}.

Definition init_locals : locals :=
  {| response_payload := VNone; is_success_response := false;
     resp_fmt := None; response := None |}.

Record state : Type := {
  st_dir : bool;                            (* output directory exists now *)
  st_requests : nat;                        (* HTTP calls issued so far *)
  st_files : list (string * artifact);      (* files written by the run *)
  st_trace : list event;
  st_locals : locals
}.

Definition init_state (w : World) : state :=
  {| st_dir := w_dir_exists w; st_requests := 0%nat; st_files := [];
     st_trace := []; st_locals := init_locals |}.

Definition add_event (e : event) (s : state) : state :=
  {| st_dir := st_dir s; st_requests := st_requests s; st_files := st_files s;
     st_trace := st_trace s ++ [e]; st_locals := st_locals s |}.

Definition set_locals (l : locals) (s : state) : state :=
  {| st_dir := st_dir s; st_requests := st_requests s; st_files := st_files s;
     st_trace := st_trace s; st_locals := l |}.

(** ** A state and exception monad *)
Inductive outcome (A : Type) : Type :=
| Ok (a : A)
| Raise (e : exn).
Arguments Ok {A} a.
Arguments Raise {A} e.

Definition M (A : Type) : Type := state -> outcome A * state.

Definition ret {A} (a : A) : M A := fun s => (Ok a, s).
Definition raise {A} (e : exn) : M A := fun s => (Raise e, s).
Definition bind {A B} (m : M A) (k : A -> M B) : M B :=
  fun s => match m s with
           | (Ok a, s') => k a s'
           | (Raise e, s') => (Raise e, s')
           end.
(** [try: m except <sel> as e: h e] where [sel] picks the exceptions caught. *)
Definition try_except {A} (m : M A) (sel : exn -> bool) (h : exn -> M A) : M A :=
  fun s => match m s with
           | (Ok a, s') => (Ok a, s')
           | (Raise e, s') => if sel e then h e s' else (Raise e, s')
           end.

Notation "x <- m ;; k" := (bind m (fun x => k))
  (at level 61, m at next level, right associativity).
Notation "m ;;; k" := (bind m (fun _ => k))
  (at level 61, right associativity).

Definition emit (e : event) : M unit := fun s => (Ok tt, add_event e s).
Definition print (m : message) : M unit := emit (EvStdout m).
Definition eprint (m : message) : M unit := emit (EvStderr m).

(** ** evaluator_content_handler.py

    The JSON and msgpack codecs are libraries; the functions below take
    them as parameters. *)

(** What a decoder does with a body.  [DecodeError] is the library's own
    decode error, [json.JSONDecodeError] for JSON and
    [msgpack.exceptions.UnpackException] for msgpack, with its text; any
    other exception a decoder raises ([ExtraData] and the plain
    [ValueError] of msgpack for an incomplete input, a [TypeError], ...)
    is [DecoderRaises]. *)
Inductive decoding : Type :=
| Decoded (v : value)
| DecodeError (msg : string)
| DecoderRaises (e : exn).

Section Evaluator.

Context {py : PyText}.
Variable cfg : Config.
Variable w : World.

(** [response.json()] on a response body *)
Variable json_loads : string -> decoding.
(** [msgpack.unpackb(content, raw=False)] after [msgpack_numpy.patch()] *)
Variable msgpack_unpackb : string -> decoding.
(** [json.dumps(data).encode("utf-8")] *)
Variable json_dumps : value -> outcome string.
(** [msgpack.packb(data, use_bin_type=True)] *)
Variable msgpack_packb : value -> outcome string.

(** [requests.request(method, url, **kwargs)] with the proxies disabled:
    the next answer of the network. *)
Definition http_request (method url : string) (hdrs : list (string * string))
    (body : option string) : M attempt_result :=
  fun s =>
    (Ok (w_net w (st_requests s)),
     {| st_dir := st_dir s; st_requests := S (st_requests s);
        st_files := st_files s;
        st_trace := st_trace s ++ [EvRequest method url hdrs body];
        st_locals := st_locals s |}).

(** [for _ in tqdm.tqdm(range(n)): time.sleep(1)] *)
Fixpoint sleep_loop (n : nat) : M unit :=
  match n with
  | O => ret tt
  | S n' => emit (EvSleep 1) ;;; sleep_loop n'
  end.

(** The body of [for attempt in range(1, config.MAX_RETRIES + 1)], with
    [remaining] iterations left.  When the range is used up without a
    return or a raise, the function returns [None]. *)
Fixpoint retry_loop (method url : string) (hdrs : list (string * string))
    (body : option string) (remaining : nat) (attempt : Z)
  : M (option Response) :=
  match remaining with
  | O => ret None
  | S remaining' =>
      r <- http_request method url hdrs body ;;
      match r with
      | Responded response =>
          if is_error_status response then raise (HTTPError response)
          else ret (Some response)
      | ConnFailed e =>
          print (MsgAttemptFailed attempt (MAX_RETRIES cfg) e) ;;;
          if attempt <? MAX_RETRIES cfg then
            print (MsgRetryingIn (RETRY_INTERVAL cfg)) ;;;
            sleep_loop (Z.to_nat (RETRY_INTERVAL cfg)) ;;;
            retry_loop method url hdrs body remaining' (attempt + 1)
          else
            print (MsgRetriesExceeded attempt) ;;;
            raise (RequestException e)
      end
  end.

Definition _make_request_with_retry (http_method url : string)
    (hdrs : list (string * string)) (body : option string)
  : M (option Response) :=
  retry_loop http_method url hdrs body (Z.to_nat (MAX_RETRIES cfg)) 1.

(** [[f.lower() for f in x]] for the value [x] found under a key of the
    formats document. *)
Fixpoint lower_all (l : list value) : outcome (list string) :=
  match l with
  | [] => Ok []
  | VStr f :: l' =>
      match lower_all l' with
      | Ok fs => Ok (str_lower f :: fs)
      | Raise e => Raise e
      end
  | _ :: _ => Raise (OtherError "AttributeError")
  end.

Definition chars_of (s : string) : list value :=
  map (fun c => VStr (String c EmptyString)) (String.list_ascii_of_string s).

Definition lowered_formats (x : option value) : outcome (list string) :=
  match x with
  | None => Ok []                                   (* the default [] *)
  | Some (VList l) => lower_all l
  | Some (VStr s) => lower_all (chars_of s)         (* a str iterates its characters *)
  | Some (VBytes b) =>                              (* bytes iterate as ints *)
      lower_all (map (fun c => VInt (Z.of_nat (nat_of_ascii c)))
                     (String.list_ascii_of_string b))
  | Some (VDict d) => lower_all (map (fun kv => VStr (fst kv)) d)
  | Some _ => Raise (OtherError "TypeError")
  end.

Definition lift {A} (o : outcome A) : M A := fun s => (o, s).

(** [if "application/json" not in fmts: fmts.append("application/json")] *)
Definition with_json (fmts : list string) : list string :=
  if mem "application/json" fmts then fmts else fmts ++ ["application/json"].

(** The selection of one direction: the negotiated format and whether the
    warning is printed. *)
Definition select_format (preferred : string) (fmts : list string) : string * bool :=
  if mem preferred fmts then (preferred, false)
  else ("application/json", negb (String.eqb preferred "application/json")).

Definition negotiate_formats (predictor_url : string) : M (string * string) :=
  let formats_url := predictor_url ++ "/formats" in
  print (MsgNegotiating formats_url) ;;;
  response <- _make_request_with_retry "get" formats_url [] None ;;
  match response with
  | None => raise (OtherError "AttributeError")
  | Some response =>
      match json_loads (content response) with
      | DecodeError msg => raise (ValueError msg)    (* JSONDecodeError is a ValueError *)
      | DecoderRaises e => raise e
      | Decoded (VDict supported) =>
          pred_request_fmts <-
            lift (lowered_formats (dict_get "predictor_supported_request_formats" supported)) ;;
          pred_response_fmts <-
            lift (lowered_formats (dict_get "predictor_supported_response_formats" supported)) ;;
          let pred_request_fmts := with_json pred_request_fmts in
          let pred_response_fmts := with_json pred_response_fmts in
          print (MsgPredictorCanReceive pred_request_fmts) ;;;
          print (MsgPredictorCanSend pred_response_fmts) ;;;
          let '(negotiated_request_fmt, warn_req) :=
            select_format (REQUEST_FORMAT cfg) pred_request_fmts in
          (if warn_req then print (MsgWarnRequestFormat (REQUEST_FORMAT cfg)) else ret tt) ;;;
          let '(negotiated_response_fmt, warn_resp) :=
            select_format (RESPONSE_FORMAT cfg) pred_response_fmts in
          (if warn_resp then print (MsgWarnResponseFormat (RESPONSE_FORMAT cfg)) else ret tt) ;;;
          print (MsgNegotiatedRequest negotiated_request_fmt) ;;;
          print (MsgNegotiatedResponse negotiated_response_fmt) ;;;
          ret (negotiated_request_fmt, negotiated_response_fmt)
      | Decoded _ => raise (OtherError "AttributeError")
      end
  end.

(** The serialization step of [get_predictions]. *)
Definition serialize_request (data_dict : value) (negotiated_req_fmt : string)
  : outcome string :=
  if String.eqb negotiated_req_fmt "application/msgpack"
  then msgpack_packb data_dict
  else json_dumps data_dict.

Definition get_predictions (predictor_url : string) (data_dict : value)
    (negotiated_req_fmt negotiated_resp_fmt : string) : M (option Response) :=
  let predict_url := predictor_url ++ "/predict" in
  let hdrs := [("Content-Type", negotiated_req_fmt); ("Accept", negotiated_resp_fmt)] in
  print (MsgSerializing negotiated_req_fmt) ;;;
  payload_bytes <- lift (serialize_request data_dict negotiated_req_fmt) ;;
  print (MsgPosting (Z.of_nat (String.length payload_bytes)) predict_url) ;;;
  _make_request_with_retry "post" predict_url hdrs (Some payload_bytes).

(** The decoder a declared content type selects. *)
Inductive decoder : Type := DecodeMsgpack | DecodeJson.

Definition decoder_for (response_fmt_actual : string) : decoder :=
  if orb (contains "application/msgpack" response_fmt_actual)
         (contains "application/msgpack-numpy" response_fmt_actual)
  then DecodeMsgpack else DecodeJson.

(** [negotiated_resp_fmt] is [None] or a string; the empty string is falsy
    like [None]. *)
Definition truthy (s : option string) : bool :=
  match s with
  | None => false
  | Some s => negb (String.eqb s "")
  end.

(** The [try ... except] around a decoder call (lines 140-151 and
    154-160): only the library's decode error is caught, reported and
    re-raised as a [ValueError]; any other exception passes through. *)
Definition guarded_decode (d : decoding) : M value :=
  match d with
  | Decoded v => ret v
  | DecodeError msg =>
      eprint (MsgDecodeFailed msg) ;;;
      raise (ValueError ("Failed to decode predictor response: " ++ msg))
  | DecoderRaises e => raise e
  end.

Definition deserialize_response (response : Response)
    (negotiated_resp_fmt : option string) : M value :=
  let response_fmt_actual := str_lower (headers_get "Content-Type" (headers response)) in
  if negb (String.eqb response_fmt_actual "") then
    print MsgContentTypeFound ;;;
    (match negotiated_resp_fmt with
     | Some fmt =>
         if andb (truthy negotiated_resp_fmt) (negb (contains fmt response_fmt_actual))
         then print (MsgWarnFormatMismatch response_fmt_actual fmt)
         else ret tt
     | None => ret tt
     end) ;;;
    match decoder_for response_fmt_actual with
    | DecodeMsgpack =>
        print MsgDeserializingMsgpack ;;;
        guarded_decode (msgpack_unpackb (content response))
    | DecodeJson =>
        print MsgDeserializingJson ;;;
        guarded_decode (json_loads (content response))
    end
  else
    print MsgNoContentType ;;;
    guarded_decode (json_loads (content response)).

(** ** evaluator_RestAPI.py *)

(** [str(n)] for an integer, as the f-strings format it. *)
Definition string_of_Z (n : Z) : string := NilZero.string_of_int (Z.to_int n).

(** [len(v)] *)
Definition py_len (v : value) : outcome Z :=
  match v with
  | VStr s | VBytes s => Ok (Z.of_nat (String.length s))
  | VList l => Ok (Z.of_nat (List.length l))
  | VDict d => Ok (Z.of_nat (List.length d))
  | _ => Raise (OtherError "TypeError")
  end.

(** The values [for x in v] goes through. *)
Definition py_iter (v : value) : outcome (list value) :=
  match v with
  | VList l => Ok l
  | VDict d => Ok (map (fun kv => VStr (fst kv)) d)
  | VStr s => Ok (chars_of s)
  | VBytes s => Ok (map (fun c => VInt (Z.of_nat (nat_of_ascii c)))
                        (String.list_ascii_of_string s))
  | _ => Raise (OtherError "TypeError")
  end.

(** [v.get(k, default)]: only a dict has [get]. *)
Definition py_get (v : value) (k : string) (default : value) : outcome value :=
  match v with
  | VDict d => Ok (match dict_get k d with Some x => x | None => default end)
  | _ => Raise (OtherError "AttributeError")
  end.

(** [data_dict["sequences"]] *)
Definition py_item (v : value) (k : string) : outcome value :=
  match v with
  | VDict d => match dict_get k d with
               | Some x => Ok x
               | None => Raise (OtherError "KeyError")
               end
  | _ => Raise (OtherError "TypeError")
  end.

Definition modify_locals (f : locals -> locals) : M unit :=
  fun s => (Ok tt, set_locals (f (st_locals s)) s).
Definition get_locals : M locals := fun s => (Ok (st_locals s), s).

Definition set_response_payload (v : value) : M unit :=
  modify_locals (fun l => {| response_payload := v;
                             is_success_response := is_success_response l;
                             resp_fmt := resp_fmt l; response := response l |}).
Definition set_is_success_response (b : bool) : M unit :=
  modify_locals (fun l => {| response_payload := response_payload l;
                             is_success_response := b;
                             resp_fmt := resp_fmt l; response := response l |}).
Definition set_resp_fmt (f : option string) : M unit :=
  modify_locals (fun l => {| response_payload := response_payload l;
                             is_success_response := is_success_response l;
                             resp_fmt := f; response := response l |}).
Definition set_response (r : option Response) : M unit :=
  modify_locals (fun l => {| response_payload := response_payload l;
                             is_success_response := is_success_response l;
                             resp_fmt := resp_fmt l; response := Some r |}).

(** Lines 19-22 *)
Definition ensure_output_dir (output_dir : string) : M unit :=
  fun s =>
    if negb (st_dir s) then
      let s1 := add_event (EvMakedirs output_dir) s in
      match w_makedirs w with
      | Some e => (Raise e, s1)
      | None =>
        (Ok tt,
         add_event (EvStdout (MsgOutputDirCreated output_dir))
           {| st_dir := true; st_requests := st_requests s1;
              st_files := st_files s1; st_trace := st_trace s1;
              st_locals := st_locals s1 |})
      end
    else (Ok tt, s).

(** Line 25: the data-loading collaborator *)
Definition load_and_validate_data : M value :=
  emit EvLoadData ;;;
  match w_load w with
  | inl e => raise e
  | inr data_dict => ret data_dict
  end.

Definition is_HTTPError (e : exn) : bool :=
  match e with HTTPError _ => true | _ => false end.
Definition is_ValueError (e : exn) : bool :=
  match e with ValueError _ => true | _ => false end.

(** The placeholder of lines 64-72 *)
Definition undecodable_error_payload (r : Response) : value :=
  VDict [("predictor_name", VStr "UnknownPredictor_ErrorResponse");
         ("error", VList [VDict [("server_error",
            VStr ("Failed to decode error response (Status "
                  ++ string_of_Z (status_code r) ++ "). Body (truncated): "
                  ++ take 500 (text r) ++ "..."))]])].

(** The placeholder of lines 81-86 *)
Definition no_response_payload : value :=
  VDict [("predictor_name", VStr "UnknownPredictor_NoResponse");
         ("error", VList [VDict [("evaluator_error",
            VStr "No response payload could be processed after request.")]])].

(** Lines 52-72: the body of [except HTTPError as http_err] *)
Definition handle_http_error (http_err : exn) : M unit :=
  match http_err with
  | HTTPError err_response =>
      print (MsgReturnedHTTP (status_code err_response)) ;;;
      set_is_success_response false ;;;
      l <- get_locals ;;
      let fmt_for_error :=
        if truthy (resp_fmt l) then resp_fmt l else Some "application/json" in
      try_except
        (payload <- deserialize_response err_response fmt_for_error ;;
         set_response_payload payload)
        is_ValueError
        (fun decode_err =>
           eprint MsgCouldNotDecodeErrorBody ;;;
           set_response_payload (undecodable_error_payload err_response))
  | _ => ret tt
  end.

(** Lines 35-72: the [try] statement *)
Definition request_and_decode (predictor_url : string) (data_dict : value) : M unit :=
  try_except
    (fmts <- negotiate_formats predictor_url ;;
     let '(req_fmt, negotiated) := fmts in
     set_resp_fmt (Some negotiated) ;;;
     r <- get_predictions predictor_url data_dict req_fmt negotiated ;;
     set_response r ;;;
     set_is_success_response true ;;;
     print MsgReturned200 ;;;
     match r with
     | None => raise (OtherError "AttributeError")
     | Some r =>
         payload <- deserialize_response r (Some negotiated) ;;
         set_response_payload payload
     end)
    is_HTTPError
    handle_http_error.

(** Lines 96-107: the prediction-count check of one task *)
Definition check_task (total_sequences : Z) (i : Z) (task : value) : M unit :=
  preds <- lift (py_get task "predictions" (VDict [])) ;;
  n_preds <- lift (py_len preds) ;;
  if negb (n_preds =? total_sequences) then
    match task with
    | VDict d => print (MsgWarnTaskCount i (dict_get "name" d) n_preds total_sequences)
    | _ => raise (OtherError "AttributeError")
    end
  else ret tt.

Fixpoint check_tasks (total_sequences : Z) (i : Z) (tasks : list value) : M unit :=
  match tasks with
  | [] => ret tt
  | task :: tasks' =>
      check_task total_sequences i task ;;;
      check_tasks total_sequences (i + 1) tasks'
  end.

(** [.replace(" ", "_")] on what [get("predictor_name", ...)] returned *)
Definition py_replace_space (v : value) : outcome string :=
  match v with
  | VStr s => Ok (replace_space s)
  | VBytes _ => Raise (OtherError "TypeError")
  | _ => Raise (OtherError "AttributeError")
  end.

(** [open(path, mode)]: a path that Python refuses is refused before the
    system is asked; otherwise the file cannot be opened when the
    directory is not there. *)
Definition open_file (path : string) (s : state) : open_result :=
  match w_open w path with
  | OpenRaises e => OpenRaises e
  | r => if st_dir s then r else OpenIOError (FileNotFoundError path)
  end.

Definition with_file (path : string) (a : artifact) (s : state) : state :=
  {| st_dir := st_dir s; st_requests := st_requests s;
     st_files := (path, a) :: st_files s;
     st_trace := st_trace s; st_locals := st_locals s |}.

(** [with open(path, ...) as f: dump(payload, f)] and the message after
    it, inside [try ... except IOError].  Returns whether the function
    goes on ([true]) or returns ([false]).  [encoded] is what the
    serializer does with the payload; when it raises, the file that [open]
    has created stays behind, incomplete. *)
Definition write_artifact (path shown_path : string) (a : artifact)
    (encoded : outcome string) : M bool :=
  fun s =>
    let s1 := add_event (EvOpen path) s in
    match open_file path s with
    | Opened =>
        match encoded with
        | Ok _ =>
            (Ok true,
             add_event (EvStdout (MsgSaved shown_path))
               (add_event (EvDump path a) (with_file path a s1)))
        | Raise e => (Raise e, with_file path PartialFile s1)
        end
    | OpenIOError e => (Ok false, add_event (EvStderr (MsgCouldNotSave shown_path e)) s1)
    | OpenRaises e => (Raise e, s1)
    end.

(** [df.to_csv(out_path, ...)] in the metrics
    collaborator: no exception is caught there. *)
Definition write_csv (out_path : string) : M unit :=
  fun s =>
    let s1 := add_event (EvOpen out_path) s in
    match open_file out_path s with
    | Opened => (Ok tt, add_event (EvDump out_path MetricsCsv) (with_file out_path MetricsCsv s1))
    | OpenIOError e | OpenRaises e => (Raise e, s1)
    end.

(** Line 130: the metrics collaborator,
    [evaluator_metrics_calculator.calculate_and_save_metrics].  The scoring
    and the rows of the table (lines 49-99 and 104-114: numpy, torch,
    pandas and the Orca model) are taken from the world, and what the
    collaborator prints is not kept; lines 100, 102, 116 and 117 name the
    table and write it. *)
Definition calculate_and_save_metrics (payload : value) (output_dir recv_fmt : string)
  : M unit :=
  emit (EvMetrics payload output_dir recv_fmt) ;;;
  match w_metrics w with
  | Some e => raise e
  | None =>
      name <- lift (py_get payload "predictor_name" (VStr "Unknown")) ;;
      predictor_name <- lift (py_replace_space name) ;;
      let output_filename := EVALUATOR_NAME cfg ++ "_from_" ++ predictor_name ++ ".csv" in
      write_csv (path_join output_dir output_filename)
  end.

(** Lines 88-132: save the payload and trigger the metrics *)
Definition save_and_score (output_dir : string) (total_sequences : Z) : M unit :=
  l <- get_locals ;;
  let payload := response_payload l in
  name <- lift (py_get payload "predictor_name" (VStr "UnknownPredictor")) ;;
  predictor_name <- lift (py_replace_space name) ;;
  let output_filename :=
    output_filename_base cfg ++ "_from_" ++ predictor_name ++ ".json" in
  let output_filename_msgpack :=
    output_filename_base cfg ++ "_from_" ++ predictor_name ++ ".msgpack" in
  let saved_predictions_path := path_join output_dir output_filename in
  let saved_predictions_path_msgpack := path_join output_dir output_filename_msgpack in
  tasks_v <- lift (py_get payload "prediction_tasks" (VList [])) ;;
  tasks <- lift (py_iter tasks_v) ;;
  check_tasks total_sequences 1 tasks ;;;
  match response l with
  | None => raise (UnboundLocalError "response")
  | Some None => raise (OtherError "AttributeError")
  | Some (Some r) =>
      let response_fmt_actual := str_lower (headers_get "Content-Type" (headers r)) in
      go_on <-
        (if String.eqb response_fmt_actual "application/msgpack-numpy" then
           print MsgSavingMsgpack ;;;
           write_artifact saved_predictions_path_msgpack saved_predictions_path
             (MsgpackFile payload) (msgpack_packb payload)
         else
           write_artifact saved_predictions_path saved_predictions_path
             (JsonFile payload) (json_dumps payload)) ;;
      if go_on : bool then
        if is_success_response l then
          calculate_and_save_metrics payload output_dir response_fmt_actual
        else print MsgSkippingMetrics
      else ret tt
  end.

Definition run_evaluator (predictor_ip : string) (predictor_port : Z)
    (output_dir : string) : M unit :=
  ensure_output_dir output_dir ;;;
  data_dict <- load_and_validate_data ;;
  sequences <- lift (py_item data_dict "sequences") ;;
  total_sequences <- lift (py_len sequences) ;;
  let predictor_url :=
    "http://" ++ predictor_ip ++ ":" ++ string_of_Z predictor_port in
  modify_locals (fun _ => init_locals) ;;;
  request_and_decode predictor_url data_dict ;;;
  l <- get_locals ;;
  (match response_payload l with
   | VNone => eprint MsgNoPayload ;;; set_response_payload no_response_payload
   | _ => ret tt
   end) ;;;
  save_and_score output_dir total_sequences.

(** Lines 153-171 of [__main__]: the line each [except] clause prints. *)
Definition fatal_message (predictor_ip : string) (predictor_port : Z) (e : exn)
  : message :=
  match e with
  | FileNotFoundError _ | ValueError _ => MsgFatalData e
  | HTTPError _ | RequestException _ => MsgFatalNetwork predictor_ip predictor_port e
  | _ => MsgUnexpectedFatal e
  end.

(** Lines 148-171 of [__main__]: the exit status of the process. *)
Definition main (predictor_ip : string) (predictor_port : Z)
    (output_dir_arg : string) : state -> Z * state :=
  fun s =>
    match run_evaluator predictor_ip predictor_port output_dir_arg s with
    | (Ok _, s') => (0, add_event (EvStdout MsgEvaluationComplete) s')
    | (Raise e, s') =>
        (1, add_event (EvStderr (fatal_message predictor_ip predictor_port e)) s')
    end.

End Evaluator.

(** ** Measures on traces *)

(** Number of HTTP calls in a trace. *)
Fixpoint count_requests (t : list event) : Z :=
  match t with
  | [] => 0
  | EvRequest _ _ _ _ :: t' => 1 + count_requests t'
  | _ :: t' => count_requests t'
  end.

(** Seconds slept in a trace. *)
Fixpoint seconds_slept (t : list event) : Z :=
  match t with
  | [] => 0
  | EvSleep n :: t' => n + seconds_slept t'
  | _ :: t' => seconds_slept t'
  end.

(** A world whose network refuses every connection. *)
Definition refusing_world : World := {|
  w_dir_exists := true; w_makedirs := None;
  w_load := inr (VDict [("sequences", VDict [])]);
  w_net := fun _ => ConnFailed "Connection refused";
  w_open := fun _ => Opened; w_metrics := None
|}.

(** A world whose predictor answers 304 without a body. *)
Definition not_modified : Response :=
  {| status_code := 304; headers := []; content := ""; text := "" |}.

Definition not_modified_world : World := {|
  w_dir_exists := true; w_makedirs := None;
  w_load := inr (VDict [("sequences", VDict [])]);
  w_net := fun _ => Responded not_modified;
  w_open := fun _ => Opened; w_metrics := None
|}.

(** What a transport call leaves untouched. *)
Definition same_store (s s' : state) : Prop :=
  st_dir s' = st_dir s /\ st_files s' = st_files s /\ st_locals s' = st_locals s.


(** The formats a predictor offers for one direction, as the negotiator
    reads them: lower-cased, or none when the key is absent. *)
Definition offered {py : PyText} (fmts : option (list string)) : list string :=
  match fmts with
  | Some l => map str_lower l
  | None => []
  end.

Definition formats_entry (fmts : option (list string)) : option value :=
  option_map (fun l => VList (map VStr l)) fmts.

(** ** Example worlds

    Bodies are named documents; [example_json_loads] is the JSON decoder
    restricted to them.  The texts of the examples are ASCII, for which
    [lower] is [str.lower]. *)
Definition ascii_text : PyText := {| str_lower := lower |}.

Definition formats_document : value :=
  VDict [("predictor_supported_request_formats", VList [VStr "Application/JSON"]);
         ("predictor_supported_response_formats", VList [VStr "application/json"])].

Definition predictions_document : value :=
  VDict [("predictor_name", VStr "Orca Predictor");
         ("prediction_tasks",
          VList [VDict [("name", VStr "orca_chrom9_eval");
                        ("predictions", VDict [("seq1", VList [VFloat 0]);
                                               ("seq2", VList [VFloat 0])])]])].

Definition error_document : value :=
  VDict [("predictor_name", VStr "Orca Predictor");
         ("error", VList [VDict [("server_error", VStr "out of memory")]])].

Definition example_json_loads (body : string) : decoding :=
  if String.eqb body "formats-document" then Decoded formats_document
  else if String.eqb body "predictions-document" then Decoded predictions_document
  else if String.eqb body "error-document" then Decoded error_document
  else if String.eqb body "null" then Decoded VNone
  else DecodeError "Expecting value: line 1 column 1 (char 0)".

Definition example_unpackb (body : string) : decoding :=
  if String.eqb body "packed-predictions" then Decoded predictions_document
  else if String.eqb body "packed-predictions-and-more"
  then DecoderRaises (ValueError "unpack(b) received extra data.")
  else DecodeError "Unpack failed".

Definition example_dumps (v : value) : outcome string := Ok "encoded".

Definition formats_response : Response :=
  {| status_code := 200; headers := [("Content-Type", "application/json")];
     content := "formats-document"; text := "formats-document" |}.

Definition predictions_response : Response :=
  {| status_code := 200; headers := [("content-type", "Application/JSON")];
     content := "predictions-document"; text := "predictions-document" |}.

Definition error_response : Response :=
  {| status_code := 500; headers := [("Content-Type", "application/json")];
     content := "error-document"; text := "error-document" |}.

Definition request_data : value :=
  VDict [("sequence_coordinates",
          VDict [("seq1", VList [VStr "chr9"; VInt 0]);
                 ("seq2", VList [VStr "chr9"; VInt 1000000])]);
         ("sequences", VDict [("seq1", VStr "ACGT"); ("seq2", VStr "ACGT")])].

(** A predictor that supports only JSON and answers the prediction. *)
Definition json_only_world : World := {|
  w_dir_exists := false; w_makedirs := None;
  w_load := inr request_data;
  w_net := fun n => match n with
                    | O => Responded formats_response
                    | _ => Responded predictions_response
                    end;
  w_open := fun _ => Opened; w_metrics := None
|}.

(** The same predictor answering the prediction request with a 500. *)
Definition failing_predictor_world : World := {|
  w_dir_exists := true; w_makedirs := None;
  w_load := inr request_data;
  w_net := fun n => match n with
                    | O => Responded formats_response
                    | _ => Responded error_response
                    end;
  w_open := fun _ => Opened; w_metrics := None
|}.

(** A predictor that is still starting: two refused connections, then the
    formats document, then the prediction. *)
Definition slow_start_world : World := {|
  w_dir_exists := true; w_makedirs := None;
  w_load := inr request_data;
  w_net := fun n => match n with
                    | 0%nat | 1%nat => ConnFailed "Connection refused"
                    | 2%nat => Responded formats_response
                    | _ => Responded predictions_response
                    end;
  w_open := fun _ => Opened; w_metrics := None
|}.

(** ** Frames

    [quiet P m]: whatever the outcome, [m] leaves the directory, the files
    and the local variables as they are, and only adds events that
    satisfy [P] to the trace. *)
Definition quiet (P : event -> Prop) {A} (m : M A) : Prop :=
  forall s, same_store s (snd (m s)) /\
            exists t, st_trace (snd (m s)) = (st_trace s ++ t)%list /\ Forall P t.

(** The messages of evaluator_content_handler.py. *)
Definition handler_message (m : message) : bool :=
  match m with
  | MsgAttemptFailed _ _ _ | MsgRetryingIn _ | MsgRetriesExceeded _
  | MsgNegotiating _ | MsgPredictorCanReceive _ | MsgPredictorCanSend _
  | MsgWarnRequestFormat _ | MsgWarnResponseFormat _
  | MsgNegotiatedRequest _ | MsgNegotiatedResponse _
  | MsgSerializing _ | MsgPosting _ _
  | MsgContentTypeFound | MsgWarnFormatMismatch _ _
  | MsgDeserializingMsgpack | MsgDeserializingJson
  | MsgNoContentType | MsgDecodeFailed _ => true
  | _ => false
  end.

(** What evaluator_content_handler.py can do to the outside: HTTP calls,
    sleeps, and its own messages. *)
Definition handler_event (e : event) : bool :=
  match e with
  | EvRequest _ _ _ _ | EvSleep _ => true
  | EvStdout m | EvStderr m => handler_message m
  | _ => false
  end.

(** ** Specification helpers for the orchestrator *)

Definition append_trace (t : list event) (s : state) : state :=
  {| st_dir := st_dir s; st_requests := st_requests s; st_files := st_files s;
     st_trace := (st_trace s ++ t)%list; st_locals := st_locals s |}.

(** The number of predictions of a task, when the task is a dict whose
    [predictions] entry (default: empty dict) has a length. *)
Definition task_count (task : value) : option Z :=
  match task with
  | VDict d =>
      match py_len (match dict_get "predictions" d with
                    | Some p => p
                    | None => VDict []
                    end) with
      | Ok n => Some n
      | Raise _ => None
      end
  | _ => None
  end.

(** The warnings due for a list of tasks, numbered from [i]. *)
Fixpoint task_warnings (total i : Z) (tasks : list value) : list event :=
  match tasks with
  | [] => []
  | task :: rest =>
      (match task, task_count task with
       | VDict d, Some n =>
           if n =? total then []
           else [EvStdout (MsgWarnTaskCount i (dict_get "name" d) n total)]
       | _, _ => []
       end ++ task_warnings total (i + 1) rest)%list
  end.

(** The sanitized predictor name of a payload, when line 89 succeeds. *)
Definition predictor_name_of (d : list (string * value)) : option string :=
  match dict_get "predictor_name" d with
  | None => Some (replace_space "UnknownPredictor")
  | Some (VStr n) => Some (replace_space n)
  | Some _ => None
  end.

(** The tasks line 96 iterates over, when the entry is iterable. *)
Definition tasks_of (d : list (string * value)) : option (list value) :=
  match dict_get "prediction_tasks" d with
  | None => Some []
  | Some v => match py_iter v with
              | Ok l => Some l
              | Raise _ => None
              end
  end.

(** A payload that lines 88-107 go through without an exception. *)
Definition checkable (d : list (string * value)) : Prop :=
  predictor_name_of d <> None /\
  exists tasks, tasks_of d = Some tasks /\
                forall task, In task tasks -> task_count task <> None.

(** The name the metrics collaborator puts into the file name of its
    table, and the path of the table. *)
Definition metrics_name (payload : value) : outcome string :=
  match py_get payload "predictor_name" (VStr "Unknown") with
  | Ok name => py_replace_space name
  | Raise e => Raise e
  end.

Definition metrics_path (cfg : Config) (output_dir name : string) : string :=
  path_join output_dir (EVALUATOR_NAME cfg ++ "_from_" ++ name ++ ".csv").

(** The artifact path for a sanitized predictor name and an extension. *)
Definition artifact_path (cfg : Config) (output_dir pname ext : string) : string :=
  path_join output_dir (output_filename_base cfg ++ "_from_" ++ pname ++ ext).

(** Lines 108-132, after the count check, for a bound response. *)
Definition write_and_score {py : PyText} (cfg : Config) (w : World)
    (json_dumps msgpack_packb : value -> outcome string)
    (output_dir pname : string) (payload : value) (success : bool) (r : Response)
  : M unit :=
  let response_fmt_actual := str_lower (headers_get "Content-Type" (headers r)) in
  go_on <-
    (if String.eqb response_fmt_actual "application/msgpack-numpy" then
       print MsgSavingMsgpack ;;;
       write_artifact w (artifact_path cfg output_dir pname ".msgpack")
         (artifact_path cfg output_dir pname ".json")
         (MsgpackFile payload) (msgpack_packb payload)
     else
       write_artifact w (artifact_path cfg output_dir pname ".json")
         (artifact_path cfg output_dir pname ".json")
         (JsonFile payload) (json_dumps payload)) ;;
  if go_on : bool then
    if success then
      calculate_and_save_metrics cfg w payload output_dir response_fmt_actual
    else print MsgSkippingMetrics
  else ret tt.

(** The predictor answers the [n]-th request with a formats document
    listing [reqs] and [resps] (a direction is [None] when its key is
    absent). *)
Definition serves_formats (w : World) (json_loads : string -> decoding)
    (n : nat) (reqs resps : option (list string)) : Prop :=
  exists r supported,
    w_net w n = Responded r /\
    is_error_status r = false /\
    json_loads (content r) = Decoded (VDict supported) /\
    dict_get "predictor_supported_request_formats" supported = formats_entry reqs /\
    dict_get "predictor_supported_response_formats" supported = formats_entry resps.

(** The formats the negotiator settles on against such a document. *)
Definition negotiated_request {py : PyText} (cfg : Config) (reqs : option (list string))
  : string :=
  fst (select_format (REQUEST_FORMAT cfg) (with_json (offered reqs))).
Definition negotiated_response {py : PyText} (cfg : Config) (resps : option (list string))
  : string :=
  fst (select_format (RESPONSE_FORMAT cfg) (with_json (offered resps))).

(** What the decoder that [deserialize_response] applies to a response
    does with its body. *)
Definition decoded {py : PyText} (json_loads msgpack_unpackb : string -> decoding)
    (r : Response) : decoding :=
  if contains "application/msgpack" (str_lower (headers_get "Content-Type" (headers r)))
  then msgpack_unpackb (content r) else json_loads (content r).

(** What [deserialize_response] makes of it. *)
Definition decode_outcome (d : decoding) : outcome value :=
  match d with
  | Decoded v => Ok v
  | DecodeError msg => Raise (ValueError ("Failed to decode predictor response: " ++ msg))
  | DecoderRaises e => Raise e
  end.

(** What the [except HTTPError] clause makes of the body of an error
    response [r]: the decoded body, the placeholder when decoding ends in a
    [ValueError], and the exception otherwise. *)
Definition error_payload (d : decoding) (r : Response) : outcome value :=
  match decode_outcome d with
  | Ok v => Ok v
  | Raise (ValueError _) => Ok (undecodable_error_payload r)
  | Raise e => Raise e
  end.

(** Events of the [try] statement of [run_evaluator]. *)
Definition try_event (e : event) : bool :=
  match e with
  | EvStdout MsgReturned200 | EvStdout (MsgReturnedHTTP _)
  | EvStderr MsgCouldNotDecodeErrorBody => true
  | _ => handler_event e
  end.

(** Lines 78-132 of [run_evaluator]: the placeholder for a missing payload,
    then saving and scoring. *)
Definition persist_phase {py : PyText} (cfg : Config) (w : World)
    (json_dumps msgpack_packb : value -> outcome string)
    (output_dir : string) (total_sequences : Z) : M unit :=
  l <- get_locals ;;
  (match response_payload l with
   | VNone => eprint MsgNoPayload ;;; set_response_payload no_response_payload
   | _ => ret tt
   end) ;;;
  save_and_score cfg w json_dumps msgpack_packb output_dir total_sequences.

(** Events of the persistence and scoring steps. *)
Definition persist_event (e : event) : bool :=
  match e with
  | EvOpen _ | EvDump _ _ | EvMetrics _ _ _ => true
  | EvStdout (MsgSaved _) | EvStdout MsgSavingMsgpack
  | EvStdout MsgSkippingMetrics | EvStderr (MsgCouldNotSave _ _) => true
  | _ => false
  end.

(** The output directory is there or can be made. *)
Definition dir_ready (w : World) : Prop :=
  w_dir_exists w = true \/ w_makedirs w = None.

(** The data loader delivers a request with [total] sequences. *)
Definition loads (w : World) (data : value) (total : Z) : Prop :=
  w_load w = inr data /\
  exists sequences, py_item data "sequences" = Ok sequences /\
                    py_len sequences = Ok total.

(** The payload that reaches line 88: Python's [None] is replaced by the
    no-response placeholder. *)
Definition payload_to_save (v : value) : value :=
  match v with
  | VNone => no_response_payload
  | _ => v
  end.




(** [offline m]: [m] makes no HTTP call. *)
Definition offline {A} (m : M A) : Prop :=
  forall s, st_requests (snd (m s)) = st_requests s.



(** ** data_loader.py: duplicate keys

    [json.loads] hands every JSON object to the hook as its list of
    pairs, in document order, after the values of the object have been
    built; [raw_json] is the document as the parser sees it, with repeated
    keys still there. *)
Inductive raw_json : Type :=
| RNull
| RBool (b : bool)
| RInt (n : Z)
| RFloat (bits : Z)
| RStr (s : string)
| RArr (l : list raw_json)
| RObj (members : list (string * raw_json)).

(** [d.get(k, 0)] and [d[k] = c] on a dict from keys to counts (a
    [Counter], or the dict of duplicates). *)
Fixpoint count_get (k : string) (d : list (string * Z)) : Z :=
  match d with
  | [] => 0
  | (k', c) :: d' => if String.eqb k k' then c else count_get k d'
  end.

Fixpoint count_set (k : string) (c : Z) (d : list (string * Z)) : list (string * Z) :=
  match d with
  | [] => [(k, c)]
  | (k', c') :: d' =>
      if String.eqb k k' then (k', c) :: d' else (k', c') :: count_set k c d'
  end.

(** [d.get(k)] on such a dict: [None] for a key without an entry. *)
Fixpoint count_lookup (k : string) (d : list (string * Z)) : option Z :=
  match d with
  | [] => None
  | (k', c) :: d' => if String.eqb k k' then Some c else count_lookup k d'
  end.

(** The loop of [_detect_duplicates]: [local_counts] and [result_dict]
    are the function's locals, [duplicate_keys_state] the dict shared by
    all calls of the hook. *)
Fixpoint detect_loop (pairs : list (string * value))
    (local_counts : list (string * Z)) (result_dict : list (string * value))
    (duplicate_keys_state : list (string * Z))
  : list (string * value) * list (string * Z) :=
  match pairs with
  | [] => (result_dict, duplicate_keys_state)
  | (key, v) :: pairs' =>
      let local_counts := count_set key (count_get key local_counts + 1) local_counts in
      let duplicate_keys_state :=
        if 1 <? count_get key local_counts
        then count_set key (count_get key local_counts) duplicate_keys_state
        else duplicate_keys_state in
      detect_loop pairs' local_counts (dict_set key v result_dict) duplicate_keys_state
  end.

Definition _detect_duplicates (pairs : list (string * value))
    (duplicate_keys_state : list (string * Z))
  : list (string * value) * list (string * Z) :=
  detect_loop pairs [] [] duplicate_keys_state.

(** [json.loads(text, object_pairs_hook=hook)] on a parsed document: every
    object goes through the hook once its members are built. *)
Fixpoint loads_with_hook (t : raw_json) (dups : list (string * Z))
  : value * list (string * Z) :=
  match t with
  | RNull => (VNone, dups)
  | RBool b => (VBool b, dups)
  | RInt n => (VInt n, dups)
  | RFloat f => (VFloat f, dups)
  | RStr s => (VStr s, dups)
  | RArr l =>
      let fix elements (l : list raw_json) (dups : list (string * Z)) :=
        match l with
        | [] => ([], dups)
        | x :: l' =>
            let '(v, dups1) := loads_with_hook x dups in
            let '(vs, dups2) := elements l' dups1 in
            (v :: vs, dups2)
        end in
      let '(vs, dups') := elements l dups in (VList vs, dups')
  | RObj members =>
      let fix pairs_of (ms : list (string * raw_json)) (dups : list (string * Z)) :=
        match ms with
        | [] => ([], dups)
        | (k, x) :: ms' =>
            let '(v, dups1) := loads_with_hook x dups in
            let '(ps, dups2) := pairs_of ms' dups1 in
            ((k, v) :: ps, dups2)
        end in
      let '(pairs, dups1) := pairs_of members dups in
      let '(d, dups2) := _detect_duplicates pairs dups1 in
      (VDict d, dups2)
  end.

(** The text of [DuplicateKeysError]. *)
Definition newline : string := String (ascii_of_nat 10) EmptyString.

Fixpoint join_lines (lines : list string) : string :=
  match lines with
  | [] => ""
  | [l] => l
  | l :: ls => l ++ newline ++ join_lines ls
  end.

Definition duplicate_message (duplicate_keys : list (string * Z)) : string :=
  "Duplicate keys found:" ++ newline
  ++ join_lines (map (fun kc => "Key: '" ++ fst kc ++ "', Count: " ++ string_of_Z (snd kc))
                     duplicate_keys).

(** [_process_results]; [DuplicateKeysError] is a [ValueError]. *)
Definition _process_results (data : value) (duplicate_keys : list (string * Z))
  : outcome value :=
  match duplicate_keys with
  | [] => Ok data
  | _ => Raise (ValueError (duplicate_message duplicate_keys))
  end.

(** [check_duplicates_from_string] on the document the parser finds in the
    text ([None]: the text is not JSON). *)
Definition check_duplicates_from_string (parse : string -> option raw_json)
    (json_string : string) : outcome value :=
  match parse json_string with
  | None => Raise (ValueError "JSONDecodeError")
  | Some t =>
      let '(data, duplicate_keys) := loads_with_hook t [] in
      _process_results data duplicate_keys
  end.

(** [check_duplicates_from_json]: the same on the content of a file
    ([None]: no such file). *)
Definition check_duplicates_from_json (parse : string -> option raw_json)
    (read_file : string -> option string) (json_file_path : string) : outcome value :=
  match read_file json_file_path with
  | None => Raise (FileNotFoundError json_file_path)
  | Some text =>
      match parse text with
      | None => Raise (ValueError "JSONDecodeError")
      | Some t =>
          let '(data, duplicate_keys) := loads_with_hook t [] in
          _process_results data duplicate_keys
      end
  end.

(** The document without any hook: a repeated key keeps its first position
    and its last value, as a Python dict does. *)
Fixpoint plain_value (t : raw_json) : value :=
  match t with
  | RNull => VNone
  | RBool b => VBool b
  | RInt n => VInt n
  | RFloat f => VFloat f
  | RStr s => VStr s
  | RArr l => VList (map plain_value l)
  | RObj members =>
      VDict (fold_left (fun d kv => dict_set (fst kv) (plain_value (snd kv)) d)
                       members [])
  end.

(** No object of the document, at any depth, repeats a key. *)
Fixpoint keys_unique (keys : list string) : bool :=
  match keys with
  | [] => true
  | k :: keys' => andb (negb (mem k keys')) (keys_unique keys')
  end.

Fixpoint no_repeated_key (t : raw_json) : bool :=
  match t with
  | RArr l => forallb no_repeated_key l
  | RObj members =>
      andb (keys_unique (map fst members))
           (forallb (fun kv => no_repeated_key (snd kv)) members)
  | _ => true
  end.

(** How often a key occurs in a list of pairs. *)
Fixpoint occurrences {V} (k : string) (pairs : list (string * V)) : Z :=
  match pairs with
  | [] => 0
  | (k', _) :: pairs' =>
      (if String.eqb k k' then 1 else 0) + occurrences k pairs'
  end.

(** The value of the last pair with key [k]. *)
Fixpoint last_value {V} (k : string) (pairs : list (string * V)) : option V :=
  match pairs with
  | [] => None
  | (k', v) :: pairs' =>
      match last_value k pairs' with
      | Some v' => Some v'
      | None => if String.eqb k k' then Some v else None
      end
  end.

(** Threading the shared dict through the elements of an array and the
    members of an object, as [loads_with_hook] does. *)
Definition elements_with (f : raw_json -> list (string * Z) -> value * list (string * Z)) :=
  fix elements (l : list raw_json) (dups : list (string * Z)) :=
    match l with
    | [] => ([], dups)
    | x :: l' =>
        let '(v, dups1) := f x dups in
        let '(vs, dups2) := elements l' dups1 in
        (v :: vs, dups2)
    end.

Definition pairs_with (f : raw_json -> list (string * Z) -> value * list (string * Z)) :=
  fix pairs_of (ms : list (string * raw_json)) (dups : list (string * Z)) :=
    match ms with
    | [] => ([], dups)
    | (k, x) :: ms' =>
        let '(v, dups1) := f x dups in
        let '(ps, dups2) := pairs_of ms' dups1 in
        ((k, v) :: ps, dups2)
    end.

(** ** data_loader.py: [load_and_validate_data]

    The genome lookup [seqstr(text)[0].Seq], the formatting of a value
    inside an f-string and float addition are taken as parameters.  The
    function returns its outcome and the lookups it asked for, in order
    (each is printed before it is made). *)
Module DataLoader.
Section Loader.

Variable parse : string -> option raw_json.
Variable read_file : string -> option string.
Variable EVALUATOR_INPUT_PATH : string.
Variable seqstr : string -> outcome string.
Variable py_format : value -> string.
Variable float_add : Z -> Z -> Z.

(** ["sequence_coordinates" in data_dict] *)
Definition has_key (data_dict : value) (key : string) : outcome bool :=
  match data_dict with
  | VDict d => Ok (match dict_get key d with Some _ => true | None => false end)
  | VList l => Ok (existsb (fun v => match v with
                                     | VStr s => String.eqb s key
                                     | _ => false
                                     end) l)
  | VStr s => Ok (contains key s)
  | _ => Raise (OtherError "TypeError")
  end.

(** [(chr, coord) = v]: exactly two items. *)
Definition unpack_pair (v : value) : outcome (value * value) :=
  match py_iter v with
  | Ok [a; b] => Ok (a, b)
  | Ok _ => Raise (ValueError "unpack")
  | Raise e => Raise e
  end.

(** [coord + seq_len] for an int [seq_len] *)
Definition plus_int (coord : value) (n : Z) : outcome value :=
  match coord with
  | VInt c => Ok (VInt (c + n))
  | VBool b => Ok (VInt ((if b then 1 else 0) + n))
  | VFloat f => Ok (VFloat (float_add f n))
  | _ => Raise (OtherError "TypeError")
  end.

(** [f"[hg38]{chr}:{coord}-{coord+seq_len} +"] *)
Definition seqstr_input (chr coord stop : value) : string :=
  "[hg38]" ++ py_format chr ++ ":" ++ py_format coord ++ "-" ++ py_format stop ++ " +".

(** The loop of lines 151-159 over the items of the coordinates dict. *)
Fixpoint fetch_loop (seq_len : Z) (items : list (string * value))
    (retrieved_seqs : list (string * value)) (asked : list string)
  : outcome (list (string * value)) * list string :=
  match items with
  | [] => (Ok retrieved_seqs, asked)
  | (key, v) :: items' =>
      match unpack_pair v with
      | Raise e => (Raise e, asked)
      | Ok (chr, coord) =>
          match plus_int coord seq_len with
          | Raise e => (Raise e, asked)
          | Ok stop =>
              let input := seqstr_input chr coord stop in
              let asked := (asked ++ [input])%list in
              match seqstr input with
              | Raise e => (Raise e, asked)
              | Ok seq =>
                  if negb (Z.of_nat (String.length seq) =? seq_len) then
                    (Raise (ValueError ("Sequence " ++ key ++ " length != "
                                        ++ string_of_Z seq_len)), asked)
                  else
                    fetch_loop seq_len items' (dict_set key (VStr seq) retrieved_seqs) asked
              end
          end
      end
  end.

Definition load_and_validate_data_with (seq_len : Z) : outcome value * list string :=
  match check_duplicates_from_json parse read_file EVALUATOR_INPUT_PATH with
  | Raise e => (Raise e, [])
  | Ok data_dict =>
      match has_key data_dict "sequence_coordinates" with
      | Raise e => (Raise e, [])
      | Ok false =>
          (Raise (ValueError
                    "Orca evaluator expected 'sequence_coordinates' in input JSON."), [])
      | Ok true =>
          match data_dict with
          | VDict d =>
              match dict_get "sequence_coordinates" d with
              | Some (VDict coords) =>
                  match fetch_loop seq_len coords [] [] with
                  | (Ok retrieved_seqs, asked) =>
                      (Ok (VDict (dict_set "sequences" (VDict retrieved_seqs) d)), asked)
                  | (Raise e, asked) => (Raise e, asked)
                  end
              | Some _ => (Raise (OtherError "AttributeError"), [])
              | None => (Raise (OtherError "KeyError"), [])
              end
          | _ => (Raise (OtherError "TypeError"), [])
          end
      end
  end.

(** [seq_len = 1000000] *)
Definition load_and_validate_data : outcome value * list string :=
  load_and_validate_data_with 1000000.

End Loader.
End DataLoader.

(** The lookup text for a well-formed coordinate [[chr, start]]. *)
Definition expected_input (seq_len : Z) (v : value) : string :=
  match v with
  | VList [VStr chr; VInt c] =>
      "[hg38]" ++ chr ++ ":" ++ string_of_Z c ++ "-" ++ string_of_Z (c + seq_len) ++ " +"
  | _ => ""
  end.

(** A coordinate entry that the loop accepts: a [[chr, start]] pair whose
    lookup answers with a sequence of the required length. *)
Definition fetchable (seqstr : string -> outcome string) (seq_len : Z)
    (v : value) (seq : string) : Prop :=
  (exists chr c, v = VList [VStr chr; VInt c]) /\
  seqstr (expected_input seq_len v) = Ok seq /\
  Z.of_nat (String.length seq) = seq_len.

(** Formatting of strings and ints inside an f-string. *)
Definition formats_plainly (py_format : value -> string) : Prop :=
  (forall s, py_format (VStr s) = s) /\
  (forall n, py_format (VInt n) = string_of_Z n).

(** A toy genome: every lookup answers [ACGT]. *)
Definition toy_seqstr (input : string) : outcome string := Ok "ACGT".

Definition toy_format (v : value) : string :=
  match v with
  | VStr s => s
  | VInt n => string_of_Z n
  | _ => "?"
  end.

Definition toy_parse (text : string) : option raw_json :=
  if String.eqb text "coordinates"
  then Some (RObj [("request", RStr "predict");
                   ("sequence_coordinates",
                    RObj [("seq1", RArr [RStr "chr9"; RInt 0]);
                          ("seq2", RArr [RStr "chr9"; RInt 4])])])
  else if String.eqb text "no-coordinates"
  then Some (RObj [("request", RStr "predict")])
  else None.

Definition toy_read_file (path : string) : option string :=
  if String.eqb path "/evaluator_data/in.json" then Some "coordinates"
  else if String.eqb path "/evaluator_data/bare.json" then Some "no-coordinates"
  else None.

(** ** evaluator_data/make_json_files.py *)
Module MakeJsonFiles.

(** [range(start, stop, step)] for a positive [step] (the script's step
    is the constant segment size). *)
Definition py_range (start stop step : Z) : list Z :=
  if step <=? 0 then []
  else map (fun i => start + Z.of_nat i * step)
           (seq 0 (Z.to_nat ((stop - start + step - 1) / step))).

(** [enumerate(l, i)] *)
Fixpoint enumerate {A} (i : Z) (l : list A) : list (Z * A) :=
  match l with
  | [] => []
  | x :: l' => (i, x) :: enumerate (i + 1) l'
  end.

(** Lines 9-12 *)
Definition sequence_coordinates (chrom : string) (chrom_length segment_size : Z)
  : list (string * value) :=
  fold_left
    (fun d (ix : Z * Z) =>
       dict_set ("seq" ++ string_of_Z (fst ix)) (VList [VStr chrom; VInt (snd ix)]) d)
    (enumerate 1 (py_range 0 (chrom_length - segment_size) segment_size))
    [].

(** Lines 15-28 *)
Definition request_payload (chrom task_name : string) (chrom_length segment_size : Z)
  : value :=
  VDict [("request", VStr "predict");
         ("readout", VStr "interaction_matrix");
         ("prediction_tasks",
          VList [VDict [("name", VStr task_name);
                        ("type", VStr "chromatin_conformation");
                        ("cell_type", VStr "H1");
                        ("scale", VStr "log");
                        ("species", VStr "homo_sapiens")]]);
         ("sequence_coordinates",
          VDict (sequence_coordinates chrom chrom_length segment_size))].

(** The values of the chr8 script. *)
Definition chr8_payload : value := request_payload "chr8" "orca_chrom8_eval" 145138636 1000000.

End MakeJsonFiles.

(** A server without a [/formats] route: it answers 404 with an HTML page. *)
Definition not_found_response : Response :=
  {| status_code := 404; headers := [("Content-Type", "text/html")];
     content := "<html>Not Found</html>"; text := "<html>Not Found</html>" |}.

Definition no_formats_world : World := {|
  w_dir_exists := true; w_makedirs := None;
  w_load := inr request_data;
  w_net := fun _ => Responded not_found_response;
  w_open := fun _ => Opened; w_metrics := None
|}.

(** The exceptions of a decoder are not HTTP errors. *)
Definition plain_failure (d : decoding) : Prop :=
  forall e, d = DecoderRaises e -> is_HTTPError e = false.



(** * Properties *)

Open Scope list_scope.

(** ** Transport retry *)

Lemma count_requests_app t1 t2 :
  count_requests (t1 ++ t2) = count_requests t1 + count_requests t2.
Proof.
  induction t1 as [|e t1 IH]; [reflexivity|].
  destruct e; cbn [app count_requests]; rewrite IH; lia.
Qed.

Lemma seconds_slept_app t1 t2 :
  seconds_slept (t1 ++ t2) = seconds_slept t1 + seconds_slept t2.
Proof.
  induction t1 as [|e t1 IH]; [reflexivity|].
  destruct e; cbn [app seconds_slept]; rewrite IH; lia.
Qed.

Lemma sleep_loop_spec n s :
  sleep_loop n s =
  (Ok tt, {| st_dir := st_dir s; st_requests := st_requests s;
             st_files := st_files s;
             st_trace := st_trace s ++ repeat (EvSleep 1) n;
             st_locals := st_locals s |}).
Proof.
  revert s; induction n as [|n IH]; intros s.
  - simpl. unfold ret. rewrite app_nil_r. destruct s; reflexivity.
  - simpl. unfold bind, emit. rewrite IH. simpl.
    rewrite <- app_assoc. reflexivity.
Qed.

Lemma seconds_slept_repeat n : seconds_slept (repeat (EvSleep 1) n) = Z.of_nat n.
Proof.
  induction n as [|n IH]; [reflexivity|].
  rewrite Nat2Z.inj_succ. cbn [repeat seconds_slept]. lia.
Qed.

Lemma count_requests_repeat_sleep n : count_requests (repeat (EvSleep 1) n) = 0.
Proof. induction n as [|n IH]; simpl; auto. Qed.


Lemma retry_loop_error_status cfg w method url hdrs body (k : nat) (a : Z) s r :
  (1 <= k)%nat ->
  w_net w (st_requests s) = Responded r ->
  is_error_status r = true ->
  retry_loop cfg w method url hdrs body k a s
  = (Raise (HTTPError r),
     {| st_dir := st_dir s; st_requests := S (st_requests s);
        st_files := st_files s;
        st_trace := st_trace s ++ [EvRequest method url hdrs body];
        st_locals := st_locals s |}).
Proof.
  intros Hk Hnet Herr. destruct k as [|k]; [lia|].
  cbn [retry_loop]. unfold bind, http_request. rewrite Hnet, Herr. reflexivity.
Qed.

Lemma retry_loop_good_status cfg w method url hdrs body (k : nat) (a : Z) s r :
  (1 <= k)%nat ->
  w_net w (st_requests s) = Responded r ->
  is_error_status r = false ->
  retry_loop cfg w method url hdrs body k a s
  = (Ok (Some r),
     {| st_dir := st_dir s; st_requests := S (st_requests s);
        st_files := st_files s;
        st_trace := st_trace s ++ [EvRequest method url hdrs body];
        st_locals := st_locals s |}).
Proof.
  intros Hk Hnet Herr. destruct k as [|k]; [lia|].
  cbn [retry_loop]. unfold bind, http_request. rewrite Hnet, Herr. reflexivity.
Qed.

Lemma error_status_iff r : is_error_status r = true <-> 400 <= status_code r < 600.
Proof.
  unfold is_error_status. rewrite andb_true_iff, Z.leb_le, Z.ltb_lt. tauto.
Qed.

Lemma retry_loop_answered cfg w method url hdrs body (k : nat) (a : Z) s r :
  (1 <= k)%nat ->
  w_net w (st_requests s) = Responded r ->
  retry_loop cfg w method url hdrs body k a s
  = ((if is_error_status r then Raise (HTTPError r) else Ok (Some r)),
     {| st_dir := st_dir s; st_requests := S (st_requests s);
        st_files := st_files s;
        st_trace := st_trace s ++ [EvRequest method url hdrs body];
        st_locals := st_locals s |}).
Proof.
  intros Hk Hnet. destruct (is_error_status r) eqn:E.
  - apply retry_loop_error_status; assumption.
  - apply retry_loop_good_status; assumption.
Qed.

Lemma flat_map_seq_shift {A} (f : nat -> list A) n :
  flat_map f (seq 1 n) = flat_map (fun i => f (S i)) (seq 0 n).
Proof.
  rewrite <- seq_shift, flat_map_concat_map, map_map, <- flat_map_concat_map.
  reflexivity.
Qed.

(** The trace of a loop whose attempts are all refused: every attempt but
    the last is followed by its wait. *)
Lemma retry_loop_refused_trace cfg w method url hdrs body (err : nat -> string) :
  (forall n, w_net w n = ConnFailed (err n)) ->
  forall (k : nat) (a : Z) (s : state),
    (1 <= k)%nat ->
    a + Z.of_nat k - 1 = MAX_RETRIES cfg ->
    retry_loop cfg w method url hdrs body k a s
    = (Raise (RequestException (err (st_requests s + k - 1)%nat)),
       {| st_dir := st_dir s; st_requests := (st_requests s + k)%nat;
          st_files := st_files s;
          st_trace :=
            st_trace s
            ++ flat_map
                 (fun i =>
                    [EvRequest method url hdrs body;
                     EvStdout (MsgAttemptFailed (a + Z.of_nat i) (MAX_RETRIES cfg)
                                 (err (st_requests s + i)%nat));
                     EvStdout (MsgRetryingIn (RETRY_INTERVAL cfg))]
                    ++ repeat (EvSleep 1) (Z.to_nat (RETRY_INTERVAL cfg)))
                 (seq 0 (k - 1))
            ++ [EvRequest method url hdrs body;
                EvStdout (MsgAttemptFailed (MAX_RETRIES cfg) (MAX_RETRIES cfg)
                            (err (st_requests s + k - 1)%nat));
                EvStdout (MsgRetriesExceeded (MAX_RETRIES cfg))];
          st_locals := st_locals s |}).
Proof.
  intros Hnet k.
  induction k as [|k IH]; intros a s Hk Ha; [lia|].
  cbn [retry_loop]. unfold bind at 1. unfold http_request at 1.
  rewrite Hnet. unfold bind at 1. unfold print at 1, emit at 1.
  destruct k as [|k].
  - (* the last attempt *)
    assert (a = MAX_RETRIES cfg) as -> by lia.
    rewrite Z.ltb_irrefl.
    unfold bind, print, emit, raise, add_event; cbn.
    rewrite <- !app_assoc. cbn.
    replace (st_requests s + 1 - 1)%nat with (st_requests s) by lia.
    replace (st_requests s + 1)%nat with (S (st_requests s)) by lia.
    reflexivity.
  - assert ((a <? MAX_RETRIES cfg) = true) as -> by (apply Z.ltb_lt; lia).
    unfold bind at 1. unfold print at 1, emit at 1.
    unfold bind at 1. rewrite sleep_loop_spec.
    unfold bind. rewrite IH by lia.
    cbn [st_requests st_trace st_dir st_files st_locals add_event].
    replace (S k - 0)%nat with (S k) by lia.
    replace (S (S k) - 1)%nat with (S k) by lia.
    replace (S k - 1)%nat with k by lia.
    replace (S (st_requests s) + S k - 1)%nat with (st_requests s + S (S k) - 1)%nat by lia.
    replace (S (st_requests s) + S k)%nat with (st_requests s + S (S k))%nat by lia.
    f_equal. f_equal.
    change (seq 0 (S k)) with (0%nat :: seq 1 k).
    cbn [flat_map]. rewrite flat_map_seq_shift.
    rewrite <- !app_assoc. cbn [app].
    replace (a + Z.of_nat 0) with a by lia.
    replace (st_requests s + 0)%nat with (st_requests s) by lia.
    do 4 f_equal. f_equal. f_equal.
    apply flat_map_ext. intros i.
    replace (a + 1 + Z.of_nat i) with (a + Z.of_nat (S i)) by lia.
    replace (S (st_requests s) + i)%nat with (st_requests s + S i)%nat by lia.
    reflexivity.
Qed.

Lemma count_requests_flat_map (f : nat -> list event) l c :
  (forall i, count_requests (f i) = c) ->
  count_requests (flat_map f l) = Z.of_nat (List.length l) * c.
Proof.
  intros H. induction l as [|x l IH]; [reflexivity|].
  cbn [flat_map List.length]. rewrite count_requests_app, IH, H. lia.
Qed.

Lemma seconds_slept_flat_map (f : nat -> list event) l c :
  (forall i, seconds_slept (f i) = c) ->
  seconds_slept (flat_map f l) = Z.of_nat (List.length l) * c.
Proof.
  intros H. induction l as [|x l IH]; [reflexivity|].
  cbn [flat_map List.length]. rewrite seconds_slept_app, IH, H. lia.
Qed.

(** C3 (as amended).  At any attempt of the retry loop, an answer from the
    server ends the loop after that one request, with no sleep and no
    further attempt: a 4xx or 5xx status raises [HTTPError], any other
    status is returned.  When every connection attempt fails, the function
    makes [MAX_RETRIES] attempts (that is [MAX_RETRIES - 1] retries); each
    failed attempt but the last prints its message and is followed by the
    same wait, [RETRY_INTERVAL] sleeps of one second (none when
    [RETRY_INTERVAL] is not positive); after the last attempt the message
    that carries the attempt count is printed and the error of that attempt
    is raised. *)
Theorem transport_retry_policy cfg w method url hdrs body :
  1 <= MAX_RETRIES cfg ->
  (forall (k : nat) (a : Z) s r,
      (1 <= k)%nat ->
      w_net w (st_requests s) = Responded r ->
      retry_loop cfg w method url hdrs body k a s
      = ((if andb (400 <=? status_code r) (status_code r <? 600)
          then Raise (HTTPError r) else Ok (Some r)),
         {| st_dir := st_dir s; st_requests := S (st_requests s);
            st_files := st_files s;
            st_trace := st_trace s ++ [EvRequest method url hdrs body];
            st_locals := st_locals s |}))
  /\
  (forall (err : nat -> string) s,
      (forall n, w_net w n = ConnFailed (err n)) ->
      let M := Z.to_nat (MAX_RETRIES cfg) in
      let failed_attempt (i : nat) :=
        [EvRequest method url hdrs body;
         EvStdout (MsgAttemptFailed (Z.of_nat i + 1) (MAX_RETRIES cfg)
                     (err (st_requests s + i)%nat));
         EvStdout (MsgRetryingIn (RETRY_INTERVAL cfg))]
        ++ repeat (EvSleep 1) (Z.to_nat (RETRY_INTERVAL cfg)) in
      let t := flat_map failed_attempt (seq 0 (M - 1))
               ++ [EvRequest method url hdrs body;
                   EvStdout (MsgAttemptFailed (MAX_RETRIES cfg) (MAX_RETRIES cfg)
                               (err (st_requests s + M - 1)%nat))] in
      exists s',
        _make_request_with_retry cfg w method url hdrs body s
        = (Raise (RequestException (err (st_requests s + M - 1)%nat)), s') /\
        st_requests s' = (st_requests s + M)%nat /\
        st_trace s' = st_trace s ++ t
                      ++ [EvStdout (MsgRetriesExceeded (MAX_RETRIES cfg))] /\
        count_requests t = MAX_RETRIES cfg /\
        seconds_slept t = (MAX_RETRIES cfg - 1) * Z.max 0 (RETRY_INTERVAL cfg)).
Proof.
  intros HM. split.
  - intros k a s r Hk Hnet. apply retry_loop_answered; assumption.
  - intros err s Hnet. cbv zeta. unfold _make_request_with_retry.
    set (M := Z.to_nat (MAX_RETRIES cfg)).
    set (failed_attempt := fun i : nat =>
           [EvRequest method url hdrs body;
            EvStdout (MsgAttemptFailed (Z.of_nat i + 1) (MAX_RETRIES cfg)
                        (err (st_requests s + i)%nat));
            EvStdout (MsgRetryingIn (RETRY_INTERVAL cfg))]
           ++ repeat (EvSleep 1) (Z.to_nat (RETRY_INTERVAL cfg))).
    rewrite (retry_loop_refused_trace cfg w method url hdrs body err Hnet M 1 s)
      by (subst M; lia).
    eexists. split; [reflexivity|].
    cbn [st_requests st_trace]. split; [reflexivity|].
    assert (forall i,
               [EvRequest method url hdrs body;
                EvStdout (MsgAttemptFailed (1 + Z.of_nat i) (MAX_RETRIES cfg)
                            (err (st_requests s + i)%nat));
                EvStdout (MsgRetryingIn (RETRY_INTERVAL cfg))]
               ++ repeat (EvSleep 1) (Z.to_nat (RETRY_INTERVAL cfg))
               = failed_attempt i) as Hfa.
    { intros i. subst failed_attempt. cbv beta.
      replace (1 + Z.of_nat i) with (Z.of_nat i + 1) by lia. reflexivity. }
    rewrite (flat_map_ext _ _ Hfa).
    split; [rewrite <- !app_assoc; reflexivity|].
    rewrite count_requests_app, seconds_slept_app.
    rewrite (count_requests_flat_map failed_attempt _ 1),
            (seconds_slept_flat_map failed_attempt _ (Z.max 0 (RETRY_INTERVAL cfg))).
    + rewrite length_seq. cbn [count_requests seconds_slept]. subst M.
      replace (Z.of_nat (Z.to_nat (MAX_RETRIES cfg) - 1)) with (MAX_RETRIES cfg - 1) by lia.
      split; lia.
    + intros i. subst failed_attempt. cbv beta.
      rewrite seconds_slept_app, seconds_slept_repeat. cbn [seconds_slept]. lia.
    + intros i. subst failed_attempt. cbv beta.
      rewrite count_requests_app, count_requests_repeat_sleep. cbn [count_requests]. lia.
Qed.

Lemma transport_retry_policy_witness :
  (let s := init_state refusing_world in
   retry_loop config not_modified_world
     "post" "http://predictor:5000/predict" [] None 50 1 s
   = (Ok (Some not_modified),
      {| st_dir := st_dir s; st_requests := 1%nat; st_files := [];
         st_trace := [EvRequest "post" "http://predictor:5000/predict" [] None];
         st_locals := st_locals s |}))
  /\
  (exists s' t,
      _make_request_with_retry config refusing_world
        "get" "http://predictor:5000/formats" [] None (init_state refusing_world)
      = (Raise (RequestException "Connection refused"), s') /\
      st_requests s' = 50%nat /\
      st_trace s' = t ++ [EvStdout (MsgRetriesExceeded 50)] /\
      count_requests t = 50 /\
      seconds_slept t = 49 * 30).
Proof.
  split.
  - destruct (transport_retry_policy config not_modified_world
                "post" "http://predictor:5000/predict" [] None) as [H _];
      [cbn; lia |].
    intros s. rewrite (H 50%nat 1 s not_modified); [reflexivity | lia | reflexivity].
  - destruct (transport_retry_policy config refusing_world
                "get" "http://predictor:5000/formats" [] None) as [_ H];
      [cbn; lia |].
    destruct (H (fun _ => "Connection refused"%string) (init_state refusing_world))
      as (s' & H1 & H2 & H3 & H4 & H5); [reflexivity|].
    exists s'. eexists. repeat split; [exact H1 | exact H2 | exact H3 | exact H4 | exact H5].
Defined.

(** C3 as stated fails: a response whose status is neither 2xx nor an
    error class, here 304, does not raise; it is returned to the caller. *)
Lemma status_304_is_returned_not_raised :
  ~ (200 <= status_code not_modified < 300) /\
  fst (_make_request_with_retry config not_modified_world
         "get" "http://predictor:5000/formats" [] None
         (init_state not_modified_world))
  = Ok (Some not_modified).
Proof. split; [cbn; lia | reflexivity]. Qed.

(** ** Stepping through monadic code *)

Lemma bind_ok {A B} (m : M A) (k : A -> M B) s a s1 :
  m s = (Ok a, s1) -> bind m k s = k a s1.
Proof. intros H. unfold bind. rewrite H. reflexivity. Qed.

Lemma bind_raise {A B} (m : M A) (k : A -> M B) s e s1 :
  m s = (Raise e, s1) -> bind m k s = (Raise e, s1).
Proof. intros H. unfold bind. rewrite H. reflexivity. Qed.

Lemma print_step msg s : print msg s = (Ok tt, add_event (EvStdout msg) s).
Proof. reflexivity. Qed.

Lemma eprint_step msg s : eprint msg s = (Ok tt, add_event (EvStderr msg) s).
Proof. reflexivity. Qed.

Lemma make_request_good_status cfg w method url hdrs body s r :
  1 <= MAX_RETRIES cfg ->
  w_net w (st_requests s) = Responded r ->
  is_error_status r = false ->
  _make_request_with_retry cfg w method url hdrs body s
  = (Ok (Some r),
     {| st_dir := st_dir s; st_requests := S (st_requests s);
        st_files := st_files s;
        st_trace := st_trace s ++ [EvRequest method url hdrs body];
        st_locals := st_locals s |}).
Proof.
  intros HM Hnet Hst. unfold _make_request_with_retry.
  apply retry_loop_good_status; auto. lia.
Qed.

Lemma make_request_error_status cfg w method url hdrs body s r :
  1 <= MAX_RETRIES cfg ->
  w_net w (st_requests s) = Responded r ->
  is_error_status r = true ->
  _make_request_with_retry cfg w method url hdrs body s
  = (Raise (HTTPError r),
     {| st_dir := st_dir s; st_requests := S (st_requests s);
        st_files := st_files s;
        st_trace := st_trace s ++ [EvRequest method url hdrs body];
        st_locals := st_locals s |}).
Proof.
  intros HM Hnet Hst. unfold _make_request_with_retry.
  apply retry_loop_error_status; auto. lia.
Qed.

(** ** Format negotiation *)

Lemma mem_In x l : mem x l = true <-> In x l.
Proof.
  induction l as [|y l IH]; cbn [mem In]; [split; [discriminate|tauto]|].
  destruct (String.eqb_spec x y) as [->|Hne].
  - split; auto.
  - rewrite IH. split; [auto|]. intros [H|H]; [congruence|assumption].
Qed.

Lemma mem_false_iff x l : mem x l = false <-> ~ In x l.
Proof.
  rewrite <- mem_In. destruct (mem x l); split; congruence.
Qed.

Lemma with_json_In f l :
  In f (with_json l) <-> In f l \/ f = "application/json"%string.
Proof.
  unfold with_json. destruct (mem "application/json" l) eqn:E.
  - apply mem_In in E. split; [auto|]. intros [H| ->]; assumption.
  - rewrite in_app_iff. cbn [In]. intuition congruence.
Qed.

Lemma lower_all_strs {py : PyText} l : lower_all (map VStr l) = Ok (map str_lower l).
Proof.
  induction l as [|f l IH]; cbn [map lower_all]; [reflexivity|].
  rewrite IH. reflexivity.
Qed.

Lemma select_format_spec preferred l :
  (In preferred l \/ preferred = "application/json"%string ->
   select_format preferred (with_json l) = (preferred, false)) /\
  (~ In preferred l -> preferred <> "application/json"%string ->
   select_format preferred (with_json l) = ("application/json"%string, true)).
Proof.
  unfold select_format. split.
  - intros H. apply with_json_In, mem_In in H. rewrite H. reflexivity.
  - intros H1 H2.
    assert (mem preferred (with_json l) = false) as ->.
    { apply mem_false_iff. rewrite with_json_In. tauto. }
    apply String.eqb_neq in H2. rewrite H2. reflexivity.
Qed.

Lemma lowered_formats_entry {py : PyText} fmts :
  lowered_formats (formats_entry fmts) = Ok (offered fmts).
Proof.
  destruct fmts as [l|]; cbn; [apply lower_all_strs | reflexivity].
Qed.

Lemma negotiate_formats_run {py : PyText} cfg w json_loads url s r supported reqs resps :
  1 <= MAX_RETRIES cfg ->
  w_net w (st_requests s) = Responded r ->
  is_error_status r = false ->
  json_loads (content r) = Decoded (VDict supported) ->
  dict_get "predictor_supported_request_formats" supported = formats_entry reqs ->
  dict_get "predictor_supported_response_formats" supported = formats_entry resps ->
  let sel_req := select_format (REQUEST_FORMAT cfg) (with_json (offered reqs)) in
  let sel_resp := select_format (RESPONSE_FORMAT cfg) (with_json (offered resps)) in
  negotiate_formats cfg w json_loads url s
  = (Ok (fst sel_req, fst sel_resp),
     {| st_dir := st_dir s; st_requests := S (st_requests s);
        st_files := st_files s;
        st_trace :=
          st_trace s
          ++ [EvStdout (MsgNegotiating (url ++ "/formats")%string);
              EvRequest "get" (url ++ "/formats")%string [] None;
              EvStdout (MsgPredictorCanReceive (with_json (offered reqs)));
              EvStdout (MsgPredictorCanSend (with_json (offered resps)))]
          ++ (if snd sel_req
              then [EvStdout (MsgWarnRequestFormat (REQUEST_FORMAT cfg))] else [])
          ++ (if snd sel_resp
              then [EvStdout (MsgWarnResponseFormat (RESPONSE_FORMAT cfg))] else [])
          ++ [EvStdout (MsgNegotiatedRequest (fst sel_req));
              EvStdout (MsgNegotiatedResponse (fst sel_resp))];
        st_locals := st_locals s |}).
Proof.
  intros HM Hnet Hst Hjson Hreq Hresp sel_req sel_resp.
  unfold negotiate_formats.
  rewrite (bind_ok _ _ _ _ _ (print_step _ _)).
  rewrite (bind_ok _ _ _ _ _
             (make_request_good_status cfg w _ _ _ _ (add_event _ s) r HM Hnet Hst)).
  rewrite Hjson, Hreq, Hresp, !lowered_formats_entry.
  unfold lift at 1. unfold bind at 1. unfold lift at 1. unfold bind at 1.
  fold sel_req. fold sel_resp.
  destruct sel_req as [f1 [|]], sel_resp as [f2 [|]];
    cbn; unfold ret, add_event; cbn; rewrite <- ?app_assoc; reflexivity.
Qed.

(** X1.  When the formats document is served and decodes, the negotiator
    makes one request and picks, for each direction on its own, the locally
    preferred format if the predictor's lower-cased list has it (JSON counts
    as listed even when absent, also for a missing key), and
    [application/json] otherwise; the warning naming the preference is
    printed exactly in the second case. *)
Theorem negotiate_formats_selection {py : PyText} cfg w json_loads url s r supported reqs resps :
  1 <= MAX_RETRIES cfg ->
  w_net w (st_requests s) = Responded r ->
  is_error_status r = false ->
  json_loads (content r) = Decoded (VDict supported) ->
  dict_get "predictor_supported_request_formats" supported = formats_entry reqs ->
  dict_get "predictor_supported_response_formats" supported = formats_entry resps ->
  exists req resp s' t,
    negotiate_formats cfg w json_loads url s = (Ok (req, resp), s') /\
    st_requests s' = S (st_requests s) /\
    st_trace s' = st_trace s ++ t /\
    (In (REQUEST_FORMAT cfg) (offered reqs)
       \/ REQUEST_FORMAT cfg = "application/json"%string ->
     req = REQUEST_FORMAT cfg /\
     ~ In (EvStdout (MsgWarnRequestFormat (REQUEST_FORMAT cfg))) t) /\
    (~ In (REQUEST_FORMAT cfg) (offered reqs) ->
     REQUEST_FORMAT cfg <> "application/json"%string ->
     req = "application/json"%string /\
     In (EvStdout (MsgWarnRequestFormat (REQUEST_FORMAT cfg))) t) /\
    (In (RESPONSE_FORMAT cfg) (offered resps)
       \/ RESPONSE_FORMAT cfg = "application/json"%string ->
     resp = RESPONSE_FORMAT cfg /\
     ~ In (EvStdout (MsgWarnResponseFormat (RESPONSE_FORMAT cfg))) t) /\
    (~ In (RESPONSE_FORMAT cfg) (offered resps) ->
     RESPONSE_FORMAT cfg <> "application/json"%string ->
     resp = "application/json"%string /\
     In (EvStdout (MsgWarnResponseFormat (RESPONSE_FORMAT cfg))) t).
Proof.
  intros HM Hnet Hst Hjson Hreq Hresp.
  pose proof (negotiate_formats_run cfg w json_loads url s r supported reqs resps
                HM Hnet Hst Hjson Hreq Hresp) as Hrun.
  cbv zeta in Hrun.
  destruct (select_format_spec (REQUEST_FORMAT cfg) (offered reqs)) as [Q1 Q2].
  destruct (select_format_spec (RESPONSE_FORMAT cfg) (offered resps)) as [R1 R2].
  do 3 eexists. eexists.
  split; [exact Hrun|]. split; [reflexivity|]. split; [reflexivity|].
  repeat split.
  - rewrite Q1 by assumption. reflexivity.
  - rewrite Q1 by assumption. cbn [fst snd].
    rewrite !in_app_iff. cbn [In].
    destruct (snd (select_format (RESPONSE_FORMAT cfg) (with_json (offered resps))));
      cbn [In]; intuition discriminate.
  - rewrite Q2 by assumption. reflexivity.
  - rewrite Q2 by assumption. rewrite !in_app_iff. cbn [snd In]. auto.
  - rewrite R1 by assumption. reflexivity.
  - rewrite R1 by assumption. cbn [fst snd].
    rewrite !in_app_iff. cbn [In].
    destruct (snd (select_format (REQUEST_FORMAT cfg) (with_json (offered reqs))));
      cbn [In]; intuition discriminate.
  - rewrite R2 by assumption. reflexivity.
  - rewrite R2 by assumption. rewrite !in_app_iff. cbn [snd In]. auto.
Qed.

Lemma negotiate_formats_selection_witness :
  exists s' t,
    negotiate_formats (py := ascii_text) config json_only_world example_json_loads
      "http://127.0.0.1:5000" (init_state json_only_world)
    = (Ok ("application/json"%string, "application/json"%string), s') /\
    st_trace s' = t /\
    In (EvStdout (MsgWarnRequestFormat "application/msgpack")) t /\
    In (EvStdout (MsgWarnResponseFormat "application/msgpack-numpy")) t.
Proof.
  destruct (negotiate_formats_selection (py := ascii_text) config json_only_world example_json_loads
              "http://127.0.0.1:5000" (init_state json_only_world)
              formats_response
              [("predictor_supported_request_formats", VList [VStr "Application/JSON"]);
               ("predictor_supported_response_formats", VList [VStr "application/json"])]
              (Some ["Application/JSON"%string]) (Some ["application/json"%string]))
    as (req & resp & s' & t & Hrun & _ & Htr & _ & Hq & _ & Hr);
    try reflexivity; [cbn; lia|].
  destruct Hq as [-> Hwq]; [cbn; intuition discriminate | cbn; discriminate |].
  destruct Hr as [-> Hwr]; [cbn; intuition discriminate | cbn; discriminate |].
  exists s', t. repeat split; assumption.
Defined.

(** X2.  Once the predictor has answered the formats request, the
    negotiator never asks again: exactly one request is made whatever the
    answer is.  A 4xx/5xx answer leaves as [HTTPError]; an answer whose body
    is not JSON leaves as the decode error of [response.json()], which is a
    [ValueError] (any other exception of the decoder leaves as it is); a
    JSON body that is not an object leaves as an [AttributeError]. *)
Theorem negotiate_formats_single_request {py : PyText} cfg w json_loads url s r :
  1 <= MAX_RETRIES cfg ->
  w_net w (st_requests s) = Responded r ->
  st_requests (snd (negotiate_formats cfg w json_loads url s)) = S (st_requests s) /\
  (is_error_status r = true ->
   fst (negotiate_formats cfg w json_loads url s) = Raise (HTTPError r)) /\
  (is_error_status r = false ->
   forall msg, json_loads (content r) = DecodeError msg ->
   fst (negotiate_formats cfg w json_loads url s) = Raise (ValueError msg)) /\
  (is_error_status r = false ->
   forall e, json_loads (content r) = DecoderRaises e ->
   fst (negotiate_formats cfg w json_loads url s) = Raise e) /\
  (is_error_status r = false ->
   forall v, json_loads (content r) = Decoded v ->
   (forall d, v <> VDict d) ->
   fst (negotiate_formats cfg w json_loads url s)
   = Raise (OtherError "AttributeError")).
Proof.
  intros HM Hnet. unfold negotiate_formats.
  rewrite (bind_ok _ _ _ _ _ (print_step _ _)).
  destruct (is_error_status r) eqn:Hst.
  - rewrite (bind_raise _ _ _ _ _
               (make_request_error_status cfg w _ _ _ _ (add_event _ s) r HM Hnet Hst)).
    cbn. repeat split; congruence.
  - rewrite (bind_ok _ _ _ _ _
               (make_request_good_status cfg w _ _ _ _ (add_event _ s) r HM Hnet Hst)).
    destruct (json_loads (content r)) as [v|msg|e] eqn:Hj.
    + destruct v; try (cbn; repeat split; try congruence;
                       intros _ v0 Hv Hd; injection Hv as <-; reflexivity).
      split; [|repeat split; try congruence;
               intros _ v0 Hv Hd; injection Hv as <-; exfalso; eapply Hd; reflexivity].
      unfold bind at 1, lift at 1.
      destruct (lowered_formats _) as [l1|e1]; [|reflexivity].
      unfold bind at 1, lift at 1.
      destruct (lowered_formats _) as [l2|e2]; [|reflexivity].
      destruct (select_format (REQUEST_FORMAT cfg) (with_json l1)) as [f1 [|]];
        destruct (select_format (RESPONSE_FORMAT cfg) (with_json l2)) as [f2 [|]];
        reflexivity.
    + cbn. repeat split; congruence.
    + cbn. repeat split; congruence.
Qed.

Lemma negotiate_formats_single_request_witness :
  st_requests (snd (negotiate_formats (py := ascii_text) config failing_predictor_world example_json_loads
                      "http://127.0.0.1:5000"
                      (init_state failing_predictor_world))) = 1%nat.
Proof.
  apply (negotiate_formats_single_request (py := ascii_text) config failing_predictor_world
           example_json_loads "http://127.0.0.1:5000"
           (init_state failing_predictor_world) formats_response);
    [cbn; lia | reflexivity].
Defined.

(** ** Decoding *)

Lemma prefix_app_l a b s : String.prefix (a ++ b)%string s = true -> String.prefix a s = true.
Proof.
  revert s; induction a as [|c a IH]; intros s H; [destruct s; reflexivity|].
  destruct s as [|c' s]; cbn in *; [discriminate|].
  destruct (ascii_dec c c'); [auto | discriminate].
Qed.

Lemma contains_app_l a b s : contains (a ++ b)%string s = true -> contains a s = true.
Proof.
  induction s as [|c s IH]; cbn [contains]; intros H.
  - destruct (String.prefix (a ++ b) "") eqn:E; [|discriminate].
    apply prefix_app_l in E. rewrite E. reflexivity.
  - destruct (String.prefix (a ++ b) (String c s)) eqn:E.
    + apply prefix_app_l in E. rewrite E. reflexivity.
    + destruct (String.prefix a (String c s)); auto.
Qed.

Lemma decoder_for_msgpack actual :
  decoder_for actual
  = if contains "application/msgpack" actual then DecodeMsgpack else DecodeJson.
Proof.
  unfold decoder_for.
  destruct (contains "application/msgpack" actual) eqn:E1; [reflexivity|].
  destruct (contains "application/msgpack-numpy" actual) eqn:E2; [|reflexivity].
  apply (contains_app_l "application/msgpack" "-numpy") in E2. congruence.
Qed.

Lemma contains_empty_hay needle :
  needle <> ""%string -> contains needle "" = false.
Proof. destruct needle; [congruence | reflexivity]. Qed.

Ltac run_io :=
  cbv [bind print eprint emit ret raise lift add_event same_store guarded_decode];
  cbn [fst snd st_trace st_dir st_files st_locals st_requests].

Lemma guarded_decode_run d s :
  guarded_decode d s
  = (decode_outcome d,
     match d with
     | DecodeError msg => add_event (EvStderr (MsgDecodeFailed msg)) s
     | _ => s
     end).
Proof. destruct d; reflexivity. Qed.

(** What [deserialize_response] does, step by step. *)
Lemma deserialize_response_run {py : PyText} json_loads msgpack_unpackb r negotiated s :
  let actual := str_lower (headers_get "Content-Type" (headers r)) in
  let d := decoded json_loads msgpack_unpackb r in
  deserialize_response json_loads msgpack_unpackb r negotiated s
  = (decode_outcome d,
     {| st_dir := st_dir s; st_requests := st_requests s; st_files := st_files s;
        st_trace :=
          st_trace s
          ++ (if String.eqb actual "" then [EvStdout MsgNoContentType]
              else [EvStdout MsgContentTypeFound]
                   ++ (match negotiated with
                       | Some fmt =>
                           if andb (negb (String.eqb fmt "")) (negb (contains fmt actual))
                           then [EvStdout (MsgWarnFormatMismatch actual fmt)] else []
                       | None => []
                       end)
                   ++ [if contains "application/msgpack" actual
                       then EvStdout MsgDeserializingMsgpack
                       else EvStdout MsgDeserializingJson])
          ++ (match d with
              | DecodeError msg => [EvStderr (MsgDecodeFailed msg)]
              | _ => []
              end);
        st_locals := st_locals s |}).
Proof.
  intros actual d. subst d. unfold deserialize_response, decoded. fold actual.
  destruct (String.eqb_spec actual "") as [E|E]; cbn [negb].
  - rewrite E. cbn [contains String.prefix].
    rewrite (bind_ok _ _ _ _ _ (print_step _ _)), guarded_decode_run.
    destruct (json_loads (content r)); unfold add_event; cbn;
      rewrite <- ?app_assoc, ?app_nil_r; reflexivity.
  - rewrite (bind_ok _ _ _ _ _ (print_step _ _)).
    rewrite decoder_for_msgpack.
    match goal with
    | |- bind ?m _ _ = _ =>
        assert (m (add_event (EvStdout MsgContentTypeFound) s)
                = (Ok tt,
                   append_trace
                     (match negotiated with
                      | Some fmt =>
                          if andb (negb (String.eqb fmt "")) (negb (contains fmt actual))
                          then [EvStdout (MsgWarnFormatMismatch actual fmt)] else []
                      | None => []
                      end) (add_event (EvStdout MsgContentTypeFound) s))) as Hw
    end.
    { destruct negotiated as [fmt|]; cbn [truthy];
        [destruct (andb _ _)|]; unfold append_trace, print, emit, ret, add_event; cbn;
        rewrite ?app_nil_r; reflexivity. }
    rewrite (bind_ok _ _ _ _ _ Hw).
    destruct (contains "application/msgpack" actual);
      rewrite (bind_ok _ _ _ _ _ (print_step _ _)), guarded_decode_run;
      [destruct (msgpack_unpackb (content r)) | destruct (json_loads (content r))];
      unfold add_event, append_trace; cbn; rewrite <- ?app_assoc, ?app_nil_r; cbn;
      reflexivity.
Qed.

Lemma deserialize_response_outcome {py : PyText} json_loads msgpack_unpackb r negotiated s :
  fst (deserialize_response json_loads msgpack_unpackb r negotiated s)
  = decode_outcome (decoded json_loads msgpack_unpackb r).
Proof. rewrite deserialize_response_run. reflexivity. Qed.

(** X3.  The decoder is chosen by the lower-cased Content-Type of the
    response alone, never by the negotiated format: msgpack when it
    contains [application/msgpack] (the separate test for the numpy variant
    adds nothing), JSON in every other case, an absent or empty header
    included.  Only the decode error of the library
    ([json.JSONDecodeError], [msgpack.exceptions.UnpackException]) is
    caught: it is reported on the error stream and replaced by a
    [ValueError] that carries its text.  Any other exception of the decoder
    leaves as it is, and nothing is written to the error stream. *)
Theorem deserialize_response_dispatch {py : PyText} json_loads msgpack_unpackb r negotiated s :
  let actual := str_lower (headers_get "Content-Type" (headers r)) in
  let d := if contains "application/msgpack" actual
           then msgpack_unpackb (content r) else json_loads (content r) in
  let res := deserialize_response json_loads msgpack_unpackb r negotiated s in
  fst res
  = match d with
    | Decoded v => Ok v
    | DecodeError msg =>
        Raise (ValueError ("Failed to decode predictor response: " ++ msg))
    | DecoderRaises e => Raise e
    end /\
  exists t,
    st_trace (snd res) = st_trace s ++ t /\
    match d with
    | DecodeError msg =>
        exists t', t = t' ++ [EvStderr (MsgDecodeFailed msg)] /\
                   forall m, ~ In (EvStderr m) t'
    | _ => forall m, ~ In (EvStderr m) t
    end.
Proof.
  intros actual d res. subst res.
  rewrite deserialize_response_run. cbv zeta. fold actual.
  change (decoded json_loads msgpack_unpackb r) with d.
  split; [destruct d; reflexivity|].
  cbn [snd st_trace]. eexists. split; [reflexivity|].
  set (t0 := if String.eqb actual "" then _ else _).
  assert (forall m, ~ In (EvStderr m) t0) as H0.
  { intros m. subst t0. destruct (String.eqb actual "").
    - cbn. intuition discriminate.
    - rewrite !in_app_iff. cbn [In].
      destruct negotiated as [fmt|]; [destruct (andb _ _)|];
        destruct (contains "application/msgpack" actual); cbn [In];
        intuition discriminate. }
  destruct d as [v|msg|e].
  - intros m. rewrite app_nil_r. apply H0.
  - exists t0. split; [reflexivity | exact H0].
  - intros m. rewrite app_nil_r. apply H0.
Qed.

Ltac crack H Hd Hc :=
  try discriminate; try (destruct H; fail);
  try (apply Hd; exact H); try (apply Hc; exact H).

Lemma deserialize_response_effect {py : PyText} json_loads msgpack_unpackb r negotiated s :
  let actual := str_lower (headers_get "Content-Type" (headers r)) in
  let s' := snd (deserialize_response json_loads msgpack_unpackb r negotiated s) in
  same_store s s' /\ st_requests s' = st_requests s /\
  exists t,
    st_trace s' = st_trace s ++ t /\
    forall a f,
      In (EvStdout (MsgWarnFormatMismatch a f)) t <->
      a = actual /\ negotiated = Some f /\
      actual <> ""%string /\ f <> ""%string /\ contains f actual = false.
Proof.
  intros actual. rewrite deserialize_response_run. cbv zeta. fold actual.
  cbn [snd]. split; [repeat split|]. split; [reflexivity|].
  cbn [st_trace]. eexists. split; [reflexivity|].
  intros a f.
  assert (forall d : decoding, ~ In (EvStdout (MsgWarnFormatMismatch a f))
                                 match d with
                                 | DecodeError msg => [EvStderr (MsgDecodeFailed msg)]
                                 | _ => []
                                 end) as Hd.
  { intros [v|msg|e]; cbn; intuition discriminate. }
  rewrite in_app_iff.
  assert (~ In (EvStdout (MsgWarnFormatMismatch a f))
            [if contains "application/msgpack" actual
             then EvStdout MsgDeserializingMsgpack else EvStdout MsgDeserializingJson])
    as Hc.
  { destruct (contains "application/msgpack" actual); cbn; intuition discriminate. }
  assert (forall P : Prop,
             In (EvStdout (MsgWarnFormatMismatch a f))
                match decoded json_loads msgpack_unpackb r with
                | DecodeError msg => [EvStderr (MsgDecodeFailed msg)]
                | _ => []
                end -> P) as Hd' by (intros P H; exfalso; eapply Hd; eauto).
  assert (forall P : Prop,
             (if contains "application/msgpack" actual
              then EvStdout MsgDeserializingMsgpack else EvStdout MsgDeserializingJson)
             = EvStdout (MsgWarnFormatMismatch a f) -> P) as Hc'
      by (intros P H; exfalso; apply Hc; left; exact H).
  destruct (String.eqb_spec actual "") as [E|E].
  - cbn [In]. split.
    + intros H. repeat (destruct H as [H|H]); crack H Hd' Hc'.
    + intros (_ & _ & H & _). congruence.
  - rewrite !in_app_iff. cbn [In].
    destruct negotiated as [fmt|].
    + destruct (String.eqb_spec fmt "") as [F|F]; cbn [negb andb].
      * cbn [In]. split.
        -- intros H. repeat (destruct H as [H|H]); crack H Hd' Hc'.
        -- intros (_ & H & _ & H' & _). congruence.
      * destruct (contains fmt actual) eqn:C; cbn [negb In].
        -- split.
           ++ intros H. repeat (destruct H as [H|H]); crack H Hd' Hc'.
           ++ intros (_ & H & _ & _ & H'). congruence.
        -- split.
           ++ intros H. repeat (destruct H as [H|H]); crack H Hd' Hc'.
              injection H as <- <-. auto.
           ++ intros (-> & H & _). injection H as ->. left. right. left. left. reflexivity.
    + cbn [In]. split.
      * intros H. repeat (destruct H as [H|H]); crack H Hd' Hc'.
      * intros (_ & H & _). discriminate.
Qed.

(** X4.  Decoding touches nothing but the trace, and the mismatch warning
    is printed exactly when a non-empty Content-Type is present, a
    negotiated format is given and non-empty, and that format does not
    occur inside the lower-cased Content-Type. *)
Theorem deserialize_response_warning {py : PyText} json_loads msgpack_unpackb r negotiated s :
  let actual := str_lower (headers_get "Content-Type" (headers r)) in
  let s' := snd (deserialize_response json_loads msgpack_unpackb r negotiated s) in
  same_store s s' /\ st_requests s' = st_requests s /\
  exists t,
    st_trace s' = st_trace s ++ t /\
    forall a f,
      In (EvStdout (MsgWarnFormatMismatch a f)) t <->
      a = actual /\ negotiated = Some f /\
      actual <> ""%string /\ f <> ""%string /\ contains f actual = false.
Proof. apply deserialize_response_effect. Qed.

(** ** Transport: recovery and the empty retry range *)

Lemma retry_loop_recovers cfg w method url hdrs body r :
  0 <= RETRY_INTERVAL cfg ->
  forall (j k : nat) (a : Z) (s : state) (err : nat -> string),
    (1 <= j <= k)%nat ->
    a + Z.of_nat k - 1 = MAX_RETRIES cfg ->
    (forall i, (i < j - 1)%nat -> w_net w (st_requests s + i) = ConnFailed (err i)) ->
    w_net w (st_requests s + (j - 1)) = Responded r ->
    exists s' t,
      retry_loop cfg w method url hdrs body k a s
        = ((if is_error_status r then Raise (HTTPError r) else Ok (Some r)), s') /\
      st_requests s' = (st_requests s + j)%nat /\
      st_trace s' = st_trace s ++ t /\
      count_requests t = Z.of_nat j /\
      seconds_slept t = (Z.of_nat j - 1) * RETRY_INTERVAL cfg /\
      same_store s s'.
Proof.
  intros Hint j.
  induction j as [|j IH]; intros k a s err Hjk Ha Hfail Hresp; [lia|].
  destruct k as [|k]; [lia|].
  destruct j as [|j].
  - (* the answer comes now *)
    replace (st_requests s + (1 - 1))%nat with (st_requests s) in Hresp by lia.
    exists {| st_dir := st_dir s; st_requests := S (st_requests s);
              st_files := st_files s;
              st_trace := st_trace s ++ [EvRequest method url hdrs body];
              st_locals := st_locals s |}, [EvRequest method url hdrs body].
    split.
    { destruct (is_error_status r) eqn:E.
      - apply retry_loop_error_status; auto; lia.
      - apply retry_loop_good_status; auto; lia. }
    cbn. repeat split; lia.
  - (* one more refusal first *)
    pose proof (Hfail 0%nat ltac:(lia)) as H0.
    replace (st_requests s + 0)%nat with (st_requests s) in H0 by lia.
    cbn [retry_loop]. unfold bind at 1. unfold http_request at 1.
    rewrite H0. unfold bind at 1. unfold print at 1, emit at 1.
    assert ((a <? MAX_RETRIES cfg) = true) as -> by (apply Z.ltb_lt; lia).
    unfold bind at 1. unfold print at 1, emit at 1.
    unfold bind at 1. rewrite sleep_loop_spec.
    match goal with
    | |- context [retry_loop _ _ _ _ _ _ _ _ ?s0] =>
        destruct (IH k (a + 1) s0 (fun i => err (S i)) ltac:(lia) ltac:(lia))
          as (s' & t & Hrun & Hreq & Htr & Hcnt & Hsl & Hd & Hf & Hl)
    end.
    { intros i Hi. cbn [st_requests add_event].
      replace (S (st_requests s) + i)%nat with (st_requests s + S i)%nat by lia.
      exact (Hfail (S i) ltac:(lia)). }
    { cbn [st_requests add_event].
      replace (S (st_requests s) + (S j - 1))%nat
        with (st_requests s + (S (S j) - 1))%nat by lia.
      exact Hresp. }
    cbn [st_requests st_trace st_dir st_files st_locals add_event] in *.
    exists s'.
    exists ([EvRequest method url hdrs body;
             EvStdout (MsgAttemptFailed a (MAX_RETRIES cfg) (err 0%nat));
             EvStdout (MsgRetryingIn (RETRY_INTERVAL cfg))]
            ++ repeat (EvSleep 1) (Z.to_nat (RETRY_INTERVAL cfg)) ++ t).
    unfold bind. rewrite Hrun.
    split; [reflexivity|].
    split; [lia|].
    split; [rewrite Htr; rewrite <- !app_assoc; reflexivity|].
    split.
    { rewrite !count_requests_app, count_requests_repeat_sleep, Hcnt.
      cbn [count_requests]. lia. }
    split.
    { rewrite !seconds_slept_app, seconds_slept_repeat, Hsl.
      cbn [seconds_slept]. rewrite Z2Nat.id by lia. lia. }
    repeat split; assumption.
Qed.

(** X5.  When the first [j - 1] connection attempts fail and the [j]-th is
    answered ([j <= MAX_RETRIES]), the transport function makes exactly [j]
    requests, sleeps [(j - 1) * RETRY_INTERVAL] seconds in all, and hands
    the answer over: returned if its status is not 4xx/5xx, raised as
    [HTTPError] otherwise.  Directory, files and local variables are left
    alone. *)
Theorem make_request_recovers cfg w method url hdrs body s (j : nat) err r :
  0 <= RETRY_INTERVAL cfg ->
  (1 <= j)%nat -> Z.of_nat j <= MAX_RETRIES cfg ->
  (forall i, (i < j - 1)%nat -> w_net w (st_requests s + i) = ConnFailed (err i)) ->
  w_net w (st_requests s + (j - 1)) = Responded r ->
  exists s' t,
    _make_request_with_retry cfg w method url hdrs body s
      = ((if is_error_status r then Raise (HTTPError r) else Ok (Some r)), s') /\
    st_requests s' = (st_requests s + j)%nat /\
    st_trace s' = st_trace s ++ t /\
    count_requests t = Z.of_nat j /\
    seconds_slept t = (Z.of_nat j - 1) * RETRY_INTERVAL cfg /\
    same_store s s'.
Proof.
  intros Hint Hj HM Hfail Hresp. unfold _make_request_with_retry.
  apply (retry_loop_recovers cfg w method url hdrs body r Hint j
           (Z.to_nat (MAX_RETRIES cfg)) 1 s err); auto; lia.
Qed.

Lemma make_request_recovers_witness :
  exists s' t,
    _make_request_with_retry config slow_start_world "get"
      "http://127.0.0.1:5000/formats" [] None (init_state slow_start_world)
    = (Ok (Some formats_response), s') /\
    st_requests s' = 3%nat /\ st_trace s' = t /\ seconds_slept t = 60.
Proof.
  destruct (make_request_recovers config slow_start_world "get"
              "http://127.0.0.1:5000/formats" [] None
              (init_state slow_start_world) 3
              (fun _ => "Connection refused"%string) formats_response)
    as (s' & t & Hrun & Hreq & Htr & _ & Hsl & _).
  - cbn; lia.
  - lia.
  - cbn; lia.
  - intros [|[|i]] Hi; [reflexivity | reflexivity | lia].
  - reflexivity.
  - exists s', t. repeat split; assumption.
Defined.

(** X6.  With [MAX_RETRIES <= 0] the retry range is empty: the transport
    function makes no request at all and returns [None], and the negotiator
    then fails on it with an [AttributeError] instead of a network error. *)
Theorem empty_retry_range {py : PyText} cfg w json_loads method url hdrs body s :
  MAX_RETRIES cfg <= 0 ->
  _make_request_with_retry cfg w method url hdrs body s = (Ok None, s) /\
  negotiate_formats cfg w json_loads url s
  = (Raise (OtherError "AttributeError"),
     add_event (EvStdout (MsgNegotiating (url ++ "/formats")%string)) s).
Proof.
  intros HM.
  assert (forall m u h b s0,
             _make_request_with_retry cfg w m u h b s0 = (Ok None, s0)) as H.
  { intros. unfold _make_request_with_retry.
    replace (Z.to_nat (MAX_RETRIES cfg)) with 0%nat by lia. reflexivity. }
  split; [apply H|].
  unfold negotiate_formats.
  rewrite (bind_ok _ _ _ _ _ (print_step _ _)).
  rewrite (bind_ok _ _ _ _ _ (H _ _ _ _ _)). reflexivity.
Qed.

Lemma empty_retry_range_witness :
  let cfg := {| EVALUATOR_NAME := "E"; input_file := "in.json";
                output_filename_base := "E_predictions_in";
                REQUEST_FORMAT := "application/json";
                RESPONSE_FORMAT := "application/json";
                MAX_RETRIES := 0; RETRY_INTERVAL := 30 |} in
  st_requests (snd (_make_request_with_retry cfg json_only_world "get"
                      "http://127.0.0.1:5000/formats" [] None
                      (init_state json_only_world))) = 0%nat.
Proof.
  intros cfg.
  destruct (empty_retry_range (py := ascii_text) cfg json_only_world example_json_loads "get"
              "http://127.0.0.1:5000/formats" [] None (init_state json_only_world))
    as [H _]; [cbn; lia|].
  rewrite H. reflexivity.
Defined.

(** ** Frame rules *)

Lemma same_store_refl s : same_store s s.
Proof. repeat split. Qed.

Lemma same_store_trans s1 s2 s3 :
  same_store s1 s2 -> same_store s2 s3 -> same_store s1 s3.
Proof. unfold same_store. intuition congruence. Qed.

Lemma quiet_ret P {A} (a : A) : quiet P (ret a).
Proof.
  intros s. split; [apply same_store_refl|].
  exists []. cbn. rewrite app_nil_r. auto.
Qed.

Lemma quiet_raise P {A} e : quiet P (@raise A e).
Proof.
  intros s. split; [apply same_store_refl|].
  exists []. cbn. rewrite app_nil_r. auto.
Qed.

Lemma quiet_lift P {A} (o : outcome A) : quiet P (lift o).
Proof.
  intros s. split; [apply same_store_refl|].
  exists []. cbn. rewrite app_nil_r. auto.
Qed.

Lemma quiet_emit (P : event -> Prop) e : P e -> quiet P (emit e).
Proof.
  intros H s. split; [repeat split|]. exists [e]. cbn. auto.
Qed.

Lemma quiet_bind P {A B} (m : M A) (k : A -> M B) :
  quiet P m -> (forall a, quiet P (k a)) -> quiet P (bind m k).
Proof.
  intros Hm Hk s. unfold bind.
  destruct (Hm s) as [Hs (t & Ht & HP)].
  destruct (m s) as [[a|e] s1]; cbn [snd] in *.
  - destruct (Hk a s1) as [Hs1 (t1 & Ht1 & HP1)].
    split; [eapply same_store_trans; eauto|].
    exists (t ++ t1). rewrite Ht1, Ht, app_assoc.
    split; [reflexivity | apply Forall_app; auto].
  - split; [assumption|]. exists t. auto.
Qed.

Lemma quiet_try P {A} (m : M A) sel h :
  quiet P m -> (forall e, quiet P (h e)) -> quiet P (try_except m sel h).
Proof.
  intros Hm Hh s. unfold try_except.
  destruct (Hm s) as [Hs (t & Ht & HP)].
  destruct (m s) as [[a|e] s1]; cbn [snd] in *.
  - split; [assumption|]. exists t. auto.
  - destruct (sel e).
    + destruct (Hh e s1) as [Hs1 (t1 & Ht1 & HP1)].
      split; [eapply same_store_trans; eauto|].
      exists (t ++ t1). rewrite Ht1, Ht, app_assoc.
      split; [reflexivity | apply Forall_app; auto].
    + split; [assumption|]. exists t. auto.
Qed.

Lemma quiet_weaken (P Q : event -> Prop) {A} (m : M A) :
  (forall e, P e -> Q e) -> quiet P m -> quiet Q m.
Proof.
  intros H Hm s. destruct (Hm s) as [Hs (t & Ht & HP)].
  split; [assumption|]. exists t. split; [assumption|].
  eapply Forall_impl; eauto.
Qed.

Ltac quiet_step :=
  first
    [ apply quiet_ret | apply quiet_raise | apply quiet_lift
    | apply quiet_emit; reflexivity
    | apply quiet_bind; [|intros ?]
    | apply quiet_try; [|intros ?] ].

Lemma quiet_sleep_loop n : quiet (fun e => handler_event e = true) (sleep_loop n).
Proof. induction n; cbn [sleep_loop]; repeat quiet_step; auto. Qed.

Lemma quiet_retry_loop cfg w method url hdrs body k a :
  quiet (fun e => handler_event e = true)
        (retry_loop cfg w method url hdrs body k a).
Proof.
  revert a; induction k as [|k IH]; intros a; cbn [retry_loop].
  - apply quiet_ret.
  - apply quiet_bind.
    + intros s. split; [repeat split|]. exists [EvRequest method url hdrs body].
      cbn. auto.
    + intros [r|e].
      * destruct (is_error_status r); quiet_step.
      * unfold print. repeat quiet_step.
        destruct (a <? MAX_RETRIES cfg); unfold print; repeat quiet_step.
        -- apply quiet_sleep_loop.
        -- apply IH.
Qed.

Lemma quiet_negotiate_formats {py : PyText} cfg w json_loads url :
  quiet (fun e => handler_event e = true) (negotiate_formats cfg w json_loads url).
Proof.
  unfold negotiate_formats, _make_request_with_retry, print.
  apply quiet_bind; [quiet_step|intros _].
  apply quiet_bind; [apply quiet_retry_loop|intros [r|]]; [|quiet_step].
  destruct (json_loads (content r)) as [[]| |]; try solve [quiet_step].
  apply quiet_bind; [quiet_step|intros l1].
  apply quiet_bind; [quiet_step|intros l2].
  apply quiet_bind; [quiet_step|intros _].
  apply quiet_bind; [quiet_step|intros _].
  destruct (select_format (REQUEST_FORMAT cfg) _) as [f1 b1].
  apply quiet_bind; [destruct b1; quiet_step|intros _].
  destruct (select_format (RESPONSE_FORMAT cfg) _) as [f2 b2].
  apply quiet_bind; [destruct b2; quiet_step|intros _].
  repeat quiet_step.
Qed.

Lemma quiet_get_predictions cfg w json_dumps msgpack_packb url data f1 f2 :
  quiet (fun e => handler_event e = true)
        (get_predictions cfg w json_dumps msgpack_packb url data f1 f2).
Proof.
  unfold get_predictions, _make_request_with_retry, print.
  repeat quiet_step. apply quiet_retry_loop.
Qed.

Lemma quiet_deserialize_response {py : PyText} json_loads msgpack_unpackb r negotiated :
  quiet (fun e => handler_event e = true)
        (deserialize_response json_loads msgpack_unpackb r negotiated).
Proof.
  unfold deserialize_response, guarded_decode, print, eprint.
  destruct (negb _).
  - quiet_step; [quiet_step|]. quiet_step.
    + destruct negotiated; [destruct (andb _ _)|]; quiet_step.
    + destruct (decoder_for _).
      * quiet_step; [quiet_step|].
        destruct (msgpack_unpackb _); repeat quiet_step.
      * quiet_step; [quiet_step|].
        destruct (json_loads _); repeat quiet_step.
  - quiet_step; [quiet_step|].
    destruct (json_loads _); repeat quiet_step.
Qed.

(** X7.  Nothing in evaluator_content_handler.py touches the output
    directory, the written files or the caller's local variables, whatever
    the network does and whether the call returns or raises; all it adds
    to the trace are HTTP calls, sleeps and its own messages. *)
Theorem content_handler_frame {py : PyText} cfg w json_loads msgpack_unpackb json_dumps msgpack_packb :
  (forall method url hdrs body,
      quiet (fun e => handler_event e = true)
            (_make_request_with_retry cfg w method url hdrs body)) /\
  (forall url,
      quiet (fun e => handler_event e = true)
            (negotiate_formats cfg w json_loads url)) /\
  (forall url data f1 f2,
      quiet (fun e => handler_event e = true)
            (get_predictions cfg w json_dumps msgpack_packb url data f1 f2)) /\
  (forall r negotiated,
      quiet (fun e => handler_event e = true)
            (deserialize_response json_loads msgpack_unpackb r negotiated)).
Proof.
  split; [|split; [|split]]; intros.
  - apply quiet_retry_loop.
  - apply quiet_negotiate_formats.
  - apply quiet_get_predictions.
  - apply quiet_deserialize_response.
Qed.

(** ** Submitting the request *)

Lemma get_predictions_run cfg w json_dumps msgpack_packb url data f1 f2 s r bytes :
  1 <= MAX_RETRIES cfg ->
  serialize_request json_dumps msgpack_packb data f1 = Ok bytes ->
  w_net w (st_requests s) = Responded r ->
  get_predictions cfg w json_dumps msgpack_packb url data f1 f2 s
  = ((if is_error_status r then Raise (HTTPError r) else Ok (Some r)),
     {| st_dir := st_dir s; st_requests := S (st_requests s);
        st_files := st_files s;
        st_trace :=
          st_trace s
          ++ [EvStdout (MsgSerializing f1);
              EvStdout (MsgPosting (Z.of_nat (String.length bytes))
                          (url ++ "/predict")%string);
              EvRequest "post" (url ++ "/predict")%string
                [("Content-Type"%string, f1); ("Accept"%string, f2)] (Some bytes)];
        st_locals := st_locals s |}).
Proof.
  intros HM Hser Hnet. unfold get_predictions.
  rewrite (bind_ok _ _ _ _ _ (print_step _ _)).
  rewrite Hser. unfold lift at 1. unfold bind at 1.
  rewrite (bind_ok _ _ _ _ _ (print_step _ _)).
  destruct (is_error_status r) eqn:E.
  - rewrite (make_request_error_status cfg w _ _ _ _ (add_event _ (add_event _ s)) r
               HM Hnet E).
    unfold add_event; cbn. rewrite <- !app_assoc. reflexivity.
  - rewrite (make_request_good_status cfg w _ _ _ _ (add_event _ (add_event _ s)) r
               HM Hnet E).
    unfold add_event; cbn. rewrite <- !app_assoc. reflexivity.
Qed.

(** X8.  [get_predictions] always declares the negotiated formats in the
    Content-Type and Accept headers, but the body is msgpack only when the
    negotiated request format is exactly [application/msgpack]; for every
    other format, [application/msgpack-numpy] included, the body is the
    JSON text.  A payload the serializer rejects raises before any request
    is made. *)
Theorem get_predictions_wire cfg w json_dumps msgpack_packb url data f1 f2 s :
  1 <= MAX_RETRIES cfg ->
  (forall jb mb r,
      json_dumps data = Ok jb -> msgpack_packb data = Ok mb ->
      w_net w (st_requests s) = Responded r ->
      exists t body,
        st_trace (snd (get_predictions cfg w json_dumps msgpack_packb url data f1 f2 s))
        = st_trace s ++ t
             ++ [EvRequest "post" (url ++ "/predict")%string
                   [("Content-Type"%string, f1); ("Accept"%string, f2)] (Some body)] /\
        count_requests t = 0 /\
        (f1 = "application/msgpack"%string -> body = mb) /\
        (f1 <> "application/msgpack"%string -> body = jb)) /\
  (forall e,
      serialize_request json_dumps msgpack_packb data f1 = Raise e ->
      fst (get_predictions cfg w json_dumps msgpack_packb url data f1 f2 s) = Raise e /\
      st_requests (snd (get_predictions cfg w json_dumps msgpack_packb url data f1 f2 s))
      = st_requests s).
Proof.
  intros HM. split.
  - intros jb mb r Hj Hm Hnet.
    assert (exists body,
               serialize_request json_dumps msgpack_packb data f1 = Ok body /\
               (f1 = "application/msgpack"%string -> body = mb) /\
               (f1 <> "application/msgpack"%string -> body = jb))
      as (body & Hser & Hb1 & Hb2).
    { unfold serialize_request.
      destruct (String.eqb_spec f1 "application/msgpack").
      - exists mb. intuition congruence.
      - exists jb. intuition congruence. }
    rewrite (get_predictions_run cfg w json_dumps msgpack_packb url data f1 f2 s r body
               HM Hser Hnet).
    exists [EvStdout (MsgSerializing f1);
            EvStdout (MsgPosting (Z.of_nat (String.length body))
                        (url ++ "/predict")%string)], body.
    cbn [snd st_trace]. repeat split; auto.
  - intros e Hser. unfold get_predictions.
    rewrite (bind_ok _ _ _ _ _ (print_step _ _)).
    rewrite Hser. split; reflexivity.
Qed.

Lemma get_predictions_wire_witness :
  exists t,
    st_trace (snd (get_predictions config json_only_world
                     (fun _ => Ok "json-text"%string) (fun _ => Ok "packed"%string)
                     "http://127.0.0.1:5000" request_data
                     "application/msgpack-numpy" "application/json"
                     (init_state json_only_world)))
    = t ++ [EvRequest "post" "http://127.0.0.1:5000/predict"
              [("Content-Type"%string, "application/msgpack-numpy"%string);
               ("Accept"%string, "application/json"%string)]
              (Some "json-text"%string)].
Proof.
  destruct (get_predictions_wire config json_only_world
              (fun _ => Ok "json-text"%string) (fun _ => Ok "packed"%string)
              "http://127.0.0.1:5000" request_data
              "application/msgpack-numpy" "application/json"
              (init_state json_only_world)) as [H _]; [cbn; lia|].
  destruct (H "json-text"%string "packed"%string formats_response)
    as (t & body & Htr & _ & _ & Hb); try reflexivity.
  rewrite (Hb ltac:(discriminate)) in Htr.
  exists t. exact Htr.
Defined.

(** ** The prediction-count check *)

Lemma append_trace_nil s : append_trace [] s = s.
Proof. unfold append_trace. rewrite app_nil_r. destruct s; reflexivity. Qed.

Lemma append_trace_app t1 t2 s :
  append_trace t2 (append_trace t1 s) = append_trace (t1 ++ t2) s.
Proof. unfold append_trace; cbn. rewrite app_assoc. reflexivity. Qed.

Lemma add_event_append e s : add_event e s = append_trace [e] s.
Proof. reflexivity. Qed.

Lemma check_task_run total i task s n :
  task_count task = Some n ->
  check_task total i task s = (Ok tt, append_trace (task_warnings total i [task]) s).
Proof.
  intros H. destruct task; try discriminate. cbn [task_count] in H.
  unfold check_task. cbn [py_get]. cbv [bind lift].
  cbn [task_warnings task_count].
  destruct (py_len _) as [m|]; [|discriminate].
  injection H as ->.
  destruct (n =? total); cbn [negb app].
  - rewrite append_trace_nil. reflexivity.
  - reflexivity.
Qed.

Lemma check_tasks_run total tasks :
  (forall task, In task tasks -> task_count task <> None) ->
  forall i s,
    check_tasks total i tasks s
    = (Ok tt, append_trace (task_warnings total i tasks) s).
Proof.
  induction tasks as [|task tasks IH]; intros Hwf i s.
  - cbn. rewrite append_trace_nil. reflexivity.
  - cbn [check_tasks].
    destruct (task_count task) as [n|] eqn:E;
      [|exfalso; apply (Hwf task); [left; reflexivity | assumption]].
    rewrite (bind_ok _ _ _ _ _ (check_task_run total i task s n E)).
    rewrite IH by (intros t Ht; apply Hwf; right; assumption).
    rewrite append_trace_app.
    cbn [task_warnings]. rewrite app_nil_r. reflexivity.
Qed.

Lemma task_warnings_flat_map total tasks :
  forall k : nat,
    task_warnings total (Z.of_nat k) tasks
    = flat_map
        (fun it : nat * value =>
           match snd it, task_count (snd it) with
           | VDict d, Some n =>
               if n =? total then []
               else [EvStdout (MsgWarnTaskCount (Z.of_nat (fst it)) (dict_get "name" d)
                                 n total)]
           | _, _ => []
           end)
        (combine (seq k (List.length tasks)) tasks).
Proof.
  induction tasks as [|task tasks IH]; intros k; [reflexivity|].
  cbn [task_warnings List.length seq combine flat_map fst snd].
  replace (Z.of_nat k + 1) with (Z.of_nat (S k)) by lia.
  rewrite IH. destruct task; reflexivity.
Qed.

(** X9.  For tasks that are dicts whose predictions have a length, the
    count check never fails and changes nothing but the trace, to which it
    adds exactly this: going through the tasks in list order, numbered from
    1, one warning for each task whose number of predictions differs from
    the number of sequences sent, and nothing for the others. *)
Theorem check_tasks_warnings total tasks s :
  (forall task, In task tasks -> task_count task <> None) ->
  let warning (it : nat * value) :=
    match snd it, task_count (snd it) with
    | VDict d, Some n =>
        if n =? total then []
        else [EvStdout (MsgWarnTaskCount (Z.of_nat (fst it)) (dict_get "name" d) n total)]
    | _, _ => []
    end in
  let t := flat_map warning (combine (seq 1 (List.length tasks)) tasks) in
  check_tasks total 1 tasks s
  = (Ok tt,
     {| st_dir := st_dir s; st_requests := st_requests s; st_files := st_files s;
        st_trace := st_trace s ++ t; st_locals := st_locals s |}) /\
  (forall i name n tot,
      In (EvStdout (MsgWarnTaskCount i name n tot)) t <->
      exists d, nth_error tasks (Z.to_nat (i - 1)) = Some (VDict d) /\
                1 <= i /\ name = dict_get "name" d /\
                task_count (VDict d) = Some n /\ n <> total /\ tot = total).
Proof.
  intros Hwf warning t.
  assert (t = task_warnings total 1 tasks) as Et.
  { subst t warning. symmetry. apply (task_warnings_flat_map total tasks 1). }
  rewrite Et. clear Et t warning.
  split; [apply check_tasks_run; assumption|].
  assert (forall i0 i name n tot,
             In (EvStdout (MsgWarnTaskCount i name n tot)) (task_warnings total i0 tasks) <->
             exists d, nth_error tasks (Z.to_nat (i - i0)) = Some (VDict d) /\
                       i0 <= i /\ name = dict_get "name" d /\
                       task_count (VDict d) = Some n /\ n <> total /\ tot = total) as Hin.
  { clear s. induction tasks as [|task tasks IH]; intros i0 i name n tot.
    - cbn. split; [tauto|]. intros (d & H & _). destruct (Z.to_nat (i - i0)); discriminate.
    - cbn [task_warnings]. rewrite in_app_iff.
      rewrite IH by (intros t Ht; apply Hwf; right; assumption).
      split.
      + intros [H|(d & H1 & H2 & H3)].
        * destruct task; try (cbn in H; tauto).
          destruct (task_count (VDict d)) as [m|] eqn:E; [|cbn in H; tauto].
          destruct (Z.eqb_spec m total); cbn in H; [tauto|].
          destruct H as [H|[]]. injection H as <- <- <- <-.
          exists d. replace (Z.to_nat (i0 - i0)) with 0%nat by lia.
          repeat split; auto; lia.
        * exists d. replace (Z.to_nat (i - i0)) with (S (Z.to_nat (i - (i0 + 1)))) by lia.
          split; [exact H1|]. split; [lia|]. tauto.
      + intros (d & H1 & H2 & H3 & H4 & H5 & H6).
        destruct (Z.eq_dec i i0) as [->|Hne].
        * left. replace (Z.to_nat (i0 - i0)) with 0%nat in H1 by lia.
          cbn in H1. injection H1 as ->. rewrite H4.
          destruct (Z.eqb_spec n total); [contradiction|].
          subst. left. reflexivity.
        * right. exists d.
          replace (Z.to_nat (i - i0)) with (S (Z.to_nat (i - (i0 + 1)))) in H1 by lia.
          split; [exact H1|]. split; [lia|]. auto. }
  intros i name n tot. rewrite Hin. reflexivity.
Qed.

Lemma check_tasks_warnings_witness :
  st_trace (snd (check_tasks 5 1
                   [VDict [("name", VStr "first"); ("predictions", VList [VInt 1; VInt 2])];
                    VDict [("name", VStr "second");
                           ("predictions", VList [VInt 1; VInt 2; VInt 3; VInt 4; VInt 5])];
                    VDict [("predictions", VDict [])]]
                   (init_state json_only_world)))
  = [EvStdout (MsgWarnTaskCount 1 (Some (VStr "first")) 2 5);
     EvStdout (MsgWarnTaskCount 3 None 0 5)].
Proof.
  destruct (check_tasks_warnings 5
              [VDict [("name", VStr "first"); ("predictions", VList [VInt 1; VInt 2])];
               VDict [("name", VStr "second");
                      ("predictions", VList [VInt 1; VInt 2; VInt 3; VInt 4; VInt 5])];
               VDict [("predictions", VDict [])]]
              (init_state json_only_world)) as (Hrun & _).
  - intros task [<-|[<-|[<-|[]]]]; discriminate.
  - rewrite Hrun. reflexivity.
Defined.

(** ** Saving and scoring *)

Lemma save_and_score_checked {py : PyText} cfg w json_dumps msgpack_packb dir total s d pname tasks :
  response_payload (st_locals s) = VDict d ->
  predictor_name_of d = Some pname ->
  tasks_of d = Some tasks ->
  (forall task, In task tasks -> task_count task <> None) ->
  save_and_score cfg w json_dumps msgpack_packb dir total s
  = match response (st_locals s) with
    | None => (Raise (UnboundLocalError "response"),
               append_trace (task_warnings total 1 tasks) s)
    | Some None => (Raise (OtherError "AttributeError"),
                    append_trace (task_warnings total 1 tasks) s)
    | Some (Some r) =>
        write_and_score cfg w json_dumps msgpack_packb dir pname (VDict d)
          (is_success_response (st_locals s)) r
          (append_trace (task_warnings total 1 tasks) s)
    end.
Proof.
  intros Hp Hn Ht Hwf. unfold save_and_score.
  rewrite (bind_ok _ _ _ _ _ (eq_refl : get_locals s = (Ok (st_locals s), s))).
  rewrite Hp. cbn [py_get].
  assert (py_replace_space
            (match dict_get "predictor_name" d with
             | Some x => x
             | None => VStr "UnknownPredictor"
             end) = Ok pname) as Hname.
  { unfold predictor_name_of in Hn.
    destruct (dict_get "predictor_name" d) as [[]|]; try discriminate;
      injection Hn as <-; reflexivity. }
  assert (py_iter (match dict_get "prediction_tasks" d with
                   | Some x => x
                   | None => VList []
                   end) = Ok tasks) as Htasks.
  { unfold tasks_of in Ht.
    destruct (dict_get "prediction_tasks" d) as [v|].
    - destruct (py_iter v); [congruence | discriminate].
    - injection Ht as <-. reflexivity. }
  rewrite (bind_ok _ _ _ _ _ (eq_refl : lift (Ok _) s = (Ok _, s))).
  rewrite Hname.
  rewrite (bind_ok _ _ _ _ _ (eq_refl : lift (Ok _) s = (Ok _, s))).
  rewrite (bind_ok _ _ _ _ _ (eq_refl : lift (Ok _) s = (Ok _, s))).
  rewrite Htasks.
  rewrite (bind_ok _ _ _ _ _ (eq_refl : lift (Ok _) s = (Ok _, s))).
  rewrite (bind_ok _ _ _ _ _ (check_tasks_run total _ Hwf 1 s)).
  destruct (response (st_locals s)) as [[r|]|]; reflexivity.
Qed.

(** ** The try statement of [run_evaluator] *)

Lemma deserialize_response_result {py : PyText} json_loads msgpack_unpackb r negotiated s :
  exists s',
    deserialize_response json_loads msgpack_unpackb r negotiated s
    = (decode_outcome (decoded json_loads msgpack_unpackb r), s') /\
    same_store s s' /\ st_requests s' = st_requests s /\
    exists t, st_trace s' = st_trace s ++ t /\
              Forall (fun e => handler_event e = true) t /\
              forall msg, decoded json_loads msgpack_unpackb r = DecodeError msg ->
                          In (EvStderr (MsgDecodeFailed msg)) t.
Proof.
  pose proof (quiet_deserialize_response json_loads msgpack_unpackb r negotiated s)
    as (_ & t & H4 & H5).
  pose proof (deserialize_response_run json_loads msgpack_unpackb r negotiated s) as Hrun.
  cbv zeta in Hrun. rewrite Hrun in H4. cbn [snd st_trace] in H4.
  apply app_inv_head in H4.
  eexists. split; [exact Hrun|].
  split; [repeat split|]. split; [reflexivity|].
  cbn [st_trace]. exists t. split; [rewrite <- H4; reflexivity|]. split; [exact H5|].
  intros msg Hm. rewrite <- H4, Hm. apply in_or_app. right. left. reflexivity.
Qed.

Lemma negotiate_formats_result {py : PyText} cfg w json_loads url s reqs resps :
  1 <= MAX_RETRIES cfg ->
  serves_formats w json_loads (st_requests s) reqs resps ->
  exists s',
    negotiate_formats cfg w json_loads url s
    = (Ok (negotiated_request cfg reqs, negotiated_response cfg resps), s') /\
    same_store s s' /\ st_requests s' = S (st_requests s) /\
    exists t, st_trace s' = st_trace s ++ t /\ Forall (fun e => handler_event e = true) t.
Proof.
  intros HM (r & supported & Hnet & Hst & Hj & Hq & Hp).
  pose proof (negotiate_formats_run cfg w json_loads url s r supported reqs resps
                HM Hnet Hst Hj Hq Hp) as Hrun. cbv zeta in Hrun.
  pose proof (quiet_negotiate_formats cfg w json_loads url s) as (Hs & Ht).
  rewrite Hrun in Hs, Ht. cbn [snd] in Hs, Ht.
  eexists. split; [exact Hrun|]. split; [exact Hs|]. split; [reflexivity|exact Ht].
Qed.

Lemma get_predictions_result cfg w json_dumps msgpack_packb url data f1 f2 s r bytes :
  1 <= MAX_RETRIES cfg ->
  serialize_request json_dumps msgpack_packb data f1 = Ok bytes ->
  w_net w (st_requests s) = Responded r ->
  exists s',
    get_predictions cfg w json_dumps msgpack_packb url data f1 f2 s
    = ((if is_error_status r then Raise (HTTPError r) else Ok (Some r)), s') /\
    same_store s s' /\ st_requests s' = S (st_requests s) /\
    exists t, st_trace s' = st_trace s ++ t /\ Forall (fun e => handler_event e = true) t.
Proof.
  intros HM Hser Hnet.
  pose proof (get_predictions_run cfg w json_dumps msgpack_packb url data f1 f2 s r bytes
                HM Hser Hnet) as Hrun.
  pose proof (quiet_get_predictions cfg w json_dumps msgpack_packb url data f1 f2 s)
    as (Hs & Ht).
  rewrite Hrun in Hs, Ht. cbn [snd] in Hs, Ht.
  eexists. split; [exact Hrun|]. split; [exact Hs|]. split; [reflexivity|exact Ht].
Qed.

Ltac local_step := erewrite bind_ok by reflexivity.

Lemma plain_failure_outcome d e :
  plain_failure d -> decode_outcome d = Raise e -> is_HTTPError e = false.
Proof.
  intros H. destruct d as [v|msg|e']; cbn; intros E; try discriminate.
  - injection E as <-. reflexivity.
  - injection E as <-. apply H. reflexivity.
Qed.

Lemma handler_event_try e : handler_event e = true -> try_event e = true.
Proof.
  destruct e as [m|m| | | | | | |]; cbn; auto; destruct m; auto.
Qed.

(** The [except HTTPError] clause on an error response. *)
Lemma handle_http_error_run {py : PyText} json_loads msgpack_unpackb r s :
  let d := decoded json_loads msgpack_unpackb r in
  exists s',
    handle_http_error json_loads msgpack_unpackb (HTTPError r) s
    = (match error_payload d r with
       | Ok _ => Ok tt
       | Raise e => Raise e
       end, s') /\
    st_dir s' = st_dir s /\ st_files s' = st_files s /\
    st_requests s' = st_requests s /\
    st_locals s'
    = {| response_payload :=
           match error_payload d r with
           | Ok v => v
           | Raise _ => response_payload (st_locals s)
           end;
         is_success_response := false;
         resp_fmt := resp_fmt (st_locals s);
         response := response (st_locals s) |} /\
    exists t,
      st_trace s' = st_trace s ++ EvStdout (MsgReturnedHTTP (status_code r)) :: t /\
      Forall (fun e => try_event e = true) t /\
      forall msg, d = DecodeError msg -> In (EvStderr (MsgDecodeFailed msg)) t.
Proof.
  intros d. unfold handle_http_error, try_except.
  rewrite (bind_ok _ _ _ _ _ (print_step _ _)).
  erewrite bind_ok by reflexivity. erewrite bind_ok by reflexivity.
  match goal with
  | |- context [bind (deserialize_response _ _ r ?neg) _ ?s0] =>
      destruct (deserialize_response_result json_loads msgpack_unpackb r neg s0)
        as (s3 & E3 & (D3 & F3 & L3) & R3 & t3 & T3 & P3 & I3)
  end.
  fold d in E3, I3.
  cbn [st_dir st_files st_locals st_requests st_trace set_locals add_event] in *.
  assert (Forall (fun e => try_event e = true) t3) as P3'
      by (eapply Forall_impl; [|exact P3]; apply handler_event_try).
  unfold error_payload.
  destruct (decode_outcome d) as [v|e].
  - rewrite (bind_ok _ _ _ _ _ E3).
    eexists. split; [reflexivity|].
    cbn [st_dir st_files st_locals st_requests st_trace set_locals
           response_payload is_success_response resp_fmt response].
    rewrite D3, F3, R3, L3, T3.
    cbn [response_payload is_success_response resp_fmt response].
    do 4 (split; [reflexivity|]). exists t3. rewrite <- app_assoc. auto.
  - rewrite (bind_raise _ _ _ _ _ E3).
    destruct e; cbn [is_ValueError];
      try (eexists; split; [reflexivity|];
           rewrite D3, F3, R3, L3, T3;
           cbn [response_payload is_success_response resp_fmt response];
           do 4 (split; [reflexivity|]); exists t3; rewrite <- app_assoc; auto).
    rewrite (bind_ok _ _ _ _ _ (eprint_step _ _)).
    eexists. split; [reflexivity|].
    cbn [st_dir st_files st_locals st_requests st_trace set_locals add_event
           response_payload is_success_response resp_fmt response].
    rewrite D3, F3, R3, L3, T3.
    cbn [response_payload is_success_response resp_fmt response].
    do 4 (split; [reflexivity|]). exists (t3 ++ [EvStderr MsgCouldNotDecodeErrorBody]).
    rewrite <- !app_assoc. split; [reflexivity|].
    split; [apply Forall_app; split; [exact P3' | repeat constructor]|].
    intros msg0 Hm. apply in_or_app. left. auto.
Qed.

Lemma request_and_decode_answered {py : PyText} cfg w json_loads msgpack_unpackb json_dumps
      msgpack_packb url data s reqs resps bytes r :
  1 <= MAX_RETRIES cfg ->
  serves_formats w json_loads (st_requests s) reqs resps ->
  serialize_request json_dumps msgpack_packb data (negotiated_request cfg reqs) = Ok bytes ->
  w_net w (S (st_requests s)) = Responded r ->
  let d := decoded json_loads msgpack_unpackb r in
  let built := if is_error_status r then error_payload d r else decode_outcome d in
  (is_error_status r = false -> plain_failure d) ->
  exists s',
    request_and_decode cfg w json_loads msgpack_unpackb json_dumps msgpack_packb url data s
    = (match built with
       | Ok _ => Ok tt
       | Raise e => Raise e
       end, s') /\
    st_dir s' = st_dir s /\ st_files s' = st_files s /\
    st_requests s' = S (S (st_requests s)) /\
    st_locals s'
    = {| response_payload :=
           match built with
           | Ok v => v
           | Raise _ => response_payload (st_locals s)
           end;
         is_success_response := negb (is_error_status r);
         resp_fmt := Some (negotiated_response cfg resps);
         response := if is_error_status r then response (st_locals s)
                     else Some (Some r) |} /\
    exists t, st_trace s' = st_trace s ++ t /\
              Forall (fun e => try_event e = true) t /\
              (is_error_status r = true ->
               In (EvStdout (MsgReturnedHTTP (status_code r))) t) /\
              (forall msg, d = DecodeError msg -> In (EvStderr (MsgDecodeFailed msg)) t).
Proof.
  intros HM Hfmt Hser Hnet d built Hplain.
  destruct (negotiate_formats_result cfg w json_loads url s reqs resps HM Hfmt)
    as (s1 & E1 & (D1 & F1 & L1) & R1 & t1 & T1 & P1).
  apply (Forall_impl _ handler_event_try) in P1.
  unfold request_and_decode, try_except.
  rewrite (bind_ok _ _ _ _ _ E1). cbv beta iota.
  erewrite bind_ok by reflexivity.
  assert (w_net w (st_requests
                     (set_locals
                        {| response_payload := response_payload (st_locals s1);
                           is_success_response := is_success_response (st_locals s1);
                           resp_fmt := Some (negotiated_response cfg resps);
                           response := response (st_locals s1) |} s1)) = Responded r)
    as Hnet1 by (cbn [st_requests set_locals]; rewrite R1; exact Hnet).
  destruct (get_predictions_result cfg w json_dumps msgpack_packb url data
              (negotiated_request cfg reqs) (negotiated_response cfg resps) _ r bytes
              HM Hser Hnet1)
    as (s2 & E2 & (D2 & F2 & L2) & R2 & t2 & T2 & P2).
  apply (Forall_impl _ handler_event_try) in P2.
  cbn [st_dir st_files st_locals st_requests st_trace set_locals] in *.
  subst built. destruct (is_error_status r) eqn:Hst; cbn [negb].
  - (* the handler *)
    rewrite (bind_raise _ _ _ _ _ E2). cbn [is_HTTPError].
    destruct (handle_http_error_run json_loads msgpack_unpackb r s2)
      as (s3 & E3 & D3 & F3 & R3 & L3 & t3 & T3 & P3 & I3).
    fold d in E3, L3, I3. rewrite E3.
    exists s3. split; [reflexivity|].
    rewrite D3, F3, R3, L3, D2, F2, R2, L2, D1, F1, R1, T3, T2, T1.
    cbn [response_payload is_success_response resp_fmt response]. rewrite L1.
    do 4 (split; [reflexivity|]).
    exists (t1 ++ t2 ++ EvStdout (MsgReturnedHTTP (status_code r)) :: t3).
    split; [rewrite <- !app_assoc; reflexivity|]. split; [|split].
    + repeat (apply Forall_app; split); auto.
    + intros _. rewrite !in_app_iff. right. right. left. reflexivity.
    + intros msg Hm. rewrite !in_app_iff. right. right. right. auto.
  - (* the answer is taken as a success *)
    rewrite (bind_ok _ _ _ _ _ E2).
    erewrite bind_ok by reflexivity. erewrite bind_ok by reflexivity.
    rewrite (bind_ok _ _ _ _ _ (print_step _ _)).
    match goal with
    | |- context [bind (deserialize_response _ _ r ?neg) _ ?s0] =>
        destruct (deserialize_response_result json_loads msgpack_unpackb r neg s0)
          as (s3 & E3 & (D3 & F3 & L3) & R3 & t3 & T3 & P3 & I3)
    end.
    fold d in E3, I3.
    apply (Forall_impl _ handler_event_try) in P3.
    cbn [st_dir st_files st_locals st_requests st_trace set_locals add_event] in *.
    destruct (decode_outcome d) as [v|e] eqn:Ed.
    + rewrite (bind_ok _ _ _ _ _ E3).
      eexists. split; [reflexivity|].
      cbn [st_dir st_files st_locals st_requests st_trace set_locals
             response_payload is_success_response resp_fmt response].
      rewrite D3, F3, R3, L3, D2, F2, R2, L2, D1, F1, R1, T3, T2, T1.
      cbn [response_payload is_success_response resp_fmt response].
      do 4 (split; [reflexivity|]).
      exists (t1 ++ t2 ++ [EvStdout MsgReturned200] ++ t3).
      split; [rewrite <- !app_assoc; reflexivity|]. split; [|split; [discriminate|]].
      * repeat (apply Forall_app; split); auto.
      * intros msg Hm. rewrite !in_app_iff. right. right. right. auto.
    + rewrite (bind_raise _ _ _ _ _ E3).
      rewrite (plain_failure_outcome d e (Hplain eq_refl) Ed).
      eexists. split; [reflexivity|].
      rewrite D3, F3, R3, L3, D2, F2, R2, L2, D1, F1, R1, T3, T2, T1.
      cbn [response_payload is_success_response resp_fmt response]. rewrite L1.
      do 4 (split; [reflexivity|]).
      exists (t1 ++ t2 ++ [EvStdout MsgReturned200] ++ t3).
      split; [rewrite <- !app_assoc; reflexivity|]. split; [|split; [discriminate|]].
      * repeat (apply Forall_app; split); auto.
      * intros msg Hm. rewrite !in_app_iff. right. right. right. auto.
Qed.

(** ** The run up to the persistence phase *)

Lemma run_evaluator_prefix {py : PyText} cfg w json_loads msgpack_unpackb json_dumps msgpack_packb
      ip port dir data total :
  dir_ready w ->
  loads w data total ->
  exists s0,
    run_evaluator cfg w json_loads msgpack_unpackb json_dumps msgpack_packb ip port dir
      (init_state w)
    = bind (request_and_decode cfg w json_loads msgpack_unpackb json_dumps msgpack_packb
              ("http://" ++ ip ++ ":" ++ string_of_Z port)%string data)
           (fun _ => persist_phase cfg w json_dumps msgpack_packb dir total) s0 /\
    st_dir s0 = true /\ st_files s0 = [] /\ st_requests s0 = 0%nat /\
    st_locals s0 = init_locals /\
    st_trace s0 = (if w_dir_exists w then []
                   else [EvMakedirs dir; EvStdout (MsgOutputDirCreated dir)])
                  ++ [EvLoadData].
Proof.
  intros Hdir (Hload & sequences & Hseq & Hlen).
  unfold run_evaluator.
  assert (exists s0,
             ensure_output_dir w dir (init_state w) = (Ok tt, s0) /\
             st_dir s0 = true /\ st_files s0 = [] /\ st_requests s0 = 0%nat /\
             st_trace s0 = (if w_dir_exists w then []
                            else [EvMakedirs dir; EvStdout (MsgOutputDirCreated dir)]))
    as (s0 & E0 & D0 & F0 & R0 & T0).
  { unfold ensure_output_dir, init_state. cbn [st_dir].
    destruct (w_dir_exists w) eqn:Ed; cbn [negb].
    - eexists. split; [reflexivity|]. cbn. auto.
    - destruct Hdir as [Hd|Hm]; [congruence|]. rewrite Hm.
      eexists. split; [reflexivity|]. cbn. auto. }
  rewrite (bind_ok _ _ _ _ _ E0).
  assert (load_and_validate_data w s0 = (Ok data, add_event EvLoadData s0)) as E1.
  { unfold load_and_validate_data. rewrite Hload. reflexivity. }
  rewrite (bind_ok _ _ _ _ _ E1).
  rewrite Hseq.
  rewrite (bind_ok _ _ _ _ _ (eq_refl : lift (Ok sequences) _ = (Ok sequences, _))).
  rewrite Hlen.
  rewrite (bind_ok _ _ _ _ _ (eq_refl : lift (Ok total) _ = (Ok total, _))).
  local_step.
  eexists. split; [reflexivity|].
  cbn [st_dir st_files st_requests st_locals st_trace set_locals add_event].
  rewrite T0. auto.
Qed.

Lemma try_event_not_persist e : try_event e = true -> persist_event e = false.
Proof. destruct e as [m|m| | | | | | |]; try discriminate; try reflexivity;
         destruct m; try discriminate; reflexivity. Qed.

Lemma run_evaluator_answered {py : PyText} cfg w json_loads msgpack_unpackb json_dumps
      msgpack_packb ip port dir data total reqs resps bytes r :
  1 <= MAX_RETRIES cfg ->
  dir_ready w ->
  loads w data total ->
  serves_formats w json_loads 0 reqs resps ->
  serialize_request json_dumps msgpack_packb data (negotiated_request cfg reqs) = Ok bytes ->
  w_net w 1 = Responded r ->
  let d := decoded json_loads msgpack_unpackb r in
  let built := if is_error_status r then error_payload d r else decode_outcome d in
  (is_error_status r = false -> plain_failure d) ->
  exists s1,
    run_evaluator cfg w json_loads msgpack_unpackb json_dumps msgpack_packb ip port dir
      (init_state w)
    = match built with
      | Ok _ => persist_phase cfg w json_dumps msgpack_packb dir total s1
      | Raise e => (Raise e, s1)
      end /\
    st_dir s1 = true /\ st_files s1 = [] /\ st_requests s1 = 2%nat /\
    st_locals s1
    = {| response_payload :=
           match built with
           | Ok v => v
           | Raise _ => VNone
           end;
         is_success_response := negb (is_error_status r);
         resp_fmt := Some (negotiated_response cfg resps);
         response := if is_error_status r then None else Some (Some r) |} /\
    Forall (fun e => persist_event e = false) (st_trace s1) /\
    (is_error_status r = true ->
     In (EvStdout (MsgReturnedHTTP (status_code r))) (st_trace s1)) /\
    (forall msg, d = DecodeError msg ->
                 In (EvStderr (MsgDecodeFailed msg)) (st_trace s1)) /\
    (exists rest,
        st_trace s1
        = (if w_dir_exists w then []
           else [EvMakedirs dir; EvStdout (MsgOutputDirCreated dir)])
          ++ EvLoadData :: rest).
Proof.
  intros HM Hdir Hload Hfmt Hser Hnet d built Hplain.
  destruct (run_evaluator_prefix cfg w json_loads msgpack_unpackb json_dumps msgpack_packb
              ip port dir data total Hdir Hload)
    as (s0 & Erun & D0 & F0 & R0 & L0 & T0).
  destruct (request_and_decode_answered cfg w json_loads msgpack_unpackb json_dumps
              msgpack_packb ("http://" ++ ip ++ ":" ++ string_of_Z port)%string data s0
              reqs resps bytes r HM)
    as (s1 & E1 & D1 & F1 & R1 & L1 & t1 & T1 & P1 & I1 & J1);
    [rewrite R0; exact Hfmt | exact Hser | rewrite R0; exact Hnet | exact Hplain |].
  fold d in E1, L1, J1. fold built in E1, L1.
  exists s1. rewrite Erun.
  split.
  { destruct built; [rewrite (bind_ok _ _ _ _ _ E1) | rewrite (bind_raise _ _ _ _ _ E1)];
      reflexivity. }
  split; [congruence|]. split; [congruence|]. split; [rewrite R1, R0; reflexivity|].
  split.
  { rewrite L1, L0. cbn [response_payload response init_locals]. reflexivity. }
  split.
  { rewrite T1, T0. repeat (apply Forall_app; split).
    - destruct (w_dir_exists w); repeat constructor.
    - repeat constructor.
    - eapply Forall_impl; [|exact P1]. intros e. apply try_event_not_persist. }
  split.
  { intros H. rewrite T1. apply in_or_app. right. auto. }
  split.
  { intros msg H. rewrite T1. apply in_or_app. right. auto. }
  exists t1. rewrite T1, T0, <- app_assoc. reflexivity.
Qed.

(** ** The persistence phase *)



(** ** A predictor that answers the prediction request *)


Lemma plain_failure_error msg : plain_failure (DecodeError msg).
Proof. intros e H. discriminate. Qed.


Lemma write_artifact_run w path shown a encoded s :
  write_artifact w path shown a encoded s
  = match open_file w path s with
    | Opened =>
        match encoded with
        | Ok _ =>
            (Ok true,
             {| st_dir := st_dir s; st_requests := st_requests s;
                st_files := (path, a) :: st_files s;
                st_trace := st_trace s ++ [EvOpen path; EvDump path a;
                                           EvStdout (MsgSaved shown)];
                st_locals := st_locals s |})
        | Raise e => (Raise e, with_file path PartialFile (append_trace [EvOpen path] s))
        end
    | OpenIOError e =>
        (Ok false, append_trace [EvOpen path; EvStderr (MsgCouldNotSave shown e)] s)
    | OpenRaises e => (Raise e, append_trace [EvOpen path] s)
    end.
Proof.
  unfold write_artifact. destruct (open_file w path s); [destruct encoded| |];
    unfold add_event, append_trace, with_file; cbn; rewrite <- ?app_assoc; reflexivity.
Qed.

Lemma write_csv_run w out s :
  write_csv w out s
  = match open_file w out s with
    | Opened =>
        (Ok tt,
         {| st_dir := st_dir s; st_requests := st_requests s;
            st_files := (out, MetricsCsv) :: st_files s;
            st_trace := st_trace s ++ [EvOpen out; EvDump out MetricsCsv];
            st_locals := st_locals s |})
    | OpenIOError e | OpenRaises e => (Raise e, append_trace [EvOpen out] s)
    end.
Proof.
  unfold write_csv. destruct (open_file w out s);
    unfold add_event, append_trace, with_file; cbn; rewrite <- ?app_assoc; reflexivity.
Qed.

(** The metrics collaborator: the call, then the table. *)
Lemma metrics_run cfg w payload dir fmt s :
  calculate_and_save_metrics cfg w payload dir fmt s
  = match w_metrics w with
    | Some e => (Raise e, append_trace [EvMetrics payload dir fmt] s)
    | None =>
        match metrics_name payload with
        | Raise e => (Raise e, append_trace [EvMetrics payload dir fmt] s)
        | Ok name =>
            let out := metrics_path cfg dir name in
            match open_file w out s with
            | Opened =>
                (Ok tt,
                 {| st_dir := st_dir s; st_requests := st_requests s;
                    st_files := (out, MetricsCsv) :: st_files s;
                    st_trace := st_trace s ++ [EvMetrics payload dir fmt; EvOpen out;
                                               EvDump out MetricsCsv];
                    st_locals := st_locals s |})
            | OpenIOError e | OpenRaises e =>
                (Raise e, append_trace [EvMetrics payload dir fmt; EvOpen out] s)
            end
        end
    end.
Proof.
  unfold calculate_and_save_metrics, metrics_name, metrics_path.
  rewrite (bind_ok _ _ _ _ _ (eq_refl : emit _ s = (Ok tt, add_event _ s))).
  destruct (w_metrics w) as [e|]; [reflexivity|].
  destruct (py_get payload "predictor_name" (VStr "Unknown")) as [name|e]; [|reflexivity].
  rewrite (bind_ok _ _ _ _ _ (eq_refl : lift (Ok name) _ = (Ok name, _))).
  destruct (py_replace_space name) as [pname|e]; [|reflexivity].
  rewrite (bind_ok _ _ _ _ _ (eq_refl : lift (Ok pname) _ = (Ok pname, _))).
  rewrite write_csv_run.
  change (open_file w ?p (add_event ?e s)) with (open_file w p s).
  destruct (open_file w _ s); unfold append_trace, add_event; cbn;
    rewrite <- ?app_assoc; reflexivity.
Qed.













(** ** Invariants of every run *)

Lemma quiet_check_tasks total tasks :
  forall i, quiet (fun e => persist_event e = false) (check_tasks total i tasks).
Proof.
  induction tasks as [|task tasks IH]; intros i; cbn [check_tasks].
  - apply quiet_ret.
  - apply quiet_bind; [|intros _; apply IH].
    unfold check_task.
    apply quiet_bind; [apply quiet_lift|intros preds].
    apply quiet_bind; [apply quiet_lift|intros n].
    destruct (negb _); [|apply quiet_ret].
    destruct task; try apply quiet_raise.
    apply quiet_emit. reflexivity.
Qed.

Lemma save_and_score_general {py : PyText} cfg w json_dumps msgpack_packb dir total s :
  exists s1,
    same_store s s1 /\
    (exists t, st_trace s1 = st_trace s ++ t /\
               Forall (fun e => persist_event e = false) t) /\
    ((exists e, save_and_score cfg w json_dumps msgpack_packb dir total s = (Raise e, s1)) \/
     (exists r pname,
         response (st_locals s) = Some (Some r) /\
         save_and_score cfg w json_dumps msgpack_packb dir total s
         = write_and_score cfg w json_dumps msgpack_packb dir pname
             (response_payload (st_locals s)) (is_success_response (st_locals s)) r s1)).
Proof.
  unfold save_and_score.
  rewrite (bind_ok _ _ _ _ _ (eq_refl : get_locals s = (Ok (st_locals s), s))).
  assert (same_store s s /\
          exists t, st_trace s = st_trace s ++ t /\
                    Forall (fun e => persist_event e = false) t) as Hs.
  { split; [apply same_store_refl|]. exists []. rewrite app_nil_r. auto. }
  destruct (py_get (response_payload (st_locals s)) "predictor_name" _) as [name|e];
    [|exists s; destruct Hs as [H1 H2]; split; [exact H1|]; split; [exact H2|];
      left; eexists; reflexivity].
  rewrite (bind_ok _ _ _ _ _ (eq_refl : lift (Ok name) s = (Ok name, s))).
  destruct (py_replace_space name) as [pname|e];
    [|exists s; destruct Hs as [H1 H2]; split; [exact H1|]; split; [exact H2|];
      left; eexists; reflexivity].
  rewrite (bind_ok _ _ _ _ _ (eq_refl : lift (Ok pname) s = (Ok pname, s))).
  destruct (py_get (response_payload (st_locals s)) "prediction_tasks" _) as [tv|e];
    [|exists s; destruct Hs as [H1 H2]; split; [exact H1|]; split; [exact H2|];
      left; eexists; reflexivity].
  rewrite (bind_ok _ _ _ _ _ (eq_refl : lift (Ok tv) s = (Ok tv, s))).
  destruct (py_iter tv) as [tasks|e];
    [|exists s; destruct Hs as [H1 H2]; split; [exact H1|]; split; [exact H2|];
      left; eexists; reflexivity].
  rewrite (bind_ok _ _ _ _ _ (eq_refl : lift (Ok tasks) s = (Ok tasks, s))).
  destruct (quiet_check_tasks total tasks 1 s) as [Hst Htr].
  destruct (check_tasks total 1 tasks s) as [[[]|e] s1] eqn:Ec; cbn [snd] in *.
  - rewrite (bind_ok _ _ _ _ _ Ec).
    exists s1. split; [exact Hst|]. split; [exact Htr|].
    destruct Hst as (_ & _ & Hl).
    destruct (response (st_locals s)) as [[r|]|] eqn:Er.
    + right. exists r, pname. split; [reflexivity|]. reflexivity.
    + left. eexists. reflexivity.
    + left. eexists. reflexivity.
  - rewrite (bind_raise _ _ _ _ _ Ec).
    exists s1. split; [exact Hst|]. split; [exact Htr|]. left. eauto.
Qed.














(** ** The output directory *)























(** ** Failures before the prediction request *)



(** ** A predictor that answers with an error status *)

Lemma main_of_raise {py : PyText} cfg w json_loads msgpack_unpackb json_dumps msgpack_packb
      ip port dir s e s1 :
  run_evaluator cfg w json_loads msgpack_unpackb json_dumps msgpack_packb ip port dir s
  = (Raise e, s1) ->
  main cfg w json_loads msgpack_unpackb json_dumps msgpack_packb ip port dir s
  = (1, add_event (EvStderr (fatal_message ip port e)) s1).
Proof. intros H. unfold main. rewrite H. reflexivity. Qed.

Lemma offline_ret {A} (a : A) : offline (ret a).
Proof. intros s. reflexivity. Qed.

Lemma offline_raise {A} e : offline (@raise A e).
Proof. intros s. reflexivity. Qed.

Lemma offline_lift {A} (o : outcome A) : offline (lift o).
Proof. intros s. reflexivity. Qed.

Lemma offline_emit e : offline (emit e).
Proof. intros s. reflexivity. Qed.

Lemma offline_modify_locals f : offline (modify_locals f).
Proof. intros s. reflexivity. Qed.

Lemma offline_get_locals : offline get_locals.
Proof. intros s. reflexivity. Qed.

Lemma offline_bind {A B} (m : M A) (k : A -> M B) :
  offline m -> (forall a, offline (k a)) -> offline (bind m k).
Proof.
  intros Hm Hk s. unfold bind. specialize (Hm s).
  destruct (m s) as [[a|e] s1]; cbn [snd] in *; [rewrite Hk|]; exact Hm.
Qed.

Ltac offline_step :=
  first
    [ apply offline_ret | apply offline_raise | apply offline_lift
    | apply offline_modify_locals | apply offline_get_locals
    | apply offline_emit
    | apply offline_bind; [|intros ?] ].

Lemma offline_check_tasks total tasks : forall i, offline (check_tasks total i tasks).
Proof.
  induction tasks as [|task tasks IH]; intros i; cbn [check_tasks].
  - apply offline_ret.
  - apply offline_bind; [|intros _; apply IH].
    unfold check_task, print.
    apply offline_bind; [offline_step|intros preds].
    apply offline_bind; [offline_step|intros n].
    destruct (negb _); [|offline_step].
    destruct task; offline_step.
Qed.

Lemma offline_write_artifact w path shown a encoded :
  offline (write_artifact w path shown a encoded).
Proof.
  intros s. rewrite write_artifact_run.
  destruct (open_file w path s); [destruct encoded| |]; reflexivity.
Qed.

Lemma offline_metrics cfg w payload dir fmt :
  offline (calculate_and_save_metrics cfg w payload dir fmt).
Proof.
  intros s. rewrite metrics_run.
  destruct (w_metrics w); [reflexivity|].
  destruct (metrics_name payload); [|reflexivity].
  cbv zeta. destruct (open_file w _ s); reflexivity.
Qed.

Lemma offline_persist_phase {py : PyText} cfg w json_dumps msgpack_packb dir total :
  offline (persist_phase cfg w json_dumps msgpack_packb dir total).
Proof.
  unfold persist_phase, save_and_score, eprint, print, set_response_payload.
  apply offline_bind; [offline_step|intros l].
  apply offline_bind.
  { destruct (response_payload l); try apply offline_ret.
    apply offline_bind; [offline_step|intros _; offline_step]. }
  intros _.
  apply offline_bind; [offline_step|intros l2].
  apply offline_bind; [offline_step|intros name].
  apply offline_bind; [offline_step|intros pname].
  apply offline_bind; [offline_step|intros tv].
  apply offline_bind; [offline_step|intros tasks].
  apply offline_bind; [apply offline_check_tasks|intros _].
  destruct (response l2) as [[r|]|]; try solve [offline_step].
  apply offline_bind.
  - destruct (String.eqb _ _).
    + apply offline_bind; [offline_step|intros _]. apply offline_write_artifact.
    + apply offline_write_artifact.
  - intros [|]; [|offline_step].
    destruct (is_success_response l2); [|offline_step].
    apply offline_metrics.
Qed.

(** With [response] unbound, the statements after the [try] always end in
    an exception, before anything is opened. *)
Lemma persist_phase_unbound {py : PyText} cfg w json_dumps msgpack_packb dir total s :
  response (st_locals s) = None ->
  exists e s',
    persist_phase cfg w json_dumps msgpack_packb dir total s = (Raise e, s') /\
    st_files s' = st_files s /\ st_requests s' = st_requests s /\
    response_payload (st_locals s') = payload_to_save (response_payload (st_locals s)) /\
    is_success_response (st_locals s') = is_success_response (st_locals s) /\
    resp_fmt (st_locals s') = resp_fmt (st_locals s) /\
    (exists t, st_trace s' = st_trace s ++ t /\
               Forall (fun e => persist_event e = false) t) /\
    (forall d, payload_to_save (response_payload (st_locals s)) = VDict d ->
               checkable d -> e = UnboundLocalError "response") /\
    ((forall d, payload_to_save (response_payload (st_locals s)) <> VDict d) ->
     e = OtherError "AttributeError").
Proof.
  intros Hr.
  pose proof (offline_persist_phase cfg w json_dumps msgpack_packb dir total s) as Hreq.
  assert (exists s2 t2,
             (match response_payload (st_locals s) with
              | VNone => eprint MsgNoPayload ;;; set_response_payload no_response_payload
              | _ => ret tt
              end) s = (Ok tt, s2) /\
             st_files s2 = st_files s /\
             st_trace s2 = st_trace s ++ t2 /\
             Forall (fun e => persist_event e = false) t2 /\
             st_locals s2
             = {| response_payload := payload_to_save (response_payload (st_locals s));
                  is_success_response := is_success_response (st_locals s);
                  resp_fmt := resp_fmt (st_locals s);
                  response := response (st_locals s) |})
    as (s2 & t2 & E2 & F2 & T2 & P2 & L2).
  { destruct (response_payload (st_locals s)) eqn:Ep;
      try (exists s, []; split; [reflexivity|]; rewrite app_nil_r;
           cbn [payload_to_save]; rewrite <- Ep;
           repeat split; auto; destruct (st_locals s); reflexivity).
    eexists. exists [EvStderr MsgNoPayload]. split; [reflexivity|].
    cbn. repeat split. repeat constructor. }
  assert (persist_phase cfg w json_dumps msgpack_packb dir total s
          = save_and_score cfg w json_dumps msgpack_packb dir total s2) as Ep.
  { unfold persist_phase.
    rewrite (bind_ok _ _ _ _ _ (eq_refl : get_locals s = (Ok (st_locals s), s))).
    rewrite (bind_ok _ _ _ _ _ E2). reflexivity. }
  rewrite Ep in Hreq |- *.
  destruct (save_and_score_general cfg w json_dumps msgpack_packb dir total s2)
    as (s3 & (D3 & F3 & L3) & (t3 & T3 & P3) & Hcase).
  destruct Hcase as [(e & E)|(r & pname & Hr' & E)];
    [|rewrite L2 in Hr'; cbn [response] in Hr'; congruence].
  exists e, s3. split; [exact E|].
  rewrite E in Hreq. cbn [snd] in Hreq.
  split; [congruence|]. split; [exact Hreq|].
  rewrite L3, L2. cbn [response_payload is_success_response resp_fmt].
  split; [reflexivity|]. split; [reflexivity|]. split; [reflexivity|].
  split.
  { exists (t2 ++ t3). rewrite T3, T2, app_assoc. split; [reflexivity|].
    apply Forall_app. auto. }
  split.
  - intros d Hd (Hname & tasks & Htasks & Hwf).
    destruct (predictor_name_of d) as [pname|] eqn:En; [clear Hname|congruence].
    rewrite (save_and_score_checked cfg w json_dumps msgpack_packb dir total s2 d pname tasks)
      in E; auto.
    + rewrite L2 in E. cbn [response] in E. rewrite Hr in E. congruence.
    + rewrite L2. cbn [response_payload]. exact Hd.
  - intros Hnd. unfold save_and_score in E.
    rewrite (bind_ok _ _ _ _ _ (eq_refl : get_locals s2 = (Ok (st_locals s2), s2))) in E.
    rewrite L2 in E. cbn [response_payload] in E.
    destruct (payload_to_save (response_payload (st_locals s))) as [| | | | | | |d];
      try (cbn in E; congruence);
      exfalso; apply (Hnd d); reflexivity.
Qed.

(** X10.  When the negotiation has succeeded and the predictor answers the
    prediction request with a 4xx/5xx status, the [except HTTPError] path
    runs: it records the failure and builds its payload, which is the
    decoded error body, or the placeholder with the first 500 characters of
    the body when the decoding ends in a [ValueError].  The run never gets
    to save it.  It always ends in an exception: the one the decoder let
    through if that was not a [ValueError]; an [AttributeError] at line 89
    for a payload that is not a dict (a JSON list, say); and, for a dict
    that passes lines 88-107, [UnboundLocalError] for [response] at line
    108.  No file is opened or written, the metrics are not called, two
    requests have been made, and the process exits with status 1. *)
Theorem error_status_run_crashes {py : PyText} cfg w json_loads msgpack_unpackb json_dumps
      msgpack_packb ip port dir data total reqs resps bytes r :
  1 <= MAX_RETRIES cfg ->
  dir_ready w ->
  loads w data total ->
  serves_formats w json_loads 0 reqs resps ->
  serialize_request json_dumps msgpack_packb data (negotiated_request cfg reqs) = Ok bytes ->
  w_net w 1 = Responded r ->
  400 <= status_code r < 600 ->
  exists e s',
    run_evaluator cfg w json_loads msgpack_unpackb json_dumps msgpack_packb ip port dir
      (init_state w) = (Raise e, s') /\
    main cfg w json_loads msgpack_unpackb json_dumps msgpack_packb ip port dir
      (init_state w) = (1, add_event (EvStderr (fatal_message ip port e)) s') /\
    st_files s' = [] /\ st_requests s' = 2%nat /\
    Forall (fun e => persist_event e = false) (st_trace s') /\
    In (EvStdout (MsgReturnedHTTP (status_code r))) (st_trace s') /\
    is_success_response (st_locals s') = false /\
    match decode_outcome (decoded json_loads msgpack_unpackb r) with
    | Ok v =>
        response_payload (st_locals s') = payload_to_save v /\
        (forall d, payload_to_save v = VDict d -> checkable d ->
                   e = UnboundLocalError "response") /\
        ((forall d, payload_to_save v <> VDict d) -> e = OtherError "AttributeError")
    | Raise (ValueError _) =>
        response_payload (st_locals s') = undecodable_error_payload r /\
        e = UnboundLocalError "response"
    | Raise e' => e = e'
    end.
Proof.
  intros HM Hdir Hload Hfmt Hser Hnet Hst.
  apply error_status_iff in Hst.
  assert (is_error_status r = false ->
          plain_failure (decoded json_loads msgpack_unpackb r)) as Hplain
      by (intros H; congruence).
  destruct (run_evaluator_answered cfg w json_loads msgpack_unpackb json_dumps
              msgpack_packb ip port dir data total reqs resps bytes r
              HM Hdir Hload Hfmt Hser Hnet Hplain)
    as (s1 & Erun & D1 & F1 & R1 & L1 & P1 & I1 & _).
  rewrite Hst in Erun, L1. cbn [negb] in L1. specialize (I1 Hst).
  unfold error_payload in Erun, L1.
  assert (forall v : value,
             response_payload (st_locals s1) = v ->
             run_evaluator cfg w json_loads msgpack_unpackb json_dumps msgpack_packb
               ip port dir (init_state w)
             = persist_phase cfg w json_dumps msgpack_packb dir total s1 ->
             exists e s',
               run_evaluator cfg w json_loads msgpack_unpackb json_dumps msgpack_packb
                 ip port dir (init_state w) = (Raise e, s') /\
               main cfg w json_loads msgpack_unpackb json_dumps msgpack_packb ip port dir
                 (init_state w) = (1, add_event (EvStderr (fatal_message ip port e)) s') /\
               st_files s' = [] /\ st_requests s' = 2%nat /\
               Forall (fun e => persist_event e = false) (st_trace s') /\
               In (EvStdout (MsgReturnedHTTP (status_code r))) (st_trace s') /\
               is_success_response (st_locals s') = false /\
               response_payload (st_locals s') = payload_to_save v /\
               (forall d, payload_to_save v = VDict d -> checkable d ->
                          e = UnboundLocalError "response") /\
               ((forall d, payload_to_save v <> VDict d) ->
                e = OtherError "AttributeError")) as Hpersist.
  { intros v Hv Erun'.
    destruct (persist_phase_unbound cfg w json_dumps msgpack_packb dir total s1)
      as (e & s' & E & F & R & Pl & Su & _ & (t & T & P) & Hu & Ha).
    { rewrite L1. reflexivity. }
    rewrite Hv in Pl, Hu, Ha.
    exists e, s'. rewrite Erun', E.
    split; [reflexivity|].
    split; [apply main_of_raise; rewrite Erun'; exact E|].
    split; [congruence|]. split; [congruence|].
    split; [rewrite T; apply Forall_app; auto|].
    split; [rewrite T; apply in_or_app; auto|].
    split; [rewrite Su, L1; reflexivity|].
    auto. }
  destruct (decode_outcome (decoded json_loads msgpack_unpackb r)) as [v|e0] eqn:Ed.
  - destruct (Hpersist v) as (e & s' & H1 & H2 & H3 & H4 & H5 & H6 & H7 & H8);
      [rewrite L1; reflexivity | exact Erun |].
    exists e, s'. repeat (split; [assumption|]). exact H8.
  - destruct e0;
      try (eexists; exists s1; split; [exact Erun|];
           split; [apply main_of_raise; exact Erun|];
           split; [exact F1|]; split; [exact R1|]; split; [exact P1|];
           split; [exact I1|]; split; [rewrite L1; reflexivity|]; reflexivity).
    destruct (Hpersist (undecodable_error_payload r))
      as (e & s' & H1 & H2 & H3 & H4 & H5 & H6 & H7 & H8 & H9 & _);
      [rewrite L1; reflexivity | exact Erun |].
    exists e, s'. do 7 (split; [assumption|]).
    split; [exact H8|].
    eapply H9; [reflexivity|].
    split; [discriminate|]. exists []. split; [reflexivity|]. intros task [].
Qed.

Lemma error_status_run_crashes_witness :
  fst (main (py := ascii_text) config failing_predictor_world example_json_loads
         example_unpackb example_dumps example_dumps "127.0.0.1" 5000 "/out"
         (init_state failing_predictor_world)) = 1.
Proof.
  destruct (error_status_run_crashes (py := ascii_text) config failing_predictor_world
              example_json_loads example_unpackb example_dumps example_dumps
              "127.0.0.1" 5000 "/out"
              request_data 2 (Some ["Application/JSON"%string])
              (Some ["application/json"%string]) "encoded" error_response)
    as (e & s' & _ & Hmain & _).
  - cbn; lia.
  - left; reflexivity.
  - split; [reflexivity|]. eexists. split; reflexivity.
  - exists formats_response. eexists. repeat split; reflexivity.
  - reflexivity.
  - reflexivity.
  - cbn; lia.
  - rewrite Hmain. reflexivity.
Defined.

Lemma request_and_decode_formats_error {py : PyText} cfg w json_loads msgpack_unpackb
      json_dumps msgpack_packb url data s r :
  1 <= MAX_RETRIES cfg ->
  w_net w (st_requests s) = Responded r ->
  is_error_status r = true ->
  let built := error_payload (decoded json_loads msgpack_unpackb r) r in
  exists s',
    request_and_decode cfg w json_loads msgpack_unpackb json_dumps msgpack_packb url data s
    = (match built with
       | Ok _ => Ok tt
       | Raise e => Raise e
       end, s') /\
    st_dir s' = st_dir s /\ st_files s' = st_files s /\
    st_requests s' = S (st_requests s) /\
    st_locals s'
    = {| response_payload :=
           match built with
           | Ok v => v
           | Raise _ => response_payload (st_locals s)
           end;
         is_success_response := false;
         resp_fmt := resp_fmt (st_locals s);
         response := response (st_locals s) |} /\
    exists t,
      st_trace s'
      = st_trace s ++ [EvStdout (MsgNegotiating (url ++ "/formats")%string);
                       EvRequest "get" (url ++ "/formats")%string [] None;
                       EvStdout (MsgReturnedHTTP (status_code r))] ++ t /\
      Forall (fun e => try_event e = true) t.
Proof.
  intros HM Hnet Hst built.
  assert (negotiate_formats cfg w json_loads url s
          = (Raise (HTTPError r),
             {| st_dir := st_dir s; st_requests := S (st_requests s);
                st_files := st_files s;
                st_trace := (st_trace s
                             ++ [EvStdout (MsgNegotiating (url ++ "/formats")%string)])
                            ++ [EvRequest "get" (url ++ "/formats")%string [] None];
                st_locals := st_locals s |})) as Eneg.
  { unfold negotiate_formats.
    rewrite (bind_ok _ _ _ _ _ (print_step _ _)).
    erewrite bind_raise; [reflexivity|].
    apply make_request_error_status; auto. }
  unfold request_and_decode, try_except.
  rewrite (bind_raise _ _ _ _ _ Eneg). cbn [is_HTTPError].
  match goal with
  | |- context [handle_http_error _ _ _ ?s0] =>
      destruct (handle_http_error_run json_loads msgpack_unpackb r s0)
        as (s3 & E3 & D3 & F3 & R3 & L3 & t3 & T3 & P3 & _)
  end.
  fold built in E3, L3.
  cbn [st_dir st_files st_locals st_requests st_trace] in *.
  exists s3. split; [exact E3|].
  split; [exact D3|]. split; [exact F3|]. split; [exact R3|]. split; [exact L3|].
  exists t3. rewrite T3, <- !app_assoc. split; [reflexivity | exact P3].
Qed.

(** X23.  When the predictor answers the very first request, [GET /formats],
    with a 4xx/5xx status, the [HTTPError] raised inside [negotiate_formats]
    is caught by the same [except HTTPError] clause: no prediction request
    is sent (one HTTP call in the whole run), no response format has been
    negotiated, and the payload is built from the error body as for a failed
    prediction request.  The run then always ends in an exception, as it
    does there: the one the decoder let through if that was not a
    [ValueError]; an [AttributeError] for a payload that is not a dict;
    [UnboundLocalError] for [response] for a dict that passes lines 88-107.
    Nothing is opened or written, the metrics are not called, and the
    process exits with status 1. *)
Theorem formats_error_status_crashes {py : PyText} cfg w json_loads msgpack_unpackb
      json_dumps msgpack_packb ip port dir data total r :
  1 <= MAX_RETRIES cfg ->
  dir_ready w ->
  loads w data total ->
  w_net w 0 = Responded r ->
  400 <= status_code r < 600 ->
  exists e s',
    run_evaluator cfg w json_loads msgpack_unpackb json_dumps msgpack_packb ip port dir
      (init_state w) = (Raise e, s') /\
    main cfg w json_loads msgpack_unpackb json_dumps msgpack_packb ip port dir
      (init_state w) = (1, add_event (EvStderr (fatal_message ip port e)) s') /\
    st_files s' = [] /\ st_requests s' = 1%nat /\
    Forall (fun e => persist_event e = false) (st_trace s') /\
    In (EvStdout (MsgReturnedHTTP (status_code r))) (st_trace s') /\
    is_success_response (st_locals s') = false /\
    resp_fmt (st_locals s') = None /\
    match decode_outcome (decoded json_loads msgpack_unpackb r) with
    | Ok v =>
        response_payload (st_locals s') = payload_to_save v /\
        (forall d, payload_to_save v = VDict d -> checkable d ->
                   e = UnboundLocalError "response") /\
        ((forall d, payload_to_save v <> VDict d) -> e = OtherError "AttributeError")
    | Raise (ValueError _) =>
        response_payload (st_locals s') = undecodable_error_payload r /\
        e = UnboundLocalError "response"
    | Raise e' => e = e'
    end.
Proof.
  intros HM Hdir Hload Hnet Hst.
  apply error_status_iff in Hst.
  destruct (run_evaluator_prefix cfg w json_loads msgpack_unpackb json_dumps msgpack_packb
              ip port dir data total Hdir Hload)
    as (s0 & Erun & D0 & F0 & R0 & L0 & T0).
  set (url := ("http://" ++ ip ++ ":" ++ string_of_Z port)%string) in *.
  destruct (request_and_decode_formats_error cfg w json_loads msgpack_unpackb json_dumps
              msgpack_packb url data s0 r HM)
    as (s1 & E1 & D1 & F1 & R1 & L1 & t1 & T1 & P1);
    [rewrite R0; exact Hnet | exact Hst |].
  rewrite L0 in L1. cbn [response response_payload resp_fmt init_locals] in L1.
  unfold error_payload in E1, L1.
  assert (Forall (fun e => persist_event e = false) (st_trace s1)) as PS1.
  { rewrite T1, T0. repeat (apply Forall_app; split).
    - destruct (w_dir_exists w); repeat constructor.
    - repeat constructor.
    - repeat constructor.
    - eapply Forall_impl; [|exact P1]. intros e. apply try_event_not_persist. }
  assert (In (EvStdout (MsgReturnedHTTP (status_code r))) (st_trace s1)) as IS1.
  { rewrite T1, !in_app_iff. right. left. cbn. auto. }
  assert (forall v : value,
             response_payload (st_locals s1) = v ->
             run_evaluator cfg w json_loads msgpack_unpackb json_dumps msgpack_packb
               ip port dir (init_state w)
             = persist_phase cfg w json_dumps msgpack_packb dir total s1 ->
             exists e s',
               run_evaluator cfg w json_loads msgpack_unpackb json_dumps msgpack_packb
                 ip port dir (init_state w) = (Raise e, s') /\
               main cfg w json_loads msgpack_unpackb json_dumps msgpack_packb ip port dir
                 (init_state w) = (1, add_event (EvStderr (fatal_message ip port e)) s') /\
               st_files s' = [] /\ st_requests s' = 1%nat /\
               Forall (fun e => persist_event e = false) (st_trace s') /\
               In (EvStdout (MsgReturnedHTTP (status_code r))) (st_trace s') /\
               is_success_response (st_locals s') = false /\
               resp_fmt (st_locals s') = None /\
               response_payload (st_locals s') = payload_to_save v /\
               (forall d, payload_to_save v = VDict d -> checkable d ->
                          e = UnboundLocalError "response") /\
               ((forall d, payload_to_save v <> VDict d) ->
                e = OtherError "AttributeError")) as Hpersist.
  { intros v Hv Erun'.
    destruct (persist_phase_unbound cfg w json_dumps msgpack_packb dir total s1)
      as (e & s' & E & F & R & Pl & Su & Rf & (t & T & P) & Hu & Ha).
    { rewrite L1. reflexivity. }
    rewrite Hv in Pl, Hu, Ha.
    exists e, s'. rewrite Erun', E.
    split; [reflexivity|].
    split; [apply main_of_raise; rewrite Erun'; exact E|].
    split; [congruence|]. split; [rewrite R, R1, R0; reflexivity|].
    split; [rewrite T; apply Forall_app; auto|].
    split; [rewrite T; apply in_or_app; auto|].
    split; [rewrite Su, L1; reflexivity|].
    split; [rewrite Rf, L1; reflexivity|].
    auto. }
  destruct (decode_outcome (decoded json_loads msgpack_unpackb r)) as [v|e0] eqn:Ed.
  - destruct (Hpersist v) as (e & s' & H1 & H2 & H3 & H4 & H5 & H6 & H7 & H8 & H9);
      [rewrite L1; reflexivity | rewrite Erun, (bind_ok _ _ _ _ _ E1); reflexivity |].
    exists e, s'. repeat (split; [assumption|]). exact H9.
  - destruct e0;
      try (eexists; exists s1;
           assert (run_evaluator cfg w json_loads msgpack_unpackb json_dumps msgpack_packb
                     ip port dir (init_state w) = (Raise _, s1)) as Erun'
               by (rewrite Erun, (bind_raise _ _ _ _ _ E1); reflexivity);
           split; [exact Erun'|];
           split; [apply main_of_raise; exact Erun'|];
           split; [congruence|]; split; [rewrite R1, R0; reflexivity|];
           split; [exact PS1|]; split; [exact IS1|];
           split; [rewrite L1; reflexivity|]; split; [rewrite L1; reflexivity|];
           reflexivity).
    destruct (Hpersist (undecodable_error_payload r))
      as (e & s' & H1 & H2 & H3 & H4 & H5 & H6 & H7 & H8 & H9 & H10 & _);
      [rewrite L1; reflexivity | rewrite Erun, (bind_ok _ _ _ _ _ E1); reflexivity |].
    exists e, s'. do 8 (split; [assumption|]).
    split; [exact H9|].
    eapply H10; [reflexivity|].
    split; [discriminate|]. exists []. split; [reflexivity|]. intros task [].
Qed.

Lemma formats_error_status_crashes_witness :
  exists s',
    main (py := ascii_text) config no_formats_world example_json_loads example_unpackb
      example_dumps example_dumps "127.0.0.1" 5000 "/out" (init_state no_formats_world)
    = (1, s') /\
    st_requests s' = 1%nat.
Proof.
  destruct (formats_error_status_crashes (py := ascii_text) config no_formats_world
              example_json_loads example_unpackb example_dumps example_dumps
              "127.0.0.1" 5000 "/out" request_data 2 not_found_response)
    as (e & s' & _ & Hmain & _ & Hreq & _).
  - cbn; lia.
  - left; reflexivity.
  - split; [reflexivity|]. eexists. split; reflexivity.
  - reflexivity.
  - cbn; lia.
  - eexists. split; [exact Hmain|]. exact Hreq.
Defined.

(** ** Duplicate keys *)

Lemma count_get_set k c d k' :
  count_get k' (count_set k c d) = if String.eqb k' k then c else count_get k' d.
Proof.
  induction d as [|[k0 c0] d IH]; cbn [count_set count_get].
  - destruct (String.eqb k' k); reflexivity.
  - destruct (String.eqb_spec k k0) as [->|Hne]; cbn [count_get].
    + destruct (String.eqb_spec k' k0); reflexivity.
    + rewrite IH. destruct (String.eqb_spec k' k0) as [->|]; [|reflexivity].
      destruct (String.eqb_spec k0 k); [congruence|reflexivity].
Qed.

Lemma dict_get_set k v d k' :
  dict_get k' (dict_set k v d) = if String.eqb k' k then Some v else dict_get k' d.
Proof.
  induction d as [|[k0 v0] d IH]; cbn [dict_set dict_get].
  - destruct (String.eqb k' k); reflexivity.
  - destruct (String.eqb_spec k k0) as [->|Hne]; cbn [dict_get].
    + destruct (String.eqb_spec k' k0); reflexivity.
    + rewrite IH. destruct (String.eqb_spec k' k0) as [->|]; [|reflexivity].
      destruct (String.eqb_spec k0 k); [congruence|reflexivity].
Qed.

Lemma occurrences_nonneg {V} k (pairs : list (string * V)) : 0 <= occurrences k pairs.
Proof.
  induction pairs as [|[k' v] pairs IH]; cbn [occurrences]; [lia|].
  destruct (String.eqb k k'); lia.
Qed.

Lemma detect_loop_spec pairs :
  forall lc rd d,
    (forall k, 0 <= count_get k lc) ->
    forall k,
      count_get k (snd (detect_loop pairs lc rd d))
      = (if andb (0 <? occurrences k pairs) (1 <? count_get k lc + occurrences k pairs)
         then count_get k lc + occurrences k pairs
         else count_get k d) /\
      dict_get k (fst (detect_loop pairs lc rd d))
      = match last_value k pairs with
        | Some v => Some v
        | None => dict_get k rd
        end.
Proof.
  induction pairs as [|[key v] pairs IH]; intros lc rd d Hlc k.
  - cbn. split; reflexivity.
  - cbn [detect_loop occurrences last_value].
    set (lc' := count_set key (count_get key lc + 1) lc).
    assert (forall k0, 0 <= count_get k0 lc') as Hlc'.
    { intros k0. subst lc'. rewrite count_get_set.
      destruct (String.eqb k0 key); [specialize (Hlc key); lia | apply Hlc]. }
    destruct (IH lc' (dict_set key v rd)
                (if 1 <? count_get key lc'
                 then count_set key (count_get key lc') d else d) Hlc' k) as [H1 H2].
    rewrite H1, H2. clear H1 H2 IH.
    pose proof (occurrences_nonneg k pairs) as Hocc.
    pose proof (Hlc k) as Hk.
    split.
    + subst lc'. rewrite !count_get_set. rewrite String.eqb_refl.
      destruct (String.eqb_spec k key) as [->|Hne].
      * destruct (1 <? count_get key lc + 1) eqn:E1;
          rewrite ?count_get_set, ?String.eqb_refl;
          destruct (0 <? occurrences key pairs) eqn:E2;
          destruct (1 <? count_get key lc + 1 + occurrences key pairs) eqn:E3;
          destruct (0 <? 1 + occurrences key pairs) eqn:E4;
          destruct (1 <? count_get key lc + (1 + occurrences key pairs)) eqn:E5;
          cbn [andb]; try lia.
      * destruct (1 <? count_get key lc + 1);
          rewrite ?count_get_set;
          try (destruct (String.eqb_spec k key); [congruence|]);
          replace (0 + occurrences k pairs) with (occurrences k pairs) by lia;
          reflexivity.
    + destruct (last_value k pairs); [reflexivity|].
      rewrite dict_get_set. destruct (String.eqb k key); reflexivity.
Qed.

Lemma count_lookup_set k c d k' :
  count_lookup k' (count_set k c d)
  = if String.eqb k' k then Some c else count_lookup k' d.
Proof.
  induction d as [|[k0 c0] d IH]; cbn [count_set count_lookup].
  - destruct (String.eqb k' k); reflexivity.
  - destruct (String.eqb_spec k k0) as [->|Hne]; cbn [count_lookup].
    + destruct (String.eqb_spec k' k0); reflexivity.
    + rewrite IH. destruct (String.eqb_spec k' k0) as [->|]; [|reflexivity].
      destruct (String.eqb_spec k0 k); [congruence|reflexivity].
Qed.

Lemma count_set_keys k c d :
  map fst (count_set k c d)
  = if mem k (map fst d) then map fst d else map fst d ++ [k].
Proof.
  induction d as [|[k0 c0] d IH]; cbn [count_set map fst mem app]; [reflexivity|].
  destruct (String.eqb_spec k k0) as [->|Hne]; cbn [map fst]; [reflexivity|].
  rewrite IH. destruct (mem k (map fst d)); reflexivity.
Qed.

Lemma detect_loop_lookup pairs :
  forall lc rd d,
    (forall k, 0 <= count_get k lc) ->
    forall k,
      count_lookup k (snd (detect_loop pairs lc rd d))
      = if andb (0 <? occurrences k pairs) (1 <? count_get k lc + occurrences k pairs)
        then Some (count_get k lc + occurrences k pairs)
        else count_lookup k d.
Proof.
  induction pairs as [|[key v] pairs IH]; intros lc rd d Hlc k; [reflexivity|].
  cbn [detect_loop occurrences].
  set (lc' := count_set key (count_get key lc + 1) lc).
  assert (forall k0, 0 <= count_get k0 lc') as Hlc'.
  { intros k0. subst lc'. rewrite count_get_set.
    destruct (String.eqb k0 key); [specialize (Hlc key); lia | apply Hlc]. }
  rewrite (IH lc' (dict_set key v rd) _ Hlc' k). clear IH.
  pose proof (occurrences_nonneg k pairs) as Hocc.
  pose proof (Hlc k) as Hk.
  subst lc'. rewrite !count_get_set, String.eqb_refl.
  destruct (String.eqb_spec k key) as [->|Hne].
  - destruct (Z.ltb_spec 0 (occurrences key pairs));
      destruct (Z.ltb_spec 1 (count_get key lc + 1 + occurrences key pairs));
      destruct (Z.ltb_spec 0 (1 + occurrences key pairs));
      destruct (Z.ltb_spec 1 (count_get key lc + (1 + occurrences key pairs)));
      destruct (Z.ltb_spec 1 (count_get key lc + 1));
      cbn [andb]; rewrite ?count_lookup_set, ?String.eqb_refl;
      try reflexivity; try (f_equal; lia); try lia.
  - replace (0 + occurrences k pairs) with (occurrences k pairs) by lia.
    destruct (andb _ _); [reflexivity|].
    destruct (1 <? count_get key lc + 1); [|reflexivity].
    rewrite count_lookup_set.
    destruct (String.eqb_spec k key); [congruence|reflexivity].
Qed.

Lemma detect_loop_keys pairs :
  forall lc rd d,
    (forall k, 0 <= count_get k lc) ->
    exists added,
      map fst (snd (detect_loop pairs lc rd d)) = map fst d ++ added /\
      NoDup added /\
      forall k, In k added <->
                ~ In k (map fst d) /\ 0 < occurrences k pairs /\
                1 < count_get k lc + occurrences k pairs.
Proof.
  induction pairs as [|[key v] pairs IH]; intros lc rd d Hlc.
  - exists []. cbn [detect_loop snd occurrences]. rewrite app_nil_r.
    split; [reflexivity|]. split; [constructor|].
    intros k. cbn [In]. split; [tauto | lia].
  - cbn [detect_loop occurrences].
    set (lc' := count_set key (count_get key lc + 1) lc).
    assert (forall k0, count_get k0 lc'
                       = if String.eqb k0 key then count_get key lc + 1
                         else count_get k0 lc) as Hget
        by (intros k0; subst lc'; apply count_get_set).
    assert (forall k0, 0 <= count_get k0 lc') as Hlc'.
    { intros k0. rewrite Hget.
      destruct (String.eqb k0 key); [specialize (Hlc key); lia | apply Hlc]. }
    pose proof (Hlc key) as Hkey.
    rewrite (Hget key), String.eqb_refl.
    destruct (Z.ltb_spec 1 (count_get key lc + 1)) as [Hc|Hc].
    + destruct (IH lc' (dict_set key v rd)
                  (count_set key (count_get key lc + 1) d) Hlc')
        as (added & Hkeys & Hnd & Hin).
      rewrite count_set_keys in Hkeys, Hin.
      destruct (mem key (map fst d)) eqn:Em.
      * apply mem_In in Em. exists added.
        split; [exact Hkeys|]. split; [exact Hnd|].
        intros k. rewrite Hin, Hget.
        pose proof (occurrences_nonneg k pairs).
        destruct (String.eqb_spec k key) as [->|Hne]; [tauto|].
        replace (0 + occurrences k pairs) with (occurrences k pairs) by lia.
        tauto.
      * apply mem_false_iff in Em. exists (key :: added).
        split; [rewrite Hkeys, <- app_assoc; reflexivity|].
        split.
        { constructor; [|exact Hnd]. intros H. apply Hin in H.
          destruct H as [H _]. apply H. apply in_or_app. right. left. reflexivity. }
        intros k. cbn [In]. rewrite Hin, Hget, in_app_iff. cbn [In].
        pose proof (occurrences_nonneg k pairs).
        destruct (String.eqb_spec k key) as [->|Hne].
        -- split; [|auto]. intros _. split; [exact Em|]. lia.
        -- replace (0 + occurrences k pairs) with (occurrences k pairs) by lia.
           split.
           ++ intros [H1|H1]; [congruence|]. tauto.
           ++ intros (H1 & H2 & H3). right.
              split; [|auto]. intros [H4|[H4|[]]]; [auto | congruence].
    + destruct (IH lc' (dict_set key v rd) d Hlc') as (added & Hkeys & Hnd & Hin).
      exists added. split; [exact Hkeys|]. split; [exact Hnd|].
      intros k. rewrite Hin, Hget.
      pose proof (occurrences_nonneg k pairs).
      destruct (String.eqb_spec k key) as [->|Hne].
      * split; intros (H1 & H2 & H3); (split; [exact H1|]); lia.
      * replace (0 + occurrences k pairs) with (occurrences k pairs) by lia.
        tauto.
Qed.

Lemma loads_with_hook_arr l dups :
  loads_with_hook (RArr l) dups
  = let '(vs, dups') := elements_with loads_with_hook l dups in (VList vs, dups').
Proof. reflexivity. Qed.

Lemma loads_with_hook_obj members dups :
  loads_with_hook (RObj members) dups
  = let '(pairs, dups1) := pairs_with loads_with_hook members dups in
    let '(d, dups2) := _detect_duplicates pairs dups1 in
    (VDict d, dups2).
Proof. reflexivity. Qed.

(** Induction over documents, with the hypothesis for every element of an
    array and every member of an object. *)
Lemma raw_json_ind' (P : raw_json -> Prop) :
  P RNull -> (forall b, P (RBool b)) -> (forall n, P (RInt n)) ->
  (forall f, P (RFloat f)) -> (forall s, P (RStr s)) ->
  (forall l, Forall P l -> P (RArr l)) ->
  (forall ms, Forall (fun kv => P (snd kv)) ms -> P (RObj ms)) ->
  forall t, P t.
Proof.
  intros Hnull Hbool Hint Hfloat Hstr Harr Hobj.
  fix IH 1. intros [| b | n | f | s | l | ms];
    [exact Hnull | apply Hbool | apply Hint | apply Hfloat | apply Hstr | | ].
  - apply Harr. induction l as [|x l IHl]; constructor; [apply IH | exact IHl].
  - apply Hobj. induction ms as [|[k x] ms IHms]; constructor; [apply IH | exact IHms].
Qed.

Lemma count_set_nonempty k c d : count_set k c d <> [].
Proof. destruct d as [|[k0 c0] d]; cbn; [discriminate|]. destruct (String.eqb k k0); discriminate. Qed.

Lemma detect_loop_keeps_nonempty pairs :
  forall lc rd d, d <> [] -> snd (detect_loop pairs lc rd d) <> [].
Proof.
  induction pairs as [|[key v] pairs IH]; intros lc rd d Hd; cbn [detect_loop]; [exact Hd|].
  apply IH. destruct (1 <? _); [apply count_set_nonempty | exact Hd].
Qed.

Lemma loads_with_hook_keeps_nonempty t :
  forall d, d <> [] -> snd (loads_with_hook t d) <> [].
Proof.
  induction t as [| b | n | f | s | l IH | ms IH] using raw_json_ind'; intros d Hd;
    try exact Hd.
  - rewrite loads_with_hook_arr.
    assert (snd (elements_with loads_with_hook l d) <> []) as H.
    { revert d Hd. induction IH as [|x l Hx _ IHl]; intros d Hd; cbn; [exact Hd|].
      specialize (Hx d Hd). destruct (loads_with_hook x d) as [v d1]. cbn [snd] in Hx.
      specialize (IHl d1 Hx).
      destruct (elements_with loads_with_hook l d1) as [vs d2]. exact IHl. }
    destruct (elements_with loads_with_hook l d) as [vs d']. exact H.
  - rewrite loads_with_hook_obj.
    assert (snd (pairs_with loads_with_hook ms d) <> []) as H.
    { revert d Hd. induction IH as [|[k x] ms Hx _ IHms]; intros d Hd; cbn; [exact Hd|].
      cbn [snd] in Hx. specialize (Hx d Hd).
      destruct (loads_with_hook x d) as [v d1]. cbn [snd] in Hx.
      specialize (IHms d1 Hx).
      destruct (pairs_with loads_with_hook ms d1) as [ps d2]. exact IHms. }
    destruct (pairs_with loads_with_hook ms d) as [ps d1]. cbn [snd] in H.
    pose proof (detect_loop_keeps_nonempty ps [] [] d1 H) as H'.
    unfold _detect_duplicates.
    destruct (detect_loop ps [] [] d1) as [rd d2]. exact H'.
Qed.

Lemma detect_loop_fst pairs :
  forall lc rd d,
    fst (detect_loop pairs lc rd d)
    = fold_left (fun acc kv => dict_set (fst kv) (snd kv) acc) pairs rd.
Proof.
  induction pairs as [|[key v] pairs IH]; intros lc rd d; cbn [detect_loop fold_left];
    [reflexivity|].
  rewrite IH. reflexivity.
Qed.

Lemma detect_loop_snd_unique pairs :
  forall lc rd d,
    keys_unique (map fst pairs) = true ->
    (forall k, In k (map fst pairs) -> count_get k lc = 0) ->
    snd (detect_loop pairs lc rd d) = d.
Proof.
  induction pairs as [|[key v] pairs IH]; intros lc rd d Hu Hz; [reflexivity|].
  cbn [detect_loop]. cbn [map fst keys_unique] in Hu.
  apply andb_true_iff in Hu. destruct Hu as [Hfresh Hu].
  apply negb_true_iff, mem_false_iff in Hfresh.
  rewrite count_get_set, String.eqb_refl.
  rewrite (Hz key) by (left; reflexivity). cbn [Z.add Z.ltb Z.compare Pos.compare].
  apply IH; [exact Hu|].
  intros k Hk. rewrite count_get_set.
  destruct (String.eqb_spec k key) as [->|Hne]; [contradiction|].
  apply Hz. right. exact Hk.
Qed.

Lemma keys_not_unique keys :
  keys_unique keys = false ->
  exists k, 1 < occurrences k (map (fun k => (k, tt)) keys).
Proof.
  induction keys as [|k keys IH]; [discriminate|].
  cbn [keys_unique]. intros H. apply andb_false_iff in H. destruct H as [H|H].
  - apply negb_false_iff, mem_In in H. exists k.
    cbn [map occurrences]. rewrite String.eqb_refl.
    assert (1 <= occurrences k (map (fun k => (k, tt)) keys)); [|lia].
    clear IH. induction keys as [|k' keys IH]; [destruct H|].
    cbn [map occurrences].
    pose proof (occurrences_nonneg k (map (fun k => (k, tt)) keys)).
    destruct (String.eqb_spec k k') as [->|Hne]; [lia|].
    destruct H as [H|H]; [congruence|]. specialize (IH H). lia.
  - destruct (IH H) as [k0 Hk0]. exists k0. cbn [map occurrences].
    destruct (String.eqb k0 k); lia.
Qed.

Lemma occurrences_keys {V} k (pairs : list (string * V)) :
  occurrences k pairs = occurrences k (map (fun k => (k, tt)) (map fst pairs)).
Proof.
  induction pairs as [|[k' v] pairs IH]; [reflexivity|].
  cbn [map fst occurrences]. rewrite IH. reflexivity.
Qed.

Lemma detect_duplicates_reports pairs d :
  keys_unique (map fst pairs) = false ->
  snd (_detect_duplicates pairs d) <> [].
Proof.
  intros H. apply keys_not_unique in H. destruct H as [k Hk].
  rewrite <- occurrences_keys in Hk.
  unfold _detect_duplicates.
  destruct (detect_loop_spec pairs [] [] d (fun _ => Z.le_refl 0) k) as [H1 _].
  cbn [count_get] in H1.
  assert ((0 <? occurrences k pairs) = true) as E1 by (apply Z.ltb_lt; lia).
  assert ((1 <? 0 + occurrences k pairs) = true) as E2 by (apply Z.ltb_lt; lia).
  rewrite E1, E2 in H1. cbn [andb] in H1.
  intros Hnil. rewrite Hnil in H1. cbn in H1. lia.
Qed.

(** X18.  [_detect_duplicates] returns the dict a plain parse would build
    from the pairs: the pairs assigned in order to an empty dict, so that
    each key is bound to the value of its last pair.  In the shared dict it
    records exactly the keys that occur more than once among the pairs: such
    a key ends up with an entry holding its number of occurrences; for every
    other key the entry, or the absence of an entry, is as it was before the
    call.  The keys already in the shared dict keep their order and each new
    key is appended once.  So the shared dict is empty afterwards (what
    [_process_results] tests) exactly when it was empty before and no key
    occurs twice among the pairs. *)
Theorem detect_duplicates_counts pairs duplicate_keys_state :
  let '(result_dict, dups) := _detect_duplicates pairs duplicate_keys_state in
  result_dict = fold_left (fun acc kv => dict_set (fst kv) (snd kv) acc) pairs [] /\
  (forall k, dict_get k result_dict = last_value k pairs) /\
  (forall k,
      count_lookup k dups
      = if 1 <? occurrences k pairs then Some (occurrences k pairs)
        else count_lookup k duplicate_keys_state) /\
  (exists added,
      map fst dups = map fst duplicate_keys_state ++ added /\
      NoDup added /\
      forall k, In k added <->
                ~ In k (map fst duplicate_keys_state) /\ 1 < occurrences k pairs) /\
  (dups = [] <-> duplicate_keys_state = [] /\ keys_unique (map fst pairs) = true).
Proof.
  unfold _detect_duplicates.
  pose proof (detect_loop_fst pairs [] [] duplicate_keys_state) as Hfst.
  pose proof (fun k => detect_loop_spec pairs [] [] duplicate_keys_state
                         (fun _ => Z.le_refl 0) k) as Hspec.
  pose proof (detect_loop_lookup pairs [] [] duplicate_keys_state
                (fun _ => Z.le_refl 0)) as Hlook.
  pose proof (detect_loop_keys pairs [] [] duplicate_keys_state
                (fun _ => Z.le_refl 0)) as Hkeys.
  pose proof (detect_loop_snd_unique pairs [] [] duplicate_keys_state) as Huniq.
  pose proof (detect_duplicates_reports pairs duplicate_keys_state) as Hrep.
  pose proof (detect_loop_keeps_nonempty pairs [] [] duplicate_keys_state) as Hmono.
  unfold _detect_duplicates in Hrep.
  destruct (detect_loop pairs [] [] duplicate_keys_state) as [rd dups].
  cbn [fst snd count_get dict_get] in *.
  split; [exact Hfst|].
  split.
  { intros k. destruct (Hspec k) as [_ H2]. rewrite H2.
    destruct (last_value k pairs); reflexivity. }
  split.
  { intros k. rewrite Hlook.
    pose proof (occurrences_nonneg k pairs).
    replace (0 + occurrences k pairs) with (occurrences k pairs) by lia.
    destruct (Z.ltb_spec 1 (occurrences k pairs));
      destruct (Z.ltb_spec 0 (occurrences k pairs)); cbn [andb]; try reflexivity; lia. }
  split.
  { destruct Hkeys as (added & H1 & H2 & H3). exists added.
    split; [exact H1|]. split; [exact H2|].
    intros k. rewrite H3. pose proof (occurrences_nonneg k pairs).
    split; intros (Ha & Hb); (split; [exact Ha|]); lia. }
  split.
  - intros ->. destruct duplicate_keys_state as [|kc st].
    + split; [reflexivity|].
      destruct (keys_unique (map fst pairs)); [reflexivity|].
      exfalso. apply Hrep; reflexivity.
    + exfalso. apply Hmono; [discriminate | reflexivity].
  - intros [-> Hu]. apply Huniq; [exact Hu | reflexivity].
Qed.

Lemma pairs_with_keys ms :
  forall d, map fst (fst (pairs_with loads_with_hook ms d)) = map fst ms.
Proof.
  induction ms as [|[k x] ms IH]; intros d; [reflexivity|].
  cbn [pairs_with]. destruct (loads_with_hook x d) as [v d1].
  specialize (IH d1). fold (pairs_with loads_with_hook) in *.
  destruct (pairs_with loads_with_hook ms d1) as [ps d2].
  cbn [fst map] in *. rewrite IH. reflexivity.
Qed.

Lemma loads_with_hook_fst t : forall d, fst (loads_with_hook t d) = plain_value t.
Proof.
  induction t as [| b | n | f | s | l IH | ms IH] using raw_json_ind'; intros d;
    try reflexivity.
  - rewrite loads_with_hook_arr. cbn [plain_value].
    assert (fst (elements_with loads_with_hook l d) = map plain_value l) as H.
    { revert d. induction IH as [|x l Hx _ IHl]; intros d; [reflexivity|].
      cbn [elements_with map]. specialize (Hx d).
      destruct (loads_with_hook x d) as [v d1]. cbn [fst] in Hx. subst v.
      specialize (IHl d1). fold (elements_with loads_with_hook) in *.
      destruct (elements_with loads_with_hook l d1) as [vs d2].
      cbn [fst] in *. rewrite IHl. reflexivity. }
    destruct (elements_with loads_with_hook l d) as [vs d']. cbn [fst] in *.
    rewrite H. reflexivity.
  - rewrite loads_with_hook_obj. cbn [plain_value].
    assert (fst (pairs_with loads_with_hook ms d)
            = map (fun kv => (fst kv, plain_value (snd kv))) ms) as H.
    { revert d. induction IH as [|[k x] ms Hx _ IHms]; intros d; [reflexivity|].
      cbn [pairs_with map fst snd]. cbn [snd] in Hx. specialize (Hx d).
      destruct (loads_with_hook x d) as [v d1]. cbn [fst] in Hx. subst v.
      specialize (IHms d1). fold (pairs_with loads_with_hook) in *.
      destruct (pairs_with loads_with_hook ms d1) as [ps d2].
      cbn [fst] in *. rewrite IHms. reflexivity. }
    destruct (pairs_with loads_with_hook ms d) as [ps d1]. cbn [fst] in H. subst ps.
    unfold _detect_duplicates.
    pose proof (detect_loop_fst (map (fun kv => (fst kv, plain_value (snd kv))) ms)
                  [] [] d1) as Hf.
    destruct (detect_loop _ [] [] d1) as [rd d2]. cbn [fst] in *. rewrite Hf.
    f_equal. generalize (@nil (string * value)).
    clear. induction ms as [|[k x] ms IHms]; intros acc; [reflexivity|].
    cbn [map fold_left fst snd]. apply IHms.
Qed.

Lemma loads_with_hook_snd t :
  forall d,
    (no_repeated_key t = true -> snd (loads_with_hook t d) = d) /\
    (no_repeated_key t = false -> snd (loads_with_hook t d) <> []).
Proof.
  induction t as [| b | n | f | s | l IH | ms IH] using raw_json_ind'; intros d;
    try (split; [reflexivity | discriminate]).
  - rewrite loads_with_hook_arr. cbn [no_repeated_key].
    assert ((forallb no_repeated_key l = true ->
             snd (elements_with loads_with_hook l d) = d) /\
            (forallb no_repeated_key l = false ->
             snd (elements_with loads_with_hook l d) <> [])) as H.
    { revert d. induction IH as [|x l Hx _ IHl]; intros d;
        [split; [reflexivity | discriminate]|].
      cbn [elements_with forallb]. destruct (Hx d) as [Hx1 Hx2].
      pose proof (loads_with_hook_keeps_nonempty x d) as Hk.
      destruct (loads_with_hook x d) as [v d1]. cbn [snd] in *.
      specialize (IHl d1). fold (elements_with loads_with_hook) in *.
      assert (d1 <> [] -> snd (elements_with loads_with_hook l d1) <> []) as Hmono.
      { clear. revert d1. induction l as [|y l IHl]; intros d1 Hd; [exact Hd|].
        cbn [elements_with]. pose proof (loads_with_hook_keeps_nonempty y d1 Hd) as Hy.
        destruct (loads_with_hook y d1) as [v d2]. cbn [snd] in Hy.
        specialize (IHl d2 Hy). fold (elements_with loads_with_hook) in *.
        destruct (elements_with loads_with_hook l d2) as [vs d3]. exact IHl. }
      destruct (elements_with loads_with_hook l d1) as [vs d2]. cbn [snd] in *.
      destruct IHl as [I1 I2].
      destruct (no_repeated_key x); cbn [andb].
      + rewrite (Hx1 eq_refl) in *. split; assumption.
      + split; [discriminate|]. intros _. apply Hmono. apply Hx2. reflexivity. }
    destruct (elements_with loads_with_hook l d) as [vs d']. exact H.
  - rewrite loads_with_hook_obj. cbn [no_repeated_key].
    pose proof (pairs_with_keys ms d) as Hkeys.
    assert ((forallb (fun kv => no_repeated_key (snd kv)) ms = true ->
             snd (pairs_with loads_with_hook ms d) = d) /\
            (forallb (fun kv => no_repeated_key (snd kv)) ms = false ->
             snd (pairs_with loads_with_hook ms d) <> [])) as H.
    { clear Hkeys. revert d. induction IH as [|[k x] ms Hx _ IHms]; intros d;
        [split; [reflexivity | discriminate]|].
      cbn [pairs_with forallb snd]. cbn [snd] in Hx. destruct (Hx d) as [Hx1 Hx2].
      pose proof (loads_with_hook_keeps_nonempty x d) as Hk.
      destruct (loads_with_hook x d) as [v d1]. cbn [snd] in *.
      specialize (IHms d1). fold (pairs_with loads_with_hook) in *.
      assert (d1 <> [] -> snd (pairs_with loads_with_hook ms d1) <> []) as Hmono.
      { clear. revert d1. induction ms as [|[k y] ms IHms]; intros d1 Hd; [exact Hd|].
        cbn [pairs_with]. pose proof (loads_with_hook_keeps_nonempty y d1 Hd) as Hy.
        destruct (loads_with_hook y d1) as [v d2]. cbn [snd] in Hy.
        specialize (IHms d2 Hy). fold (pairs_with loads_with_hook) in *.
        destruct (pairs_with loads_with_hook ms d2) as [ps d3]. exact IHms. }
      destruct (pairs_with loads_with_hook ms d1) as [ps d2]. cbn [snd] in *.
      destruct IHms as [I1 I2].
      destruct (no_repeated_key x); cbn [andb].
      + rewrite (Hx1 eq_refl) in *. split; assumption.
      + split; [discriminate|]. intros _. apply Hmono. apply Hx2. reflexivity. }
    destruct (pairs_with loads_with_hook ms d) as [ps d1]. cbn [fst snd] in *.
    destruct H as [H1 H2].
    pose proof (detect_loop_snd_unique ps [] [] d1) as Hu.
    pose proof (detect_duplicates_reports ps d1) as Hr.
    pose proof (detect_loop_keeps_nonempty ps [] [] d1) as Hm.
    unfold _detect_duplicates in *.
    destruct (detect_loop ps [] [] d1) as [rd d2]. cbn [snd] in *.
    rewrite Hkeys in *.
    destruct (keys_unique (map fst ms)); cbn [andb].
    + destruct (forallb (fun kv => no_repeated_key (snd kv)) ms).
      * split; [|discriminate]. intros _. rewrite Hu by auto. apply H1. reflexivity.
      * split; [discriminate|]. intros _. apply Hm. apply H2. reflexivity.
    + split; [discriminate|]. intros _. apply Hr. reflexivity.
Qed.

(** X19.  [check_duplicates_from_string] returns the parsed data exactly
    when no object of the document, at any depth, repeats a key, and the
    data is then what a plain parse gives; a document with a repeated key
    anywhere raises the duplicate-keys [ValueError]; a text that is not
    JSON raises the decode error.  [check_duplicates_from_json] does the
    same on the content of the file and raises [FileNotFoundError] when the
    file is missing. *)
Theorem check_duplicates_accepts parse read_file text path :
  (forall v,
      check_duplicates_from_string parse text = Ok v <->
      exists t, parse text = Some t /\ no_repeated_key t = true /\ v = plain_value t) /\
  (forall t, parse text = Some t -> no_repeated_key t = false ->
             exists msg, check_duplicates_from_string parse text = Raise (ValueError msg)) /\
  (parse text = None ->
   check_duplicates_from_string parse text = Raise (ValueError "JSONDecodeError")) /\
  check_duplicates_from_json parse read_file path
  = match read_file path with
    | None => Raise (FileNotFoundError path)
    | Some content => check_duplicates_from_string parse content
    end.
Proof.
  assert (check_duplicates_from_string parse text
                    = match parse text with
                      | None => Raise (ValueError "JSONDecodeError")
                      | Some t =>
                          match snd (loads_with_hook t []) with
                          | [] => Ok (plain_value t)
                          | dups => Raise (ValueError (duplicate_message dups))
                          end
                      end) as Hc.
  { unfold check_duplicates_from_string.
    destruct (parse text) as [t|]; [|reflexivity].
    pose proof (loads_with_hook_fst t []) as Hf.
    destruct (loads_with_hook t []) as [data dups]. cbn [fst snd] in *. subst data.
    destruct dups; reflexivity. }
  split; [|split; [|split]].
  - intros v. rewrite Hc. split.
    + destruct (parse text) as [t|]; [|discriminate].
      destruct (loads_with_hook_snd t []) as [H1 H2].
      destruct (no_repeated_key t) eqn:E.
      * rewrite (H1 eq_refl). intros H. injection H as <-. exists t. auto.
      * specialize (H2 eq_refl).
        destruct (snd (loads_with_hook t [])); [congruence|discriminate].
    + intros (t & Hp & Hn & ->). rewrite Hp.
      destruct (loads_with_hook_snd t []) as [H1 _]. rewrite (H1 Hn). reflexivity.
  - intros t Hp Hn. rewrite Hc, Hp.
    destruct (loads_with_hook_snd t []) as [_ H2]. specialize (H2 Hn).
    destruct (snd (loads_with_hook t [])); [congruence|]. eexists. reflexivity.
  - intros Hp. rewrite Hc, Hp. reflexivity.
  - unfold check_duplicates_from_json, check_duplicates_from_string.
    destruct (read_file path); reflexivity.
Qed.

(** ** Loading the request *)

Lemma dict_set_fresh k v d : ~ In k (map fst d) -> dict_set k v d = d ++ [(k, v)].
Proof.
  induction d as [|[k0 v0] d IH]; intros H; [reflexivity|].
  cbn [dict_set]. cbn [map fst In] in H.
  destruct (String.eqb_spec k k0) as [->|Hne]; [tauto|].
  rewrite IH by tauto. reflexivity.
Qed.

Lemma fetch_loop_ok seqstr py_format float_add seq_len :
  formats_plainly py_format ->
  forall items acc asked,
    keys_unique (map fst items) = true ->
    (forall k, In k (map fst items) -> ~ In k (map fst acc)) ->
    Forall (fun item => exists seq, fetchable seqstr seq_len (snd item) seq) items ->
    exists seqs,
      DataLoader.fetch_loop seqstr py_format float_add seq_len items acc asked
      = (Ok (acc ++ seqs), asked ++ map (fun item => expected_input seq_len (snd item)) items)
      /\ map fst seqs = map fst items /\
      Forall2 (fun item out => exists seq, fetchable seqstr seq_len (snd item) seq /\
                                           snd out = VStr seq) items seqs.
Proof.
  intros [Hfs Hfi] items.
  induction items as [|[key v] items IH]; intros acc asked Hu Hfresh Hok.
  - exists []. cbn. rewrite !app_nil_r. auto.
  - cbn [map fst keys_unique] in Hu. apply andb_true_iff in Hu. destruct Hu as [Hk Hu].
    apply negb_true_iff, mem_false_iff in Hk.
    pose proof (Forall_inv_tail Hok) as Hok'.
    destruct (Forall_inv Hok) as (seq & (chr & c & Hv) & Hs & Hl).
    cbn [snd] in *. subst v.
    destruct (IH (dict_set key (VStr seq) acc)
                (asked ++ [expected_input seq_len (VList [VStr chr; VInt c])]) Hu)
      as (seqs & Erun & Hkeys & Hrel); [|exact Hok'|].
    { intros k Hin. rewrite dict_set_fresh by (apply Hfresh; left; reflexivity).
      rewrite map_app, in_app_iff. cbn [map fst In].
      intros [H|[H|[]]]; [revert H; apply Hfresh; right; exact Hin|subst; contradiction]. }
    exists ((key, VStr seq) :: seqs).
    cbn [DataLoader.fetch_loop DataLoader.unpack_pair py_iter DataLoader.plus_int].
    unfold DataLoader.seqstr_input. rewrite !Hfs, !Hfi.
    cbn [expected_input] in Hs, Erun |- *. rewrite Hs.
    assert ((Z.of_nat (String.length seq) =? seq_len) = true) as -> by (apply Z.eqb_eq; exact Hl).
    cbn [negb]. rewrite Erun.
    rewrite dict_set_fresh by (apply Hfresh; left; reflexivity).
    rewrite <- !app_assoc. cbn [app map fst snd].
    split; [reflexivity|]. split; [rewrite Hkeys; reflexivity|].
    apply Forall2_cons; [|exact Hrel].
    exists seq. split; [|reflexivity].
    split; [do 2 eexists; reflexivity|]. split; assumption.
Qed.

(** X20.  For an input file without duplicate keys whose
    [sequence_coordinates] entry is a dict of [[chr, start]] pairs, when
    every lookup answers with a sequence of the required length, the loader
    asks for exactly one window [[hg38]chr:start-(start+len) +] per
    coordinate, in order, and returns the input dict with [sequences] set to
    a dict that has the same keys in the same order, each bound to the
    sequence fetched for it; so the number of sequences equals the number
    of coordinates. *)
Theorem loader_fetches_every_window parse read_file path seqstr py_format float_add
        seq_len d coords :
  formats_plainly py_format ->
  check_duplicates_from_json parse read_file path = Ok (VDict d) ->
  dict_get "sequence_coordinates" d = Some (VDict coords) ->
  keys_unique (map fst coords) = true ->
  Forall (fun item => exists seq, fetchable seqstr seq_len (snd item) seq) coords ->
  exists seqs,
    DataLoader.load_and_validate_data_with parse read_file path seqstr py_format float_add
      seq_len
    = (Ok (VDict (dict_set "sequences" (VDict seqs) d)),
       map (fun item => expected_input seq_len (snd item)) coords) /\
    map fst seqs = map fst coords /\
    Forall2 (fun item out => exists seq, fetchable seqstr seq_len (snd item) seq /\
                                         snd out = VStr seq) coords seqs /\
    py_len (VDict seqs) = Ok (Z.of_nat (List.length coords)).
Proof.
  intros Hfmt Hfile Hcoords Hu Hok.
  destruct (fetch_loop_ok seqstr py_format float_add seq_len Hfmt coords [] [] Hu)
    as (seqs & Erun & Hkeys & Hrel); [intros k _ []|exact Hok|].
  exists seqs. unfold DataLoader.load_and_validate_data_with.
  rewrite Hfile. cbn [DataLoader.has_key]. rewrite Hcoords, Erun.
  split; [reflexivity|]. split; [exact Hkeys|]. split; [exact Hrel|].
  cbn [py_len]. f_equal. f_equal.
  rewrite <- (length_map fst seqs), Hkeys, length_map. reflexivity.
Qed.

Lemma loader_fetches_every_window_witness :
  DataLoader.load_and_validate_data_with toy_parse toy_read_file "/evaluator_data/in.json"
    toy_seqstr toy_format (fun f _ => f) 4
  = (Ok (VDict [("request", VStr "predict");
                ("sequence_coordinates",
                 VDict [("seq1", VList [VStr "chr9"; VInt 0]);
                        ("seq2", VList [VStr "chr9"; VInt 4])]);
                ("sequences", VDict [("seq1", VStr "ACGT"); ("seq2", VStr "ACGT")])]),
     ["[hg38]chr9:0-4 +"%string; "[hg38]chr9:4-8 +"%string]).
Proof.
  destruct (loader_fetches_every_window toy_parse toy_read_file "/evaluator_data/in.json"
              toy_seqstr toy_format (fun f _ => f) 4
              [("request", VStr "predict");
               ("sequence_coordinates",
                VDict [("seq1", VList [VStr "chr9"; VInt 0]);
                       ("seq2", VList [VStr "chr9"; VInt 4])])]
              [("seq1", VList [VStr "chr9"; VInt 0]);
               ("seq2", VList [VStr "chr9"; VInt 4])])
    as (seqs & Erun & Hkeys & Hrel & _).
  - split; reflexivity.
  - reflexivity.
  - reflexivity.
  - reflexivity.
  - repeat constructor; exists "ACGT"%string;
      (split; [do 2 eexists; reflexivity|split; reflexivity]).
  - rewrite Erun. f_equal. f_equal. f_equal. f_equal.
    destruct seqs as [|[k1 v1] [|[k2 v2] [|]]]; try discriminate.
    injection Hkeys as -> ->.
    inversion Hrel as [|? ? ? ? (s1 & (_ & H1 & _) & E1) Hrel']; subst.
    inversion Hrel' as [|? ? ? ? (s2 & (_ & H2 & _) & E2) _]; subst.
    cbn [snd] in *. subst. injection H1 as <-. injection H2 as <-. reflexivity.
Defined.

Lemma fetch_loop_app seqstr py_format float_add seq_len :
  formats_plainly py_format ->
  forall good acc asked,
    keys_unique (map fst good) = true ->
    (forall k, In k (map fst good) -> ~ In k (map fst acc)) ->
    Forall (fun item => exists seq, fetchable seqstr seq_len (snd item) seq) good ->
    exists seqs,
      forall tail,
        DataLoader.fetch_loop seqstr py_format float_add seq_len (good ++ tail) acc asked
        = DataLoader.fetch_loop seqstr py_format float_add seq_len tail (acc ++ seqs)
            (asked ++ map (fun item => expected_input seq_len (snd item)) good).
Proof.
  intros [Hfs Hfi] good.
  induction good as [|[key v] good IH]; intros acc asked Hu Hfresh Hok.
  - exists []. intros tail. cbn. rewrite !app_nil_r. reflexivity.
  - cbn [map fst keys_unique] in Hu. apply andb_true_iff in Hu. destruct Hu as [Hk Hu].
    apply negb_true_iff, mem_false_iff in Hk.
    pose proof (Forall_inv_tail Hok) as Hok'.
    destruct (Forall_inv Hok) as (seq & (chr & c & Hv) & Hs & Hl).
    cbn [snd] in *. subst v.
    destruct (IH (dict_set key (VStr seq) acc)
                (asked ++ [expected_input seq_len (VList [VStr chr; VInt c])]) Hu)
      as (seqs & Erun); [|exact Hok'|].
    { intros k Hin. rewrite dict_set_fresh by (apply Hfresh; left; reflexivity).
      rewrite map_app, in_app_iff. cbn [map fst In].
      intros [H|[H|[]]]; [revert H; apply Hfresh; right; exact Hin|subst; contradiction]. }
    exists ((key, VStr seq) :: seqs). intros tail.
    cbn [app DataLoader.fetch_loop DataLoader.unpack_pair py_iter DataLoader.plus_int].
    unfold DataLoader.seqstr_input. rewrite !Hfs, !Hfi.
    cbn [expected_input] in Hs, Erun |- *. rewrite Hs.
    assert ((Z.of_nat (String.length seq) =? seq_len) = true) as -> by (apply Z.eqb_eq; exact Hl).
    cbn [negb]. rewrite Erun.
    rewrite dict_set_fresh by (apply Hfresh; left; reflexivity).
    rewrite <- !app_assoc. reflexivity.
Qed.

(** X21.  The loader refuses an input dict without a
    [sequence_coordinates] key before any lookup is made, and it stops at
    the first coordinate whose fetched sequence does not have the required
    length: the error names that key, the lookups made are those of the
    coordinates before it and its own, and no later coordinate is looked
    up. *)
Theorem loader_stops_at_first_bad_window parse read_file path seqstr py_format float_add
        seq_len d :
  formats_plainly py_format ->
  check_duplicates_from_json parse read_file path = Ok (VDict d) ->
  (dict_get "sequence_coordinates" d = None ->
   DataLoader.load_and_validate_data_with parse read_file path seqstr py_format float_add
     seq_len
   = (Raise (ValueError "Orca evaluator expected 'sequence_coordinates' in input JSON."),
      [])) /\
  (forall good key chr c rest seq,
      dict_get "sequence_coordinates" d
      = Some (VDict (good ++ (key, VList [VStr chr; VInt c]) :: rest)) ->
      keys_unique (map fst good) = true ->
      Forall (fun item => exists seq, fetchable seqstr seq_len (snd item) seq) good ->
      seqstr (expected_input seq_len (VList [VStr chr; VInt c])) = Ok seq ->
      Z.of_nat (String.length seq) <> seq_len ->
      DataLoader.load_and_validate_data_with parse read_file path seqstr py_format float_add
        seq_len
      = (Raise (ValueError ("Sequence " ++ key ++ " length != " ++ string_of_Z seq_len)%string),
         map (fun item => expected_input seq_len (snd item)) good
         ++ [expected_input seq_len (VList [VStr chr; VInt c])])).
Proof.
  intros Hfmt Hfile. split.
  - intros Hnone. unfold DataLoader.load_and_validate_data_with.
    rewrite Hfile. cbn [DataLoader.has_key]. rewrite Hnone. reflexivity.
  - intros good key chr c rest seq Hcoords Hu Hok Hs Hl.
    destruct (fetch_loop_app seqstr py_format float_add seq_len Hfmt good [] [] Hu)
      as (seqs & Erun); [intros k _ []|exact Hok|].
    unfold DataLoader.load_and_validate_data_with.
    rewrite Hfile. cbn [DataLoader.has_key]. rewrite Hcoords, Erun.
    destruct Hfmt as [Hfs Hfi].
    cbn [app DataLoader.fetch_loop DataLoader.unpack_pair py_iter DataLoader.plus_int].
    unfold DataLoader.seqstr_input. rewrite !Hfs, !Hfi.
    cbn [expected_input] in Hs |- *. rewrite Hs.
    assert ((Z.of_nat (String.length seq) =? seq_len) = false) as ->
        by (apply Z.eqb_neq; exact Hl).
    reflexivity.
Qed.

Lemma loader_stops_at_first_bad_window_witness :
  DataLoader.load_and_validate_data toy_parse toy_read_file "/evaluator_data/in.json"
    toy_seqstr toy_format (fun f _ => f)
  = (Raise (ValueError "Sequence seq1 length != 1000000"), ["[hg38]chr9:0-1000000 +"%string])
  /\
  DataLoader.load_and_validate_data toy_parse toy_read_file "/evaluator_data/bare.json"
    toy_seqstr toy_format (fun f _ => f)
  = (Raise (ValueError "Orca evaluator expected 'sequence_coordinates' in input JSON."), []).
Proof.
  split.
  - destruct (loader_stops_at_first_bad_window toy_parse toy_read_file
                "/evaluator_data/in.json" toy_seqstr toy_format (fun f _ => f) 1000000
                [("request", VStr "predict");
                 ("sequence_coordinates",
                  VDict [("seq1", VList [VStr "chr9"; VInt 0]);
                         ("seq2", VList [VStr "chr9"; VInt 4])])])
      as [_ H]; [split; reflexivity | reflexivity |].
    apply (H [] "seq1"%string "chr9"%string 0 [("seq2", VList [VStr "chr9"; VInt 4])]
             "ACGT"%string); try reflexivity; [constructor | cbn; lia].
  - destruct (loader_stops_at_first_bad_window toy_parse toy_read_file
                "/evaluator_data/bare.json" toy_seqstr toy_format (fun f _ => f) 1000000
                [("request", VStr "predict")])
      as [H _]; [split; reflexivity | reflexivity |].
    apply H. reflexivity.
Defined.

(** ** The coordinates file *)

Lemma string_of_Z_inj n m : 0 < n -> 0 < m -> string_of_Z n = string_of_Z m -> n = m.
Proof.
  intros Hn Hm H. unfold string_of_Z in H.
  apply (f_equal NilZero.int_of_string) in H.
  destruct n as [|p|p]; try lia. destruct m as [|q|q]; try lia.
  rewrite !NilZero.isi in H.
  - injection H as H. apply DecimalZ.to_int_inj. cbn. f_equal. exact H.
  - cbn. intros E. injection E as E. revert E. apply DecimalPos.Unsigned.to_uint_nonnil.
  - discriminate.
  - cbn. intros E. injection E as E. revert E. apply DecimalPos.Unsigned.to_uint_nonnil.
  - discriminate.
Qed.

Lemma keys_unique_NoDup keys : NoDup keys -> keys_unique keys = true.
Proof.
  induction 1 as [|k keys Hk _ IH]; [reflexivity|].
  cbn [keys_unique]. rewrite IH, andb_true_r.
  apply negb_true_iff, mem_false_iff. exact Hk.
Qed.

Lemma fold_dict_set_fresh {A} (key : A -> string) (val : A -> value) (l : list A) :
  forall acc,
    NoDup (map key l) ->
    (forall x, In x l -> ~ In (key x) (map fst acc)) ->
    fold_left (fun d x => dict_set (key x) (val x) d) l acc
    = acc ++ map (fun x => (key x, val x)) l.
Proof.
  induction l as [|x l IH]; intros acc Hnd Hfresh; cbn [fold_left map].
  - rewrite app_nil_r. reflexivity.
  - inversion Hnd as [|? ? Hx Hnd']; subst.
    rewrite dict_set_fresh by (apply Hfresh; left; reflexivity).
    rewrite IH; [rewrite <- app_assoc; reflexivity | exact Hnd' |].
    intros y Hy. rewrite map_app, in_app_iff. cbn [map fst In].
    intros [H|[H|[]]].
    + revert H. apply Hfresh. right. exact Hy.
    + apply Hx. rewrite H. apply in_map. exact Hy.
Qed.

Lemma enumerate_map {A} (f : nat -> A) n :
  forall i k,
    MakeJsonFiles.enumerate i (map f (seq k n))
    = map (fun j => (i + Z.of_nat (j - k), f j)) (seq k n).
Proof.
  induction n as [|n IH]; intros i k; [reflexivity|].
  cbn [seq map MakeJsonFiles.enumerate]. rewrite IH.
  f_equal; [f_equal; lia|].
  apply map_ext_in. intros j Hj. apply in_seq in Hj. f_equal. lia.
Qed.

(** X22.  For a positive segment size, the script produces one coordinate
    for every multiple of the segment size that lies strictly below
    [chrom_length - segment_size]: the keys are [seq1], [seq2], ... in
    order, all different, entry [i] starts at [(i - 1) * segment_size], and
    every window [start .. start + segment_size] ends strictly inside the
    chromosome; the window after the last one would not. *)
Theorem coordinates_tile_the_chromosome chrom chrom_length segment_size :
  0 < segment_size ->
  let n := Z.to_nat ((chrom_length - 1) / segment_size) in
  MakeJsonFiles.sequence_coordinates chrom chrom_length segment_size
  = map (fun i => (("seq" ++ string_of_Z (Z.of_nat i + 1))%string,
                   VList [VStr chrom; VInt (Z.of_nat i * segment_size)]))
        (seq 0 n) /\
  keys_unique (map fst (MakeJsonFiles.sequence_coordinates chrom chrom_length segment_size))
  = true /\
  (forall i, (i < n)%nat ->
             0 <= Z.of_nat i * segment_size /\
             Z.of_nat i * segment_size + segment_size < chrom_length) /\
  chrom_length <= Z.of_nat n * segment_size + segment_size.
Proof.
  intros HS n.
  assert (NoDup (map (fun i => ("seq" ++ string_of_Z (Z.of_nat i + 1))%string) (seq 0 n)))
    as Hnd.
  { apply Injective_map_NoDup; [|apply seq_NoDup].
    intros i j H. injection H as H. apply string_of_Z_inj in H; lia. }
  assert (MakeJsonFiles.sequence_coordinates chrom chrom_length segment_size
          = map (fun i => (("seq" ++ string_of_Z (Z.of_nat i + 1))%string,
                           VList [VStr chrom; VInt (Z.of_nat i * segment_size)]))
                (seq 0 n)) as Heq.
  { unfold MakeJsonFiles.sequence_coordinates, MakeJsonFiles.py_range.
    assert ((segment_size <=? 0) = false) as -> by (apply Z.leb_gt; lia).
    replace (chrom_length - segment_size - 0 + segment_size - 1) with (chrom_length - 1)
      by lia.
    fold n. rewrite enumerate_map.
    rewrite (fold_dict_set_fresh
               (fun ix : Z * Z => ("seq" ++ string_of_Z (fst ix))%string)
               (fun ix : Z * Z => VList [VStr chrom; VInt (snd ix)])).
    - cbn [app]. rewrite map_map. apply map_ext_in. intros i Hi.
      cbn [fst snd]. rewrite Nat.sub_0_r.
      replace (1 + Z.of_nat i) with (Z.of_nat i + 1) by lia.
      replace (0 + Z.of_nat i * segment_size) with (Z.of_nat i * segment_size) by lia.
      reflexivity.
    - rewrite map_map. cbn [fst].
      erewrite map_ext_in; [exact Hnd|].
      intros i _. cbn [fst]. rewrite Nat.sub_0_r.
      replace (1 + Z.of_nat i) with (Z.of_nat i + 1) by lia. reflexivity.
    - intros x _ []. }
  split; [exact Heq|]. split.
  - rewrite Heq, map_map. cbn [fst]. apply keys_unique_NoDup. exact Hnd.
  - assert (0 <= (chrom_length - 1) / segment_size \/ (chrom_length - 1) / segment_size < 0)
      as [Hq|Hq] by lia.
    + pose proof (Z.mul_div_le (chrom_length - 1) segment_size HS).
      pose proof (Z.mul_succ_div_gt (chrom_length - 1) segment_size HS).
      split.
      * intros i Hi. split; [nia|]. subst n.
        assert (Z.of_nat i + 1 <= (chrom_length - 1) / segment_size) by lia. nia.
      * subst n. rewrite Z2Nat.id by lia. nia.
    + split.
      * intros i Hi. subst n. lia.
      * subst n. replace (Z.to_nat ((chrom_length - 1) / segment_size)) with 0%nat by lia.
        pose proof (Z.mul_succ_div_gt (chrom_length - 1) segment_size HS). nia.
Qed.

Lemma coordinates_tile_the_chromosome_witness :
  List.length (MakeJsonFiles.sequence_coordinates "chr8" 145138636 1000000) = 145%nat.
Proof.
  destruct (coordinates_tile_the_chromosome "chr8" 145138636 1000000) as [H _]; [lia|].
  rewrite H, length_map, length_seq. reflexivity.
Defined.
